(** * nc-talk-bot: the signed message protocol and the command pipeline

    A shallow embedding of [main.go]: a Nextcloud Talk bot that verifies
    the HMAC signature of an inbound chat message, recognises the
    [@ha <action> <target>] command, forwards it to a Home Assistant
    webhook and posts a signed reply back to the chat backend.

    Go strings are byte sequences; they are modelled by [string]
    (a list of 8-bit [ascii]).  The functions of the Go standard library
    whose result is determined by their arguments and that the handler
    relies on ([crypto/sha256], [crypto/hmac], [encoding/hex],
    [strings.Fields], [strings.TrimRight], [regexp]) are written out from
    their documentation; the ones that talk to the outside world
    ([net/http], [math/rand]) and the JSON decoder are fields of an
    environment the theorems quantify over. *)

From Stdlib Require Import String Ascii List Bool Arith NArith Lia.
From Stdlib Require Import DecimalString.
Import ListNotations.

Local Open Scope list_scope.
Local Open Scope string_scope.

Set Warnings "-register-all".

(* ------------------------------------------------------------------ *)
(** ** Bytes and strings *)

Module Bytes.

Definition byte_of (c : ascii) : N := N_of_ascii c.
Definition char_of (n : N) : ascii := ascii_of_N (n mod 256).

Definition to_bytes (s : string) : list N := map byte_of (list_ascii_of_string s).
Definition of_bytes (l : list N) : string := string_of_list_ascii (map char_of l).

(** [strings.Repeat] for a one-byte string. *)
Fixpoint replicate (n : nat) (c : ascii) : string :=
  match n with
  | O => EmptyString
  | S k => String c (replicate k c)
  end.

Fixpoint forallb_str (p : ascii -> bool) (s : string) : bool :=
  match s with
  | EmptyString => true
  | String c r => p c && forallb_str p r
  end.

Fixpoint existsb_str (p : ascii -> bool) (s : string) : bool :=
  match s with
  | EmptyString => false
  | String c r => p c || existsb_str p r
  end.

Definition inb (c : ascii) (set : string) : bool :=
  existsb_str (Ascii.eqb c) set.

End Bytes.

(* ------------------------------------------------------------------ *)
(** ** crypto/sha256, crypto/hmac, encoding/hex

    SHA-256 as in FIPS 180-4 and HMAC as in RFC 2104, on 32-bit words
    held in [N] with the wrap-around written out. *)

Module Crypto.
Local Open Scope list_scope.
Local Open Scope N_scope.

Definition mask32 : N := 0xFFFFFFFF.
Definition add32 (a b : N) : N := (a + b) mod 0x100000000.
Definition rotr (k x : N) : N :=
  N.lor (N.shiftr x k) (N.land (N.shiftl x (32 - k)) mask32).
Definition not32 (x : N) : N := N.lxor x mask32.

Definition Ch (x y z : N) := N.lxor (N.land x y) (N.land (not32 x) z).
Definition Maj (x y z : N) :=
  N.lxor (N.lxor (N.land x y) (N.land x z)) (N.land y z).
Definition bigSigma0 x := N.lxor (N.lxor (rotr 2 x) (rotr 13 x)) (rotr 22 x).
Definition bigSigma1 x := N.lxor (N.lxor (rotr 6 x) (rotr 11 x)) (rotr 25 x).
Definition smallSigma0 x := N.lxor (N.lxor (rotr 7 x) (rotr 18 x)) (N.shiftr x 3).
Definition smallSigma1 x := N.lxor (N.lxor (rotr 17 x) (rotr 19 x)) (N.shiftr x 10).

(** The constants of FIPS 180-4 are defined from the primes: the round
    constants are the first 32 bits of the fractional parts of the cube
    roots of the first 64 primes, the initial chaining value those of
    the square roots of the first 8. *)
Definition isPrime (n : nat) : bool :=
  Nat.leb 2 n && forallb (fun k => negb (Nat.eqb (n mod k) 0)) (seq 2 (n - 2)).

Definition primes (count : nat) : list N :=
  map N.of_nat (firstn count (filter isPrime (seq 2 310))).

(** The greatest [r] below [2 ^ bits] with [r ^ 3 <= n], bit by bit. *)
Fixpoint cubeRoot (bits : nat) (n r : N) : N :=
  match bits with
  | O => r
  | S k =>
      let r' := N.lor r (N.shiftl 1 (N.of_nat k)) in
      cubeRoot k n (if r' * r' * r' <=? n then r' else r)
  end.

Definition fractionOfCubeRoot (p : N) : N :=
  cubeRoot 36 (N.shiftl p 96) 0 mod 0x100000000.

Definition fractionOfSquareRoot (p : N) : N :=
  N.sqrt (N.shiftl p 64) mod 0x100000000.

Definition roundConstants : list N :=
  Eval vm_compute in map fractionOfCubeRoot (primes 64).

(** The eight working variables, and the chaining value. *)
Record state8 := St8 { ha : N; hb : N; hc : N; hd : N;
                       he : N; hf : N; hg : N; hh : N }.

Definition initState : state8 :=
  Eval vm_compute in
    match map fractionOfSquareRoot (primes 8) with
    | [a; b; c; d; e; f; g; h] => St8 a b c d e f g h
    | _ => St8 0 0 0 0 0 0 0 0
    end.

(** The [width] low bytes of [v], most significant first. *)
Definition be_bytes (width : nat) (v : N) : list N :=
  map (fun i => N.shiftr v (8 * N.of_nat i) mod 256) (rev (seq 0 width)).

(** Padding: a 1 bit, zeros up to 56 mod 64, the bit length on 8 bytes. *)
Definition pad (msg : list N) : list N :=
  let len := length msg in
  let zeros := ((64 - ((len + 9) mod 64)) mod 64)%nat in
  msg ++ [0x80] ++ repeat 0 zeros ++ be_bytes 8 (8 * N.of_nat len).

Fixpoint words_of (l : list N) : list N :=
  match l with
  | b0 :: b1 :: b2 :: b3 :: r =>
      (b0 * 0x1000000 + b1 * 0x10000 + b2 * 0x100 + b3) :: words_of r
  | _ => []
  end.

(** The message schedule: [win] holds the last sixteen words, oldest
    first; each step emits the oldest and appends the next one. *)
Definition nextWord (win : list N) : N :=
  add32 (add32 (smallSigma1 (nth 14 win 0)) (nth 9 win 0))
        (add32 (smallSigma0 (nth 1 win 0)) (nth 0 win 0)).

Fixpoint schedule (n : nat) (win : list N) : list N :=
  match n with
  | O => []
  | S k => nth 0 win 0 :: schedule k (tl win ++ [nextWord win])
  end.

Definition round (s : state8) (kw : N * N) : state8 :=
  let '(k, w) := kw in
  let t1 := add32 (add32 (add32 (hh s) (bigSigma1 (he s)))
                         (add32 (Ch (he s) (hf s) (hg s)) k)) w in
  let t2 := add32 (bigSigma0 (ha s)) (Maj (ha s) (hb s) (hc s)) in
  St8 (add32 t1 t2) (ha s) (hb s) (hc s) (add32 (hd s) t1) (he s) (hf s) (hg s).

Definition compress (h : state8) (block : list N) : state8 :=
  let w := schedule 64 (words_of block) in
  let s := fold_left round (combine roundConstants w) h in
  St8 (add32 (ha h) (ha s)) (add32 (hb h) (hb s))
      (add32 (hc h) (hc s)) (add32 (hd h) (hd s))
      (add32 (he h) (he s)) (add32 (hf h) (hf s))
      (add32 (hg h) (hg s)) (add32 (hh h) (hh s)).

(** One block per step; [n] bounds the number of blocks. *)
Fixpoint blocks (n : nat) (h : state8) (l : list N) : state8 :=
  match n with
  | O => h
  | S k =>
      match l with
      | [] => h
      | _ => blocks k (compress h (firstn 64 l)) (skipn 64 l)
      end
  end.

Definition digest_bytes (s : state8) : list N :=
  be_bytes 4 (ha s) ++ be_bytes 4 (hb s) ++ be_bytes 4 (hc s) ++
  be_bytes 4 (hd s) ++ be_bytes 4 (he s) ++ be_bytes 4 (hf s) ++
  be_bytes 4 (hg s) ++ be_bytes 4 (hh s).

(** [sha256.Sum256] *)
Definition sha256 (msg : list N) : list N :=
  let p := pad msg in
  digest_bytes (blocks (length p) initState p).

Definition blockSize : nat := 64.

(** [hmac.New(sha256.New, key)], [Write(msg)], [Sum(nil)] *)
Definition hmac_sha256 (key msg : list N) : list N :=
  let key' := if Nat.ltb blockSize (length key) then sha256 key else key in
  let padded := key' ++ repeat 0 (blockSize - length key') in
  let ipad := map (N.lxor 0x36) padded in
  let opad := map (N.lxor 0x5c) padded in
  sha256 (opad ++ sha256 (ipad ++ msg)).

Definition hextable : string := "0123456789abcdef".

Definition hexdigit (n : N) : ascii :=
  match String.get (N.to_nat n) hextable with
  | Some c => c
  | None => "0"%char
  end.

(** [hex.EncodeToString] *)
Fixpoint hexEncode (l : list N) : string :=
  match l with
  | [] => EmptyString
  | b :: r => String (hexdigit (b / 16)) (String (hexdigit (b mod 16)) (hexEncode r))
  end.

End Crypto.

Import Bytes.

(* ------------------------------------------------------------------ *)
(** ** unicode/utf8 and unicode.IsSpace *)

Module Utf8.
Local Open Scope N_scope.

Definition RuneError : N := 0xFFFD.
Definition RuneSelf : N := 0x80.

Definition isASCII (c : ascii) : bool := byte_of c <? RuneSelf.

Definition nthByte (i : nat) (s : string) : option N :=
  option_map byte_of (String.get i s).

Definition between (lo hi b : N) : bool := (lo <=? b) && (b <=? hi).

(** The table [first] of package utf8: for a leading byte, the length
    of the sequence and the range its second byte must lie in. *)
Definition leading (b0 : N) : option (nat * N * N) :=
  if between 0xC2 0xDF b0 then Some (2%nat, 0x80, 0xBF)
  else if b0 =? 0xE0 then Some (3%nat, 0xA0, 0xBF)
  else if between 0xE1 0xEC b0 then Some (3%nat, 0x80, 0xBF)
  else if b0 =? 0xED then Some (3%nat, 0x80, 0x9F)
  else if between 0xEE 0xEF b0 then Some (3%nat, 0x80, 0xBF)
  else if b0 =? 0xF0 then Some (4%nat, 0x90, 0xBF)
  else if between 0xF1 0xF3 b0 then Some (4%nat, 0x80, 0xBF)
  else if b0 =? 0xF4 then Some (4%nat, 0x80, 0x8F)
  else None.

Definition cont (b : N) : N := N.land b 0x3F.

(** [utf8.DecodeRuneInString]: the rune at the head of [s] and its
    width in bytes; [(RuneError, 1)] for an invalid or short sequence,
    [(RuneError, 0)] for the empty string. *)
Definition DecodeRuneInString (s : string) : N * nat :=
  match nthByte 0 s with
  | None => (RuneError, 0%nat)
  | Some b0 =>
      if b0 <? RuneSelf then (b0, 1%nat)
      else
        match leading b0 with
        | None => (RuneError, 1%nat)
        | Some (sz, lo, hi) =>
            if Nat.ltb (String.length s) sz then (RuneError, 1%nat)
            else
              match nthByte 1 s with
              | None => (RuneError, 1%nat)
              | Some b1 =>
                  if negb (between lo hi b1) then (RuneError, 1%nat)
                  else if Nat.leb sz 2
                  then (N.lor (N.shiftl (N.land b0 0x1F) 6) (cont b1), 2%nat)
                  else
                    match nthByte 2 s with
                    | None => (RuneError, 1%nat)
                    | Some b2 =>
                        if negb (between 0x80 0xBF b2) then (RuneError, 1%nat)
                        else if Nat.leb sz 3
                        then (N.lor (N.lor (N.shiftl (N.land b0 0x0F) 12)
                                           (N.shiftl (cont b1) 6)) (cont b2), 3%nat)
                        else
                          match nthByte 3 s with
                          | None => (RuneError, 1%nat)
                          | Some b3 =>
                              if negb (between 0x80 0xBF b3) then (RuneError, 1%nat)
                              else (N.lor (N.lor (N.lor (N.shiftl (N.land b0 0x07) 18)
                                                        (N.shiftl (cont b1) 12))
                                                 (N.shiftl (cont b2) 6)) (cont b3), 4%nat)
                          end
                    end
              end
        end
  end.

(** [unicode.IsSpace]: the Latin-1 cases, then the White_Space table. *)
Definition IsSpace (r : N) : bool :=
  if r <=? 0xFF then
    between 0x09 0x0D r || (r =? 0x20) || (r =? 0x85) || (r =? 0xA0)
  else
    (r =? 0x1680) || between 0x2000 0x200A r || between 0x2028 0x2029 r
    || (r =? 0x202F) || (r =? 0x205F) || (r =? 0x3000).

End Utf8.

(* ------------------------------------------------------------------ *)
(** ** package strings: Fields, FieldsFunc, TrimRight *)

Module Strings.

(** The table [asciiSpace]: tab, line feed, vertical tab, form feed,
    carriage return, space. *)
Definition asciiSpace (c : ascii) : bool :=
  let b := byte_of c in
  (Utf8.between 0x09 0x0D b || (b =? 0x20))%N.

(** The field under construction: [None] when the scan is between
    fields ([start < 0] in the Go code), [Some f] when a field has
    started and [f] holds its bytes so far. *)
Definition extend (cur : option string) (c : ascii) : option string :=
  match cur with
  | None => Some (String c EmptyString)
  | Some f => Some (f ++ String c EmptyString)
  end.

Definition flush (cur : option string) (rest : list string) : list string :=
  match cur with
  | None => rest
  | Some f => f :: rest
  end.

(** The ASCII path of [Fields]: one byte at a time. *)
Fixpoint fieldsASCII (s : string) (cur : option string) : list string :=
  match s with
  | EmptyString => flush cur []
  | String c r =>
      if asciiSpace c then flush cur (fieldsASCII r None)
      else fieldsASCII r (extend cur c)
  end.

(** [FieldsFunc(s, f)]: [for end, rune := range s].  The loop advances
    one rune at a time; here it advances one byte at a time and
    [pending] counts the bytes of the current rune still to be passed,
    [sp] remembering whether [f] held of that rune. *)
Fixpoint fieldsRunes (f : N -> bool) (s : string) (pending : nat) (sp : bool)
         (cur : option string) : list string :=
  match s with
  | EmptyString => flush cur []
  | String c r =>
      let '(sp', pending') :=
        match pending with
        | O => let '(rune, size) := Utf8.DecodeRuneInString s in
               (f rune, Nat.pred size)
        | S k => (sp, k)
        end in
      if sp' then flush cur (fieldsRunes f r pending' sp' None)
      else fieldsRunes f r pending' sp' (extend cur c)
  end.

Definition FieldsFunc (s : string) (f : N -> bool) : list string :=
  fieldsRunes f s 0 false None.

(** [strings.Fields]: the ASCII path when every byte is below
    [utf8.RuneSelf], [FieldsFunc(s, unicode.IsSpace)] otherwise. *)
Definition Fields (s : string) : list string :=
  if forallb_str Utf8.isASCII s then fieldsASCII s None
  else FieldsFunc s Utf8.IsSpace.

(** [strings.TrimRight(s, cutset)] for a cutset of ASCII bytes: the
    trailing bytes of [s] that belong to [cutset] are removed. *)
Fixpoint TrimRight (s cutset : string) : string :=
  match s with
  | EmptyString => EmptyString
  | String c r =>
      match TrimRight r cutset with
      | EmptyString => if inb c cutset then EmptyString else String c EmptyString
      | t => String c t
      end
  end.

(** [strconv.Itoa] on a non-negative int. *)
Definition Itoa (n : nat) : string := NilEmpty.string_of_uint (Nat.to_uint n).

End Strings.

Definition TAB : string := String "009"%char EmptyString.
Definition LF : string := String "010"%char EmptyString.
Definition DQ : string := String "034"%char EmptyString.

(** Test inputs are written with apostrophes where the text has double
    quotes. *)
Fixpoint q (s : string) : string :=
  match s with
  | EmptyString => EmptyString
  | String c r => String (if Ascii.eqb c "'"%char then "034"%char else c) (q r)
  end.

(* ------------------------------------------------------------------ *)
(** ** package regexp

    The syntax the trigger pattern needs, over bytes.  Every literal and
    class of the pattern is ASCII, and an ASCII byte is always a rune of
    its own in Go's UTF-8 decoding, so matching byte by byte agrees with
    matching rune by rune. *)

Module Regexp.

Inductive re : Type :=
| Void                               (* matches nothing *)
| Eps                                (* the empty string *)
| Lit (c : ascii)                    (* one literal byte *)
| Class (p : ascii -> bool)          (* one byte of a class *)
| Cat (r1 r2 : re)
| Alt (r1 r2 : re)
| Star (r : re).

(** [x+] *)
Definition Plus (r : re) : re := Cat r (Star r).

(** [\s] is [[\t\n\f\r ]] and [\w] is [[0-9A-Za-z_]]. *)
Definition perlSpace (c : ascii) : bool :=
  let b := byte_of c in
  ((b =? 0x09) || (b =? 0x0A) || (b =? 0x0C) || (b =? 0x0D) || (b =? 0x20))%N.

Definition perlWord (c : ascii) : bool :=
  let b := byte_of c in
  (Utf8.between 0x30 0x39 b || Utf8.between 0x41 0x5A b
   || Utf8.between 0x61 0x7A b || (b =? 0x5F))%N.

(** The strings an expression denotes. *)
Inductive lang : re -> string -> Prop :=
| L_Eps : lang Eps EmptyString
| L_Lit c : lang (Lit c) (String c EmptyString)
| L_Class p c : p c = true -> lang (Class p) (String c EmptyString)
| L_Cat r1 r2 u v : lang r1 u -> lang r2 v -> lang (Cat r1 r2) (u ++ v)
| L_AltL r1 r2 u : lang r1 u -> lang (Alt r1 r2) u
| L_AltR r1 r2 u : lang r2 u -> lang (Alt r1 r2) u
| L_StarNil r : lang (Star r) EmptyString
| L_StarCons r u v : lang r u -> lang (Star r) v -> lang (Star r) (u ++ v).

Fixpoint nullable (r : re) : bool :=
  match r with
  | Void => false
  | Eps => true
  | Lit _ => false
  | Class _ => false
  | Cat r1 r2 => nullable r1 && nullable r2
  | Alt r1 r2 => nullable r1 || nullable r2
  | Star _ => true
  end.

(** The expression for what may follow once the byte [c] is read. *)
Fixpoint deriv (c : ascii) (r : re) : re :=
  match r with
  | Void => Void
  | Eps => Void
  | Lit d => if Ascii.eqb c d then Eps else Void
  | Class p => if p c then Eps else Void
  | Cat r1 r2 =>
      if nullable r1 then Alt (Cat (deriv c r1) r2) (deriv c r2)
      else Cat (deriv c r1) r2
  | Alt r1 r2 => Alt (deriv c r1) (deriv c r2)
  | Star r1 => Cat (deriv c r1) (Star r1)
  end.

(** Does some prefix of [s] belong to the expression? *)
Fixpoint matchPrefix (r : re) (s : string) : bool :=
  nullable r ||
  match s with
  | EmptyString => false
  | String c t => matchPrefix (deriv c r) t
  end.

(** Does a match start at some position of [s]? *)
Fixpoint matchAnywhere (r : re) (s : string) : bool :=
  matchPrefix r s ||
  match s with
  | EmptyString => false
  | String _ t => matchAnywhere r t
  end.

(** A compiled expression: a leading [^] pins the match to the start
    of the text. *)
Record Regexp := { beginText : bool; expr : re }.

(** The method [Match] of a compiled expression: whether the text
    contains any match. *)
Definition Match (r : Regexp) (b : string) : bool :=
  if beginText r then matchPrefix (expr r) b else matchAnywhere (expr r) b.

End Regexp.

(* ------------------------------------------------------------------ *)
(** ** The data model of main.go *)

Record MessageActor := {
  ActorType : string;
  ActorId : string;
  ActorName : string
}.

Record MessageObject := {
  ObjectType : string;
  ObjectId : string;
  ObjectName : string;
  ObjectContent : string;
  ObjectMediaType : string
}.

Record MessageTarget := {
  TargetType : string;
  TargetId : string;
  TargetName : string
}.

Record Message := {
  MessageType : string;
  Actor : MessageActor;
  Object : MessageObject;
  Target : MessageTarget
}.

Record Response := {
  ResponseMessage : string;
  ReplyTo : string
}.

Record RichObjectMessage := {
  RichMessage : string
}.

(** A Go [error]: [None] is [nil], [Some text] an error with that text. *)
Definition error := option string.

Definition errInvalidBody : error := Some "Invalid body supplied".
Definition letterBytes : string :=
  "abcdefghijklmnopqrstuvwxyzABCDEFGHIJKLMNOPQRSTUVWXYZ0123456789".
Definition possibleResponses : list string := ["Done!"].

(** [regexp.MustCompile("^@ha\\s\\w+\\s\\w+")] *)
Definition triggerMessageRegex : Regexp.Regexp :=
  let s := Regexp.Class Regexp.perlSpace in
  let w := Regexp.Plus (Regexp.Class Regexp.perlWord) in
  {| Regexp.beginText := true;
     Regexp.expr :=
       Regexp.Cat (Regexp.Lit "@") (Regexp.Cat (Regexp.Lit "h") (Regexp.Cat (Regexp.Lit "a")
         (Regexp.Cat s (Regexp.Cat w (Regexp.Cat s w))))) |}.

(** The configuration read at start-up ([config.GetString]). *)
Record Config := {
  bot_port : string;
  bot_secret : string;
  bot_ha_url : string;
  bot_ha_webhook_id : string
}.

(* ------------------------------------------------------------------ *)
(** ** net/http as the handler sees it *)

Module Http.

Definition MethodPost : string := "POST".
Definition StatusOK : nat := 200.
Definition StatusBadRequest : nat := 400.

Definition isUpper (c : ascii) : bool := Utf8.between 0x41 0x5A (byte_of c).
Definition isLower (c : ascii) : bool := Utf8.between 0x61 0x7A (byte_of c).
Definition toUpper (c : ascii) : ascii :=
  if isLower c then char_of (byte_of c - 32) else c.
Definition toLower (c : ascii) : ascii :=
  if isUpper c then char_of (byte_of c + 32) else c.

(** The bytes allowed in a header field name (RFC 7230 token). *)
Definition validHeaderFieldByte (c : ascii) : bool :=
  isUpper c || isLower c || Utf8.between 0x30 0x39 (byte_of c)
  || inb c "!#$%&'*+-.^_`|~".

Fixpoint canonical (upper : bool) (s : string) : string :=
  match s with
  | EmptyString => EmptyString
  | String c r =>
      let c' := if upper then toUpper c else toLower c in
      String c' (canonical (Ascii.eqb c' "-") r)
  end.

(** [textproto.CanonicalMIMEHeaderKey]: the first letter and every
    letter after a hyphen in upper case, the others in lower case; a
    key with a byte that is not allowed is left as it is. *)
Definition CanonicalMIMEHeaderKey (s : string) : string :=
  if forallb_str validHeaderFieldByte s then canonical true s else s.

(** [http.Header], keyed by canonical names. *)
Definition Header := list (string * string).

Fixpoint lookup (k : string) (h : Header) : option string :=
  match h with
  | [] => None
  | (k', v) :: r => if String.eqb k k' then Some v else lookup k r
  end.

(** [Header.Get]: the value under the canonical form of [key], or the
    empty string. *)
Definition Get (h : Header) (key : string) : string :=
  match lookup (CanonicalMIMEHeaderKey key) h with
  | Some v => v
  | None => EmptyString
  end.

(** [Header.Set]: replaces what the canonical form of [key] held. *)
Definition Set_ (h : Header) (key value : string) : Header :=
  let k := CanonicalMIMEHeaderKey key in
  (k, value) :: filter (fun kv => negb (String.eqb k (fst kv))) h.

(** The request body as a stream: what [io.ReadAll] returns for it. *)
Record BodyStream := { data : string; readErr : error }.

(** The parts of [*http.Request] the handler reads. *)
Record Request := {
  Method : string;
  ReqHeader : Header;
  Body : BodyStream
}.

(** A request built by [http.NewRequest] and completed with
    [Header.Set]. *)
Record OutRequest := {
  OutMethod : string;
  OutURL : string;
  OutHeader : Header;
  OutBody : string
}.

(** What [http.Post] returns: a transport error, or a response with
    its status code. *)
Inductive PostResult :=
| PostFailed (err : string)
| PostResponse (StatusCode : nat).

(** The settings of an [http.Client] that the program chooses. *)
Record Client := {
  TimeoutSeconds : nat;
  InsecureSkipVerify : bool
}.

End Http.

(* ------------------------------------------------------------------ *)
(** ** The environment

    What the program obtains from outside its own code: the JSON codec
    of [encoding/json], the URL check of [http.NewRequest], the answers
    of the network and the values of [math/rand]. *)

Record Env := {
  (** [json.NewDecoder(strings.NewReader(input)).Decode(&message)] for a
      [Message]: the struct as the decoder leaves it, and the error. *)
  jsonDecodeMessage : string -> Message * error;
  (** The same for a [RichObjectMessage]. *)
  jsonDecodeRichObjectMessage : string -> RichObjectMessage * error;
  (** [json.Marshal(response)]. *)
  jsonMarshalResponse : Response -> string;
  (** The error of [http.NewRequest(method, url, body)]. *)
  newRequestError : string -> string -> error;
  (** [http.Post(url, contentType, body)]. *)
  httpPost : string -> string -> string -> Http.PostResult;
  (** The error of [client.Do(request)]. *)
  clientDo : Http.Client -> Http.OutRequest -> error;
  (** The values the generator of [math/rand] hands out, in order. *)
  randSource : nat -> nat
}.

(* ------------------------------------------------------------------ *)
(** ** Effects

    The handler reads its request, writes to its [ResponseWriter], logs
    and calls the network; [sendReply] may end the process.  A run
    threads a [World] and either returns or exits. *)

Inductive Event :=
| ReadBody                                        (* io.ReadAll(r.Body) *)
| Log (line : string)                             (* log.Printf, log.Println *)
| HttpError (text : string) (code : nat)          (* http.Error(w, text, code) *)
| WebhookPost (url contentType : string) (jsonData : option string)
                                                  (* http.Post(url, contentType, bytes.NewBuffer(jsonData)) *)
| ClientDo (client : Http.Client) (request : Http.OutRequest).
                                                  (* client.Do(request) *)

Record World := {
  draws : nat;            (* values taken from math/rand so far *)
  trace : list Event      (* what the process has done, oldest first *)
}.

Inductive Outcome (A : Type) :=
| Returned (a : A)
| Exited (code : nat).   (* os.Exit(code) *)

Arguments Returned {A} a.
Arguments Exited {A} code.

Definition M (A : Type) : Type := World -> Outcome A * World.

Definition ret {A} (a : A) : M A := fun w => (Returned a, w).

Definition bind {A B} (m : M A) (k : A -> M B) : M B :=
  fun w =>
    match m w with
    | (Returned a, w') => k a w'
    | (Exited c, w') => (Exited c, w')
    end.

Notation "x <- m ;; k" := (bind m (fun x => k))
  (at level 61, m at next level, right associativity).
Notation "m ;;; k" := (bind m (fun _ => k))
  (at level 61, right associativity).

Definition emit (e : Event) : M unit :=
  fun w => (Returned tt, {| draws := draws w; trace := (trace w ++ [e])%list |}).

Definition osExit {A} (code : nat) : M A := fun w => (Exited code, w).

Definition logPrint (line : string) : M unit := emit (Log line).

(* ------------------------------------------------------------------ *)
(** ** The program *)

(** [generateHmacForString]: the lower-case hexadecimal HMAC-SHA256 of
    [random + message] under [secret]. *)
Definition generateHmacForString (message random secret : string) : string :=
  let sum := Crypto.hmac_sha256 (to_bytes secret) (to_bytes (random ++ message)) in
  Crypto.hexEncode sum.

(** [s[i]] *)
Definition byteAt (s : string) (i : nat) : ascii :=
  match String.get i s with
  | Some c => c
  | None => "000"%char
  end.

(** The body of [commandToJson]'s [fmt.Sprintf]: the format with its two
    [%s] replaced. *)
Definition commandFormat (action target : string) : string :=
  "{" ++ LF ++
  TAB ++ TAB ++ TAB ++ DQ ++ "action" ++ DQ ++ ": " ++ DQ ++ action ++ DQ ++ "," ++ LF ++
  TAB ++ TAB ++ TAB ++ DQ ++ "target" ++ DQ ++ ": " ++ DQ ++ target ++ DQ ++ LF ++
  TAB ++ TAB ++ "}".

Section Bot.

Variable env : Env.
Variable config : Config.

Definition createMessage (input : string) : Message * error :=
  let '(message, err) := jsonDecodeMessage env input in
  match err with
  | Some _ => (message, errInvalidBody)
  | None => (message, None)
  end.

Definition createRichMessageWithoutParameters (input : string)
  : RichObjectMessage * error :=
  let '(message, err) := jsonDecodeRichObjectMessage env input in
  match err with
  | Some _ => (message, errInvalidBody)
  | None => (message, None)
  end.

(** [rand.Intn(n)] *)
Definition randIntn (n : nat) : M nat :=
  fun w => (Returned (randSource env (draws w) mod n),
            {| draws := S (draws w); trace := trace w |}).

Fixpoint generateRandomBytes (n : nat) : M string :=
  match n with
  | O => ret EmptyString
  | S k =>
      i <- randIntn (String.length letterBytes) ;;
      rest <- generateRandomBytes k ;;
      ret (String (byteAt letterBytes i) rest)
  end.

Definition getRandomResponse : M string :=
  i <- randIntn (List.length possibleResponses) ;;
  ret (nth i possibleResponses EmptyString).

(** The client of [sendReply]: a 30 second timeout, and a transport that
    does not verify certificates. *)
Definition replyClient : Http.Client :=
  {| Http.TimeoutSeconds := 30; Http.InsecureSkipVerify := true |}.

Definition sendReply (server : string) (message : Message) (responseText : string)
  : M unit :=
  random <- generateRandomBytes 64 ;;
  let signature := generateHmacForString responseText random (bot_secret config) in
  let response := {| ResponseMessage := responseText;
                     ReplyTo := ObjectId (Object message) |} in
  let responseBody := jsonMarshalResponse env response in
  let requestURL := server ++ "ocs/v2.php/apps/spreed/api/v1/bot/"
                           ++ TargetId (Target message) ++ "/message" in
  match newRequestError env "POST" requestURL with
  | Some err =>
      logPrint ("[Response]      Error creating request " ++ err) ;;;
      osExit 1
  | None =>
      let header := Http.Set_ [] "Content-Type" "application/json" in
      let header := Http.Set_ header "OCS-APIRequest" "true" in
      let header := Http.Set_ header "X-Nextcloud-Talk-Bot-Random" random in
      let header := Http.Set_ header "X-Nextcloud-Talk-Bot-Signature" signature in
      let request := {| Http.OutMethod := "POST"; Http.OutURL := requestURL;
                        Http.OutHeader := header; Http.OutBody := responseBody |} in
      emit (ClientDo replyClient request) ;;;
      match clientDo env replyClient request with
      | Some err => logPrint ("[Response]      Error posting request " ++ err)
      | None => ret tt
      end
  end.

Definition callWebhook (jsonData : option string) : M bool :=
  let cleanedURL := Strings.TrimRight (bot_ha_url config) "/" in
  let url := cleanedURL ++ "/api/webhook/" ++ bot_ha_webhook_id config in
  let buffer := match jsonData with Some b => b | None => EmptyString end in
  emit (WebhookPost url "application/json" jsonData) ;;;
  match httpPost env url "application/json" buffer with
  | Http.PostFailed err =>
      logPrint ("[Webhook]       POST request failed: " ++ err) ;;;
      ret false
  | Http.PostResponse StatusCode =>
      if Nat.eqb StatusCode Http.StatusOK then
        logPrint "[Webhook]       POST request was successful!" ;;;
        ret true
      else
        logPrint ("[Webhook]       POST request failed with status code: "
                  ++ Strings.Itoa StatusCode) ;;;
        ret false
  end.

Definition commandToJson (command : string) : M (option string) :=
  let words := Strings.Fields command in
  if Nat.leb 3 (List.length words) then
    ret (Some (commandFormat (nth 1 words EmptyString) (nth 2 words EmptyString)))
  else
    logPrint "[Talk]          Command doesn't contain at least two words." ;;;
    ret None.

Definition readAll (b : Http.BodyStream) : M (string * error) :=
  emit ReadBody ;;; ret (Http.data b, Http.readErr b).

Definition httpError (text : string) (code : nat) : M unit :=
  emit (HttpError text code).

Definition messageHandling (r : Http.Request) : M unit :=
  if negb (String.eqb (Http.Method r) Http.MethodPost) then
    ret tt
  else
    read <- readAll (Http.Body r) ;;
    let '(body, err) := read in
    match err with
    | Some e =>
        logPrint ("[Request]       Error reading body: " ++ e) ;;;
        httpError "can't read body" Http.StatusBadRequest
    | None =>
        let server := Http.Get (Http.ReqHeader r) "X-NEXTCLOUD-TALK-BACKEND" in
        let random := Http.Get (Http.ReqHeader r) "X-NEXTCLOUD-TALK-RANDOM" in
        let signature := Http.Get (Http.ReqHeader r) "X-NEXTCLOUD-TALK-SIGNATURE" in
        let digest := generateHmacForString body random (bot_secret config) in
        if negb (String.eqb digest signature) then
          logPrint ("[Request]       Error validating signature: "
                    ++ digest ++ " / " ++ signature) ;;;
          httpError "Invalid signature" Http.StatusBadRequest
        else
          let '(message, err) := createMessage body in
          match err with
          | Some e =>
              logPrint ("[Request]       Error invalid body: " ++ e) ;;;
              httpError "Invalid signature" Http.StatusBadRequest
          | None =>
              (if String.eqb (ObjectName (Object message)) "message" then
                 let '(richMessage, err) :=
                   createRichMessageWithoutParameters (ObjectContent (Object message)) in
                 match err with
                 | None =>
                     if Regexp.Match triggerMessageRegex (RichMessage richMessage) then
                       logPrint ("[Talk]          Command found: "
                                 ++ RichMessage richMessage) ;;;
                       json <- commandToJson (RichMessage richMessage) ;;
                       ok <- callWebhook json ;;
                       if ok then
                         text <- getRandomResponse ;;
                         sendReply server message text
                       else
                         sendReply server message "Error calling Home Assistant"
                     else
                       logPrint ("[Talk]          Message is not command: "
                                 ++ RichMessage richMessage)
                 | Some _ => ret tt
                 end
               else ret tt) ;;;
              httpError "Received" Http.StatusOK
          end
    end.

End Bot.

(* ------------------------------------------------------------------ *)
(** ** JSON texts

    A reader of JSON texts (RFC 8259).  It says what it means for a
    byte string to be the JSON form of a value, and it is the decoder of
    the reference environment below. *)

Module Json.

Inductive value : Type :=
| Null
| Bool (b : bool)
| Number (literal : string)
| Str (s : string)
| Array (elements : list value)
| Object (members : list (string * value)).

Definition isSpace (c : ascii) : bool :=
  let b := byte_of c in
  ((b =? 0x20) || (b =? 0x09) || (b =? 0x0A) || (b =? 0x0D))%N.

Fixpoint skipSpace (s : string) : string :=
  match s with
  | EmptyString => EmptyString
  | String c r => if isSpace c then skipSpace r else s
  end.

Definition isDigit (c : ascii) : bool := Utf8.between 0x30 0x39 (byte_of c).

Definition hexVal (c : ascii) : option N :=
  let b := byte_of c in
  if Utf8.between 0x30 0x39 b then Some (b - 0x30)%N
  else if Utf8.between 0x61 0x66 b then Some (b - 0x61 + 10)%N
  else if Utf8.between 0x41 0x46 b then Some (b - 0x41 + 10)%N
  else None.

Definition hex4 (a b c d : ascii) : option N :=
  match hexVal a, hexVal b, hexVal c, hexVal d with
  | Some x, Some y, Some z, Some t => Some (((x * 16 + y) * 16 + z) * 16 + t)%N
  | _, _, _, _ => None
  end.

(** [utf8.AppendRune] *)
Definition encodeRune (r : N) : string :=
  (if r <? 0x80 then of_bytes [r]
   else if r <? 0x800 then
     of_bytes [N.lor 0xC0 (N.shiftr r 6); N.lor 0x80 (N.land r 0x3F)]
   else if r <? 0x10000 then
     of_bytes [N.lor 0xE0 (N.shiftr r 12);
               N.lor 0x80 (N.land (N.shiftr r 6) 0x3F);
               N.lor 0x80 (N.land r 0x3F)]
   else
     of_bytes [N.lor 0xF0 (N.shiftr r 18);
               N.lor 0x80 (N.land (N.shiftr r 12) 0x3F);
               N.lor 0x80 (N.land (N.shiftr r 6) 0x3F);
               N.lor 0x80 (N.land r 0x3F)])%N.

Definition isHighSurrogate (r : N) : bool := Utf8.between 0xD800 0xDBFF r.
Definition isLowSurrogate (r : N) : bool := Utf8.between 0xDC00 0xDFFF r.

Definition replacement : string := encodeRune Utf8.RuneError.

(** A pending high surrogate that found no partner becomes U+FFFD. *)
Definition settle (hi : option N) (acc : string) : string :=
  match hi with
  | None => acc
  | Some _ => acc ++ replacement
  end.

Definition simpleEscape (e : ascii) : option string :=
  let b := byte_of e in
  (if b =? 0x22 then Some DQ                       (* a quote *)
   else if b =? 0x5C then Some "\"                 (* a backslash *)
   else if b =? 0x2F then Some "/"                 (* a slash *)
   else if b =? 0x62 then Some (of_bytes [0x08])   (* backspace *)
   else if b =? 0x66 then Some (of_bytes [0x0C])   (* form feed *)
   else if b =? 0x6E then Some LF                  (* line feed *)
   else if b =? 0x72 then Some (of_bytes [0x0D])   (* carriage return *)
   else if b =? 0x74 then Some TAB                 (* tab *)
   else None)%N.

(** The contents of a string literal, read from just after the opening
    quote up to the closing one; the result is the decoded text and what
    follows the literal. *)
Fixpoint readString (s : string) (acc : string) (hi : option N)
  : option (string * string) :=
  match s with
  | EmptyString => None
  | String c r =>
      if Ascii.eqb c "034" then Some (settle hi acc, r)
      else if Ascii.eqb c "\" then
        match r with
        | String e r1 =>
            if Ascii.eqb e "u" then
              match r1 with
              | String h1 (String h2 (String h3 (String h4 r2))) =>
                  match hex4 h1 h2 h3 h4 with
                  | None => None
                  | Some u =>
                      match hi with
                      | Some h =>
                          if isLowSurrogate u then
                            readString r2
                              (acc ++ encodeRune (0x10000 + (h - 0xD800) * 0x400
                                                  + (u - 0xDC00))%N) None
                          else if isHighSurrogate u then
                            readString r2 (acc ++ replacement) (Some u)
                          else readString r2 (acc ++ replacement ++ encodeRune u) None
                      | None =>
                          if isHighSurrogate u then readString r2 acc (Some u)
                          else if isLowSurrogate u then
                            readString r2 (acc ++ replacement) None
                          else readString r2 (acc ++ encodeRune u) None
                      end
                  end
              | _ => None
              end
            else
              match simpleEscape e with
              | Some t => readString r1 (settle hi acc ++ t) None
              | None => None
              end
        | EmptyString => None
        end
      else if (byte_of c <? 0x20)%N then None
      else readString r (settle hi acc ++ String c EmptyString) None
  end.

Fixpoint spanDigits (s : string) : string * string :=
  match s with
  | EmptyString => (EmptyString, EmptyString)
  | String c r =>
      if isDigit c then let '(d, t) := spanDigits r in (String c d, t)
      else (EmptyString, s)
  end.

Definition nonEmpty (s : string) : bool :=
  match s with EmptyString => false | _ => true end.

(** [-? int frac? exp?] *)
Definition readNumber (s : string) : option (string * string) :=
  let '(sign, s1) :=
    match s with
    | String "-" r => ("-", r)
    | _ => (EmptyString, s)
    end in
  let '(int, s2) := spanDigits s1 in
  let intOk :=
    match int with
    | EmptyString => false
    | String "0" (String _ _) => false
    | _ => true
    end in
  if negb intOk then None
  else
    let fracPart :=
      match s2 with
      | String "." r =>
          let '(d, t) := spanDigits r in
          if nonEmpty d then Some ("." ++ d, t) else None
      | _ => Some (EmptyString, s2)
      end in
    match fracPart with
    | None => None
    | Some (frac, s3) =>
        let expPart :=
          match s3 with
          | String e r =>
              if Ascii.eqb e "e" || Ascii.eqb e "E" then
                let '(sg, r1) :=
                  match r with
                  | String "+" t => ("+", t)
                  | String "-" t => ("-", t)
                  | _ => (EmptyString, r)
                  end in
                let '(d, t) := spanDigits r1 in
                if nonEmpty d then Some (String e sg ++ d, t) else None
              else Some (EmptyString, s3)
          | EmptyString => Some (EmptyString, s3)
          end in
        match expPart with
        | None => None
        | Some (ex, s4) => Some (sign ++ int ++ frac ++ ex, s4)
        end
    end.

(** [dropPrefix p s]: what follows [p] in [s], when [s] starts with [p]. *)
Fixpoint dropPrefix (p s : string) : option string :=
  match p, s with
  | EmptyString, _ => Some s
  | String a p', String b s' => if Ascii.eqb a b then dropPrefix p' s' else None
  | _, _ => None
  end.

(** One value, possibly followed by more text.  [fuel] bounds the number
    of values, members and elements read. *)
Fixpoint readValue (fuel : nat) (s : string) : option (value * string) :=
  match fuel with
  | O => None
  | S k =>
      match skipSpace s with
      | EmptyString => None
      | String c r =>
          if Ascii.eqb c "{" then
            match skipSpace r with
            | String "}" r1 => Some (Object [], r1)
            | _ => readMembers k r []
            end
          else if Ascii.eqb c "[" then
            match skipSpace r with
            | String "]" r1 => Some (Array [], r1)
            | _ => readElements k r []
            end
          else if Ascii.eqb c "034" then
            match readString r EmptyString None with
            | Some (t, r1) => Some (Str t, r1)
            | None => None
            end
          else if Ascii.eqb c "t" then
            option_map (fun r1 => (Bool true, r1)) (dropPrefix "rue" r)
          else if Ascii.eqb c "f" then
            option_map (fun r1 => (Bool false, r1)) (dropPrefix "alse" r)
          else if Ascii.eqb c "n" then
            option_map (fun r1 => (Null, r1)) (dropPrefix "ull" r)
          else
            option_map (fun '(n, r1) => (Number n, r1)) (readNumber (String c r))
      end
  end

with readMembers (fuel : nat) (s : string) (acc : list (string * value))
  : option (value * string) :=
  match fuel with
  | O => None
  | S k =>
      match skipSpace s with
      | String "034" r =>
          match readString r EmptyString None with
          | None => None
          | Some (key, r1) =>
              match skipSpace r1 with
              | String ":" r2 =>
                  match readValue k r2 with
                  | None => None
                  | Some (v, r3) =>
                      match skipSpace r3 with
                      | String "," r4 => readMembers k r4 (acc ++ [(key, v)])%list
                      | String "}" r4 => Some (Object (acc ++ [(key, v)])%list, r4)
                      | _ => None
                      end
                  end
              | _ => None
              end
          end
      | _ => None
      end
  end

with readElements (fuel : nat) (s : string) (acc : list value)
  : option (value * string) :=
  match fuel with
  | O => None
  | S k =>
      match readValue k s with
      | None => None
      | Some (v, r1) =>
          match skipSpace r1 with
          | String "," r2 => readElements k r2 (acc ++ [v])%list
          | String "]" r2 => Some (Array (acc ++ [v])%list, r2)
          | _ => None
          end
      end
  end.

(** Every step of the reader consumes a byte, so the length of the text
    and one more is fuel enough. *)
Definition enough (s : string) : nat := S (String.length s).

(** A whole text: one value and nothing but white space after it. *)
Definition parse (s : string) : option value :=
  match readValue (enough s) s with
  | Some (v, r) =>
      match skipSpace r with
      | EmptyString => Some v
      | _ => None
      end
  | None => None
  end.

(** The first value of a stream, as [Decoder.Decode] takes it. *)
Definition parseFirst (s : string) : option value :=
  option_map fst (readValue (enough s) s).

End Json.

(* ------------------------------------------------------------------ *)
(** ** A reference environment

    An [Env] to run the program in: [encoding/json] over the reader
    above, following the decoder's rules for structs (keys are matched
    without regard to ASCII case, a later member overrides an earlier
    one, [null] leaves a field as it is, a value of another kind is an
    error), and the encoder's rules for strings as of Go 1.21.  Invalid
    UTF-8 in a decoded string is kept as it is. *)

Module Ref.

Definition foldKey (s : string) : string :=
  string_of_list_ascii (map Http.toLower (list_ascii_of_string s)).

Definition keyIs (name key : string) : bool := String.eqb (foldKey name) (foldKey key).

(** A string field: the new contents, and whether the value was of the
    wrong kind. *)
Definition intoString (v : Json.value) (old : string) : string * bool :=
  match v with
  | Json.Str s => (s, false)
  | Json.Null => (old, false)
  | _ => (old, true)
  end.

(** A struct field: the members are taken in order by [step]. *)
Definition intoStruct {A} (step : A -> string -> Json.value -> A * bool)
           (v : Json.value) (old : A) : A * bool :=
  match v with
  | Json.Object ms =>
      fold_left (fun st kv =>
                   let '(a, e) := st in
                   let '(a', e') := step a (fst kv) (snd kv) in
                   (a', e || e')) ms (old, false)
  | Json.Null => (old, false)
  | _ => (old, true)
  end.

Definition stepActor (a : MessageActor) (k : string) (v : Json.value) :=
  if keyIs "type" k then
    let '(s, e) := intoString v (ActorType a) in
    ({| ActorType := s; ActorId := ActorId a; ActorName := ActorName a |}, e)
  else if keyIs "id" k then
    let '(s, e) := intoString v (ActorId a) in
    ({| ActorType := ActorType a; ActorId := s; ActorName := ActorName a |}, e)
  else if keyIs "name" k then
    let '(s, e) := intoString v (ActorName a) in
    ({| ActorType := ActorType a; ActorId := ActorId a; ActorName := s |}, e)
  else (a, false).

Definition stepTarget (a : MessageTarget) (k : string) (v : Json.value) :=
  if keyIs "type" k then
    let '(s, e) := intoString v (TargetType a) in
    ({| TargetType := s; TargetId := TargetId a; TargetName := TargetName a |}, e)
  else if keyIs "id" k then
    let '(s, e) := intoString v (TargetId a) in
    ({| TargetType := TargetType a; TargetId := s; TargetName := TargetName a |}, e)
  else if keyIs "name" k then
    let '(s, e) := intoString v (TargetName a) in
    ({| TargetType := TargetType a; TargetId := TargetId a; TargetName := s |}, e)
  else (a, false).

Definition stepObject (o : MessageObject) (k : string) (v : Json.value) :=
  if keyIs "type" k then
    let '(s, e) := intoString v (ObjectType o) in
    ({| ObjectType := s; ObjectId := ObjectId o; ObjectName := ObjectName o;
        ObjectContent := ObjectContent o; ObjectMediaType := ObjectMediaType o |}, e)
  else if keyIs "id" k then
    let '(s, e) := intoString v (ObjectId o) in
    ({| ObjectType := ObjectType o; ObjectId := s; ObjectName := ObjectName o;
        ObjectContent := ObjectContent o; ObjectMediaType := ObjectMediaType o |}, e)
  else if keyIs "name" k then
    let '(s, e) := intoString v (ObjectName o) in
    ({| ObjectType := ObjectType o; ObjectId := ObjectId o; ObjectName := s;
        ObjectContent := ObjectContent o; ObjectMediaType := ObjectMediaType o |}, e)
  else if keyIs "content" k then
    let '(s, e) := intoString v (ObjectContent o) in
    ({| ObjectType := ObjectType o; ObjectId := ObjectId o; ObjectName := ObjectName o;
        ObjectContent := s; ObjectMediaType := ObjectMediaType o |}, e)
  else if keyIs "mediaType" k then
    let '(s, e) := intoString v (ObjectMediaType o) in
    ({| ObjectType := ObjectType o; ObjectId := ObjectId o; ObjectName := ObjectName o;
        ObjectContent := ObjectContent o; ObjectMediaType := s |}, e)
  else (o, false).

Definition stepMessage (m : Message) (k : string) (v : Json.value) :=
  if keyIs "type" k then
    let '(s, e) := intoString v (MessageType m) in
    ({| MessageType := s; Actor := Actor m; Object := Object m; Target := Target m |}, e)
  else if keyIs "actor" k then
    let '(a, e) := intoStruct stepActor v (Actor m) in
    ({| MessageType := MessageType m; Actor := a; Object := Object m; Target := Target m |}, e)
  else if keyIs "object" k then
    let '(o, e) := intoStruct stepObject v (Object m) in
    ({| MessageType := MessageType m; Actor := Actor m; Object := o; Target := Target m |}, e)
  else if keyIs "target" k then
    let '(t, e) := intoStruct stepTarget v (Target m) in
    ({| MessageType := MessageType m; Actor := Actor m; Object := Object m; Target := t |}, e)
  else (m, false).

Definition stepRich (m : RichObjectMessage) (k : string) (v : Json.value) :=
  if keyIs "message" k then
    let '(s, e) := intoString v (RichMessage m) in ({| RichMessage := s |}, e)
  else (m, false).

Definition zeroMessage : Message :=
  {| MessageType := EmptyString;
     Actor := {| ActorType := EmptyString; ActorId := EmptyString; ActorName := EmptyString |};
     Object := {| ObjectType := EmptyString; ObjectId := EmptyString;
                  ObjectName := EmptyString; ObjectContent := EmptyString;
                  ObjectMediaType := EmptyString |};
     Target := {| TargetType := EmptyString; TargetId := EmptyString;
                  TargetName := EmptyString |} |}.

Definition decode {A} (step : A -> string -> Json.value -> A * bool) (zero : A)
           (input : string) : A * error :=
  match Json.parseFirst input with
  | None => (zero, Some "invalid character in JSON text")
  | Some v =>
      let '(a, e) := intoStruct step v zero in
      (a, if e then Some "json: cannot unmarshal value into Go struct field" else None)
  end.

Definition decodeMessage : string -> Message * error := decode stepMessage zeroMessage.

Definition decodeRichObjectMessage : string -> RichObjectMessage * error :=
  decode stepRich {| RichMessage := EmptyString |}.

(** The bytes the encoder copies unchanged: printable ASCII apart from
    the quote, the backslash and the three HTML characters. *)
Definition htmlSafe (c : ascii) : bool :=
  let b := byte_of c in
  ((0x20 <=? b) && (b <? 0x80)
   && negb ((b =? 0x22) || (b =? 0x5C) || (b =? 0x3C) || (b =? 0x3E) || (b =? 0x26)))%N.

Definition escapeASCII (c : ascii) : string :=
  let b := byte_of c in
  (if (b =? 0x22) || (b =? 0x5C) then String "\" (String c EmptyString)
   else if b =? 0x0A then "\n"
   else if b =? 0x0D then "\r"
   else if b =? 0x09 then "\t"
   else "\u00" ++ String (Crypto.hexdigit (b / 16))
                         (String (Crypto.hexdigit (b mod 16)) EmptyString))%N.

(** The body of a quoted string: [pending] bytes of the current rune are
    still to come and are copied when [copy] holds. *)
Fixpoint quoteBody (s : string) (pending : nat) (copy : bool) : string :=
  match s with
  | EmptyString => EmptyString
  | String c r =>
      match pending with
      | S k => (if copy then String c EmptyString else EmptyString) ++ quoteBody r k copy
      | O =>
          if Utf8.isASCII c then
            (if htmlSafe c then String c EmptyString else escapeASCII c)
            ++ quoteBody r 0 true
          else
            let '(rune, size) := Utf8.DecodeRuneInString s in
            if (rune =? Utf8.RuneError)%N && Nat.eqb size 1 then
              "\ufffd" ++ quoteBody r 0 true
            else if (rune =? 0x2028)%N then "\u2028" ++ quoteBody r (Nat.pred size) false
            else if (rune =? 0x2029)%N then "\u2029" ++ quoteBody r (Nat.pred size) false
            else String c EmptyString ++ quoteBody r (Nat.pred size) true
      end
  end.

Definition quote (s : string) : string := DQ ++ quoteBody s 0 true ++ DQ.

Definition marshalResponse (r : Response) : string :=
  "{" ++ quote "message" ++ ":" ++ quote (ResponseMessage r) ++ ","
      ++ quote "replyTo" ++ ":" ++ quote (ReplyTo r) ++ "}".

(** [url.Parse] refuses a URL that holds an ASCII control byte; this is
    the only refusal modelled. *)
Definition isControl (c : ascii) : bool :=
  let b := byte_of c in ((b <? 0x20) || (b =? 0x7F))%N.

Definition requestError (method url : string) : error :=
  if existsb_str isControl url
  then Some "net/url: invalid control character in URL"
  else None.

(** The environment in which the webhook answers [hub] and the chat
    backend answers [backend]. *)
Definition env (hub : Http.PostResult) (backend : error) : Env :=
  {| jsonDecodeMessage := decodeMessage;
     jsonDecodeRichObjectMessage := decodeRichObjectMessage;
     jsonMarshalResponse := marshalResponse;
     newRequestError := requestError;
     httpPost := fun _ _ _ => hub;
     clientDo := fun _ _ => backend;
     randSource := fun i => 7 * i + 3 |}.

Definition config : Config :=
  {| bot_port := "8080";
     bot_secret := "s3cret";
     bot_ha_url := "http://ha.local:8123/";
     bot_ha_webhook_id := "talk-bot" |}.

(** A chat message with the text [text], sent in room [room]. *)
Definition envelope (text room : string) : string :=
  q "{'type':'Create','actor':{'type':'Person','id':'users/ada','name':'Ada'},"
  ++ q "'object':{'type':'Note','id':'1567','name':'message','content':"
  ++ quote (q "{'message':" ++ quote text ++ q ",'parameters':[]}")
  ++ q ",'mediaType':'text/markdown'},"
  ++ q "'target':{'type':'Collection','id':" ++ quote room ++ q ",'name':'Home'}}".

Definition nonce : string := "0123456789abcdefghijklmnopqrstuvwxyzABCDEFGHIJKLMNOPQRSTUVWXYZ01".

(** A request for [body] signed with [signature]. *)
Definition request (method body signature : string) : Http.Request :=
  {| Http.Method := method;
     Http.ReqHeader := [("X-Nextcloud-Talk-Backend", "https://cloud.example.org/");
                        ("X-Nextcloud-Talk-Random", nonce);
                        ("X-Nextcloud-Talk-Signature", signature)];
     Http.Body := {| Http.data := body; Http.readErr := None |} |}.

(** The same request, signed as the chat backend signs it. *)
Definition signed (body : string) : Http.Request :=
  request "POST" body (generateHmacForString body nonce (bot_secret config)).

End Ref.

(* ------------------------------------------------------------------ *)
(** ** What the properties are stated with *)

(** The check of lines 209-211 of [messageHandling] as a function: the
    digest is recomputed and compared with the supplied signature by
    Go's ordinary string comparison ([digest != signature]). *)
Definition verify (payload nonce signature secret : string) : bool :=
  String.eqb (generateHmacForString payload nonce secret) signature.

(** The three headers and the digest the handler works with. *)
Definition backendOf (r : Http.Request) : string :=
  Http.Get (Http.ReqHeader r) "X-NEXTCLOUD-TALK-BACKEND".
Definition randomOf (r : Http.Request) : string :=
  Http.Get (Http.ReqHeader r) "X-NEXTCLOUD-TALK-RANDOM".
Definition signatureOf (r : Http.Request) : string :=
  Http.Get (Http.ReqHeader r) "X-NEXTCLOUD-TALK-SIGNATURE".
Definition bodyOf (r : Http.Request) : string := Http.data (Http.Body r).

(** A run that starts with nothing done yet and [d] random values
    already taken. *)
Definition fresh (d : nat) : World := {| draws := d; trace := [] |}.

Definition outcomeOf {A} (res : Outcome A * World) : Outcome A := fst res.
Definition eventsOf {A} (res : Outcome A * World) : list Event := trace (snd res).

(** The calls that leave the process: the webhook dispatch and the
    reply to the chat backend. *)
Definition isDispatch (e : Event) : bool :=
  match e with WebhookPost _ _ _ => true | _ => false end.
Definition isReply (e : Event) : bool :=
  match e with ClientDo _ _ => true | _ => false end.
Definition isOutbound (e : Event) : bool := isDispatch e || isReply e.
Definition isLog (e : Event) : bool :=
  match e with Log _ => true | _ => false end.
Definition isWrite (e : Event) : bool :=
  match e with HttpError _ _ => true | _ => false end.

(** What [net/http] makes of the handler's writes: the first
    [http.Error] fixes the status and prints its text on a line of its
    own; a handler that wrote nothing is answered with an empty 200. *)
Fixpoint written (t : list Event) : nat * string :=
  match t with
  | [] => (Http.StatusOK, EmptyString)
  | HttpError text code :: _ => (code, text ++ LF)
  | _ :: r => written r
  end.

(** What the caller of the endpoint receives: the response above once
    the handler has returned, and nothing when the process has exited
    in the middle of the request. *)
Definition served (res : Outcome unit * World) : option (nat * string) :=
  match outcomeOf res with
  | Returned _ => Some (written (eventsOf res))
  | Exited _ => None
  end.

(** The trigger pattern in the words of the specification: the marker
    [@ha], one white-space byte, a word, one white-space byte, a word,
    and then anything. *)
Definition isWord (w : string) : Prop :=
  w <> EmptyString /\ forallb_str Regexp.perlWord w = true.

Definition startsWithCommand (text : string) : Prop :=
  exists (s1 : ascii) (w1 : string) (s2 : ascii) (w2 rest : string),
    text = "@ha" ++ String s1 w1 ++ String s2 w2 ++ rest
    /\ Regexp.perlSpace s1 = true /\ isWord w1
    /\ Regexp.perlSpace s2 = true /\ isWord w2.

(** The URL [callWebhook] posts to, and the one [sendReply] posts to. *)
Definition webhookURL (config : Config) : string :=
  Strings.TrimRight (bot_ha_url config) "/" ++ "/api/webhook/" ++ bot_ha_webhook_id config.

Definition replyURL (server : string) (message : Message) : string :=
  server ++ "ocs/v2.php/apps/spreed/api/v1/bot/" ++ TargetId (Target message) ++ "/message".

(** The nonce [generateRandomBytes n] builds from the random values
    number [d], [d+1], ... *)
Fixpoint nonceFrom (env : Env) (d n : nat) : string :=
  match n with
  | O => EmptyString
  | S k => String (byteAt letterBytes (randSource env d mod String.length letterBytes))
                  (nonceFrom env (S d) k)
  end.

(** The request [sendReply] hands to [client.Do]. *)
Definition replyRequest (env : Env) (config : Config) (server : string)
           (message : Message) (responseText random : string) : Http.OutRequest :=
  {| Http.OutMethod := "POST";
     Http.OutURL := replyURL server message;
     Http.OutHeader :=
       [("X-Nextcloud-Talk-Bot-Signature",
         generateHmacForString responseText random (bot_secret config));
        ("X-Nextcloud-Talk-Bot-Random", random);
        ("Ocs-Apirequest", "true");
        ("Content-Type", "application/json")];
     Http.OutBody := jsonMarshalResponse env
                       {| ResponseMessage := responseText;
                          ReplyTo := ObjectId (Object message) |} |}.

(** A body is the JSON form of a command when it reads as the object
    with the members [action] and [target]. *)
Definition isJsonOfCommand (body action target : string) : Prop :=
  Json.parse body
  = Some (Json.Object [("action", Json.Str action); ("target", Json.Str target)]).

(** The answer of the webhook to the dispatch of [jsonData], whether
    [callWebhook] reports success, and the line it logs. *)
Definition hubAnswer (env : Env) (config : Config) (jsonData : option string)
  : Http.PostResult :=
  httpPost env (webhookURL config) "application/json"
           (match jsonData with Some b => b | None => EmptyString end).

Definition dispatchOk (env : Env) (config : Config) (jsonData : option string) : bool :=
  match hubAnswer env config jsonData with
  | Http.PostFailed _ => false
  | Http.PostResponse code => Nat.eqb code Http.StatusOK
  end.

Definition dispatchLog (env : Env) (config : Config) (jsonData : option string) : string :=
  match hubAnswer env config jsonData with
  | Http.PostFailed err => "[Webhook]       POST request failed: " ++ err
  | Http.PostResponse code =>
      if Nat.eqb code Http.StatusOK then "[Webhook]       POST request was successful!"
      else "[Webhook]       POST request failed with status code: " ++ Strings.Itoa code
  end.

(** What [sendReply] adds to the trace when the request can be built. *)
Definition replyEvents (env : Env) (request : Http.OutRequest) : list Event :=
  ClientDo replyClient request ::
  match clientDo env replyClient request with
  | Some err => [Log ("[Response]      Error posting request " ++ err)]
  | None => []
  end.

(** The body [commandToJson] produces for a text with three fields or
    more, and the text of the reply after a dispatch. *)
Definition commandBody (text : string) : string :=
  let words := Strings.Fields text in
  commandFormat (nth 1 words EmptyString) (nth 2 words EmptyString).

Definition replyText (ok : bool) : string :=
  if ok then "Done!" else "Error calling Home Assistant".

(** The request is a POST with a readable body and a signature that
    verifies, its body decodes to the envelope [message] of a chat
    message, and the content of that decodes to the rich text [rich]:
    the handler has come to the trigger pattern (line 228). *)
Definition carriesText (env : Env) (config : Config) (r : Http.Request)
           (message : Message) (rich : RichObjectMessage) : Prop :=
  Http.Method r = Http.MethodPost
  /\ Http.readErr (Http.Body r) = None
  /\ verify (bodyOf r) (randomOf r) (signatureOf r) (bot_secret config) = true
  /\ createMessage env (bodyOf r) = (message, None)
  /\ ObjectName (Object message) = "message"
  /\ createRichMessageWithoutParameters env (ObjectContent (Object message)) = (rich, None).

(** The digits of [hex.EncodeToString]. *)
Definition isLowerHex (c : ascii) : bool := inb c Crypto.hextable.

(** The bytes a JSON string literal may hold as they are. *)
Definition plain (c : ascii) : bool :=
  (0x20 <=? byte_of c)%N && negb (Ascii.eqb c "034") && negb (Ascii.eqb c "\").

(** The line the handler logs when the signature does not verify. *)
Definition isSignatureComplaint (e : Event) : bool :=
  match e with
  | Log line => String.prefix "[Request]       Error validating signature: " line
  | _ => false
  end.

(** Further notions: counting, framing, tokens and variations of a request. *)

(** A result obtained from a fresh start, put after what [w] holds. *)
Definition onto {A} (w : World) (res : Outcome A * World) : Outcome A * World :=
  (fst res, {| draws := draws (snd res); trace := trace w ++ trace (snd res) |}).

(** A computation that never looks at what was done before it: started
    in any world it does what it does from a fresh start with the same
    number of values drawn, and adds it to the trace. *)
Definition framed {A} (m : M A) : Prop :=
  forall w, m w = onto w (m (fresh (draws w))).

Definition isRead (e : Event) : bool :=
  match e with ReadBody => true | _ => false end.

(** Whether every reply of a trace comes after a dispatch; [seen] tells
    whether a dispatch has been met already. *)
Fixpoint repliesFollow (seen : bool) (t : list Event) : bool :=
  match t with
  | [] => true
  | e :: rest => (if isReply e then seen else true)
                 && repliesFollow (seen || isDispatch e) rest
  end.

Definition upperCase (s : string) : string :=
  string_of_list_ascii (map Http.toUpper (list_ascii_of_string s)).

(** A token: a non-empty run of ASCII bytes none of which is white
    space; and a blank: a run of ASCII white space. *)
Definition tokenByte (c : ascii) : bool := Utf8.isASCII c && negb (Strings.asciiSpace c).
Definition isToken (t : string) : Prop :=
  t <> EmptyString /\ forallb_str tokenByte t = true.
Definition allBlank (s : string) : Prop := forallb_str Strings.asciiSpace s = true.
Definition isBlank (s : string) : Prop := s <> EmptyString /\ allBlank s.

(** The end of a field: the end of the text, or a white-space byte. *)
Definition endsField (tail : string) : Prop :=
  tail = EmptyString \/ exists c rest, tail = String c rest /\ Strings.asciiSpace c = true.

(** The request [r] with its backend header replaced. *)
Definition withBackend (r : Http.Request) (server : string) : Http.Request :=
  {| Http.Method := Http.Method r;
     Http.ReqHeader := Http.Set_ (Http.ReqHeader r) "X-NEXTCLOUD-TALK-BACKEND" server;
     Http.Body := Http.Body r |}.

(** The configuration [config] with another base URL. *)
Definition withBaseURL (config : Config) (url : string) : Config :=
  {| bot_port := bot_port config;
     bot_secret := bot_secret config;
     bot_ha_url := url;
     bot_ha_webhook_id := bot_ha_webhook_id config |}.

(** The environment [env] with another decoder of envelopes. *)
Definition withEnvelopeDecoder (env : Env) (f : string -> Message * error) : Env :=
  {| jsonDecodeMessage := f;
     jsonDecodeRichObjectMessage := jsonDecodeRichObjectMessage env;
     jsonMarshalResponse := jsonMarshalResponse env;
     newRequestError := newRequestError env;
     httpPost := httpPost env;
     clientDo := clientDo env;
     randSource := randSource env |}.

(** The fields of an envelope the handler reads. *)
Definition sameForHandler (m m' : Message) : Prop :=
  ObjectName (Object m) = ObjectName (Object m')
  /\ ObjectContent (Object m) = ObjectContent (Object m')
  /\ ObjectId (Object m) = ObjectId (Object m')
  /\ TargetId (Target m) = TargetId (Target m').

(** An envelope with its sender and its types blanked. *)
Definition anonymous (m : Message) : Message :=
  {| MessageType := EmptyString;
     Actor := {| ActorType := EmptyString; ActorId := EmptyString; ActorName := EmptyString |};
     Object := {| ObjectType := EmptyString; ObjectId := ObjectId (Object m);
                  ObjectName := ObjectName (Object m);
                  ObjectContent := ObjectContent (Object m);
                  ObjectMediaType := EmptyString |};
     Target := {| TargetType := EmptyString; TargetId := TargetId (Target m);
                  TargetName := EmptyString |} |}.

(* ------------------------------------------------------------------ *)
(** ** Checks of the library models on known values *)

(** The derived constants are those printed in FIPS 180-4. *)
Example fips_constants :
  firstn 4 Crypto.roundConstants = [0x428a2f98; 0x71374491; 0xb5c0fbcf; 0xe9b5dba5]%N
  /\ nth 63 Crypto.roundConstants 0%N = 0xc67178f2%N
  /\ List.length Crypto.roundConstants = 64
  /\ Crypto.initState
     = Crypto.St8 0x6a09e667 0xbb67ae85 0x3c6ef372 0xa54ff53a
                  0x510e527f 0x9b05688c 0x1f83d9ab 0x5be0cd19.
Proof. repeat split. Qed.

Example sha256_abc :
  Crypto.hexEncode (Crypto.sha256 (to_bytes "abc"))
  = "ba7816bf8f01cfea414140de5dae2223b00361a396177a9cb410ff61f20015ad".
Proof. vm_compute. reflexivity. Qed.

Example sha256_empty :
  Crypto.hexEncode (Crypto.sha256 [])
  = "e3b0c44298fc1c149afbf4c8996fb92427ae41e4649b934ca495991b7852b855".
Proof. vm_compute. reflexivity. Qed.

Example sha256_two_blocks :
  Crypto.hexEncode (Crypto.sha256
    (to_bytes "abcdbcdecdefdefgefghfghighijhijkijkljklmklmnlmnomnopnopq"))
  = "248d6a61d20638b8e5c026930c3e6039a33ce45964ff2167f6ecedd419db06c1".
Proof. vm_compute. reflexivity. Qed.

(** RFC 4231, test case 2. *)
Example hmac_rfc4231_2 :
  Crypto.hexEncode (Crypto.hmac_sha256 (to_bytes "Jefe")
                      (to_bytes "what do ya want for nothing?"))
  = "5bdcc146bf60754e6a042426089575c75a003f089d2739839dec58b964ec3843".
Proof. vm_compute. reflexivity. Qed.

(** RFC 4231, test case 6: a key longer than the block size. *)
Example hmac_rfc4231_6 :
  Crypto.hexEncode (Crypto.hmac_sha256 (repeat 0xaa%N 131)
     (to_bytes "Test Using Larger Than Block-Size Key - Hash Key First"))
  = "60e431591ee0b67f0d8a26aacbf5b77f8e0bc6213728c5140546040f0ee37f54".
Proof. vm_compute. reflexivity. Qed.

Example fields_plain :
  Strings.Fields "  @ha turn_on   light1 " = ["@ha"; "turn_on"; "light1"].
Proof. reflexivity. Qed.

Example fields_tabs :
  Strings.Fields ("a" ++ TAB ++ "b" ++ LF ++ "c") = ["a"; "b"; "c"].
Proof. reflexivity. Qed.

(** U+00A0 (bytes C2 A0) separates fields; a lone byte A0 does not. *)
Example fields_nbsp :
  Strings.Fields ("a" ++ of_bytes [0xC2; 0xA0]%N ++ "b") = ["a"; "b"]
  /\ Strings.Fields ("a" ++ of_bytes [0xA0]%N ++ "b")
     = ["a" ++ of_bytes [0xA0]%N ++ "b"]
  /\ Strings.Fields ("a" ++ of_bytes [0xE2; 0x80; 0xA8]%N ++ "b") = ["a"; "b"]
  /\ Strings.Fields ("a" ++ of_bytes [0xE2; 0x82; 0xAC]%N ++ "b")
     = ["a" ++ of_bytes [0xE2; 0x82; 0xAC]%N ++ "b"].
Proof. repeat split; vm_compute; reflexivity. Qed.

Example trimRight_slashes :
  Strings.TrimRight "http://ha.local:8123///" "/" = "http://ha.local:8123"
  /\ Strings.TrimRight "http://ha.local:8123" "/" = "http://ha.local:8123"
  /\ Strings.TrimRight "///" "/" = "".
Proof. repeat split; reflexivity. Qed.

Example itoa_500 : Strings.Itoa 500 = "500" /\ Strings.Itoa 0 = "0".
Proof. split; reflexivity. Qed.

Example canonical_keys :
  Http.CanonicalMIMEHeaderKey "X-NEXTCLOUD-TALK-SIGNATURE" = "X-Nextcloud-Talk-Signature"
  /\ Http.CanonicalMIMEHeaderKey "OCS-APIRequest" = "Ocs-Apirequest"
  /\ Http.CanonicalMIMEHeaderKey "content-type" = "Content-Type".
Proof. repeat split; reflexivity. Qed.

Example json_parse_object :
  Json.parse (q "{ 'a' : [1, true, null, -2.5e3], 'b\n': {'c': 'é😀'} } ")
  = Some (Json.Object
            [("a", Json.Array [Json.Number "1"; Json.Bool true; Json.Null;
                               Json.Number "-2.5e3"]);
             ("b" ++ LF, Json.Object
                [("c", Json.Str (of_bytes [0xC3; 0xA9; 0xF0; 0x9F; 0x98; 0x80]%N))])]).
Proof. vm_compute. reflexivity. Qed.

Example json_parse_rejects :
  Json.parse (q "{'a': 'b'c'}") = None
  /\ Json.parse (q "{'a': 01}") = None
  /\ Json.parse (q "{'a': 'x" ++ LF ++ q "'}") = None
  /\ Json.parse (q "{'a': 1} x") = None
  /\ Json.parse (q "{'a': 1,}") = None.
Proof. repeat split; vm_compute; reflexivity. Qed.

(** The pattern on the texts of the specification, and on texts that
    differ from a command by their shape. *)
Example trigger_examples :
  Regexp.Match triggerMessageRegex "@ha turn_on light1" = true
  /\ Regexp.Match triggerMessageRegex "@ha turn_on light1 and more" = true
  /\ Regexp.Match triggerMessageRegex "hello @ha turn_on light1" = false
  /\ Regexp.Match triggerMessageRegex "@ha turn_on" = false
  /\ Regexp.Match triggerMessageRegex "@ha  turn_on light1" = false
  /\ Regexp.Match triggerMessageRegex "@ha turn-on light1" = false
  /\ Regexp.Match triggerMessageRegex "@HA turn_on light1" = false.
Proof. repeat split. Qed.

Example commandFormat_example :
  commandFormat "turn_on" "light1"
  = "{" ++ LF ++ TAB ++ TAB ++ TAB ++ q "'action': 'turn_on'," ++ LF
        ++ TAB ++ TAB ++ TAB ++ q "'target': 'light1'" ++ LF ++ TAB ++ TAB ++ "}".
Proof. reflexivity. Qed.

(** A signed command in the reference environment, from the request to
    the answer. *)
Example handler_runs_command :
  messageHandling (Ref.env (Http.PostResponse 200) None) Ref.config
                  (Ref.signed (Ref.envelope "@ha turn_on light1" "room1")) (fresh 0)
  = (Returned tt,
     {| draws := 65;
        trace :=
          [ReadBody;
           Log "[Talk]          Command found: @ha turn_on light1";
           WebhookPost "http://ha.local:8123/api/webhook/talk-bot" "application/json"
                       (Some (commandFormat "turn_on" "light1"));
           Log "[Webhook]       POST request was successful!";
           ClientDo replyClient
             {| Http.OutMethod := "POST";
                Http.OutURL :=
                  "https://cloud.example.org/ocs/v2.php/apps/spreed/api/v1/bot/room1/message";
                Http.OutHeader :=
                  [("X-Nextcloud-Talk-Bot-Signature",
                    "874eca356a35289ac6221262d5866cc7e5efef32362a3da8c5e916c62fe63ce6");
                   ("X-Nextcloud-Talk-Bot-Random",
                    "kryFMT07elszGNU18fmtAHOV29gnuBIPW3ahovCJQX4bipwDKRY5cjqxELSZ6dkr");
                   ("Ocs-Apirequest", "true");
                   ("Content-Type", "application/json")];
                Http.OutBody := q "{'message':'Done!','replyTo':'1567'}" |};
           HttpError "Received" 200] |}).
Proof. vm_compute. reflexivity. Qed.

(** The envelope decodes to the message it was written from. *)
Example envelope_decodes :
  Ref.decodeMessage (Ref.envelope "@ha turn_on light1" "room1")
  = ({| MessageType := "Create";
        Actor := {| ActorType := "Person"; ActorId := "users/ada"; ActorName := "Ada" |};
        Object := {| ObjectType := "Note"; ObjectId := "1567"; ObjectName := "message";
                     ObjectContent := q "{'message':'@ha turn_on light1','parameters':[]}";
                     ObjectMediaType := "text/markdown" |};
        Target := {| TargetType := "Collection"; TargetId := "room1";
                     TargetName := "Home" |} |}, None).
Proof. vm_compute. reflexivity. Qed.

(* ------------------------------------------------------------------ *)
(** ** Strings *)

Lemma append_nil_r (s : string) : s ++ EmptyString = s.
Proof. induction s as [|c s IH]; simpl; [reflexivity | now rewrite IH]. Qed.

Lemma append_assoc (a b c : string) : (a ++ b) ++ c = a ++ (b ++ c).
Proof. induction a as [|x a IH]; simpl; [reflexivity | now rewrite IH]. Qed.

Lemma length_append (a b : string) :
  String.length (a ++ b) = String.length a + String.length b.
Proof. induction a as [|x a IH]; simpl; [reflexivity | now rewrite IH]. Qed.

Lemma forallb_str_append p (a b : string) :
  forallb_str p (a ++ b) = forallb_str p a && forallb_str p b.
Proof.
  induction a as [|x a IH]; simpl; [reflexivity|].
  rewrite IH. now rewrite andb_assoc.
Qed.

Lemma append_eq_nil (a b : string) : a ++ b = EmptyString -> a = EmptyString /\ b = EmptyString.
Proof. destruct a; simpl; [now split | discriminate]. Qed.

(* ------------------------------------------------------------------ *)
(** ** The matcher decides the language of an expression *)

Module RegexpFacts.
Import Regexp.

Lemma nullable_lang r : nullable r = true <-> lang r EmptyString.
Proof.
  split.
  - induction r; simpl; intros H; try discriminate.
    + constructor.
    + apply andb_true_iff in H as [H1 H2].
      change EmptyString with (EmptyString ++ EmptyString). constructor; auto.
    + apply orb_true_iff in H as [H|H]; [apply L_AltL | apply L_AltR]; auto.
    + constructor.
  - intros H. remember EmptyString as e eqn:He.
    induction H; simpl; try discriminate; auto.
    + apply append_eq_nil in He as [-> ->]. now rewrite IHlang1, IHlang2.
    + now rewrite IHlang.
    + rewrite IHlang; auto. apply orb_true_r.
Qed.

(** A non-empty member of [r*] starts with a non-empty member of [r]. *)
Lemma star_cons_inv r c w :
  lang (Star r) (String c w) ->
  exists u v, w = u ++ v /\ lang r (String c u) /\ lang (Star r) v.
Proof.
  intros H. remember (Star r) as sr eqn:Hr. remember (String c w) as cw eqn:Hw.
  revert c w Hw.
  induction H; intros c0 w0 Hw; try discriminate.
  inversion Hr; subst r0. clear IHlang1.
  destruct u as [|x u]; simpl in Hw.
  - apply (IHlang2 eq_refl _ _ Hw).
  - inversion Hw; subst. exists u, v. auto.
Qed.

Lemma lang_void w : lang Void w <-> False.
Proof. split; intros H; inversion H. Qed.

Lemma lang_eps w : lang Eps w <-> w = EmptyString.
Proof.
  split.
  - intros H; now inversion H.
  - intros ->. constructor.
Qed.

Lemma lang_class p w : lang (Class p) w <-> exists c, w = String c EmptyString /\ p c = true.
Proof.
  split.
  - intros H; inversion H; subst. eauto.
  - intros (c & -> & H). now constructor.
Qed.

Lemma lang_lit c w : lang (Lit c) w <-> w = String c EmptyString.
Proof.
  split.
  - intros H; now inversion H.
  - intros ->. constructor.
Qed.

Lemma lang_cat r1 r2 w :
  lang (Cat r1 r2) w <-> exists u v, w = u ++ v /\ lang r1 u /\ lang r2 v.
Proof.
  split.
  - intros H; inversion H; subst. eauto.
  - intros (u & v & -> & H1 & H2). now constructor.
Qed.

Lemma lang_alt r1 r2 w : lang (Alt r1 r2) w <-> lang r1 w \/ lang r2 w.
Proof.
  split.
  - intros H; inversion H; subst; auto.
  - intros [H|H]; [now apply L_AltL | now apply L_AltR].
Qed.

(** Reading the byte [c] first and then a member of the derivative is
    the same as reading a member of the expression. *)
Lemma cat_cons r1 r2 c u v :
  lang r1 (String c u) -> lang r2 v -> lang (Cat r1 r2) (String c (u ++ v)).
Proof.
  intros H1 H2. change (String c (u ++ v)) with (String c u ++ v). now constructor.
Qed.

Lemma deriv_lang c r : forall w, lang (deriv c r) w <-> lang r (String c w).
Proof.
  induction r as [| |d|p|r1 IH1 r2 IH2|r1 IH1 r2 IH2|r1 IH1]; intros w; simpl.
  - rewrite !lang_void. tauto.
  - rewrite lang_void, lang_eps. split; [tauto | discriminate].
  - rewrite lang_lit. destruct (Ascii.eqb_spec c d) as [->|Hne].
    + rewrite lang_eps. split; [now intros -> | now intros [= ->]].
    + rewrite lang_void. split; [tauto | intros [= E _]; congruence].
  - rewrite lang_class. destruct (p c) eqn:Hp.
    + rewrite lang_eps. split; [intros ->; eauto | now intros (x & [= _ ->] & _)].
    + rewrite lang_void. split; [tauto | intros (x & [= -> _] & Hx); congruence].
  - assert (Hcat : lang (Cat (deriv c r1) r2) w
                   <-> exists u v, w = u ++ v /\ lang r1 (String c u) /\ lang r2 v).
    { rewrite lang_cat. split; intros (u & v & E & Hu & Hv); exists u, v;
        (split; [exact E | split; [now apply IH1 | exact Hv]]). }
    rewrite (lang_cat r1 r2). destruct (nullable r1) eqn:Hn.
    + rewrite lang_alt, Hcat, IH2. split.
      * intros [(u & v & -> & Hu & Hv) | H].
        -- exists (String c u), v. now repeat split.
        -- apply nullable_lang in Hn. exists EmptyString, (String c w). now repeat split.
      * intros (u & v & E & Hu & Hv). destruct u as [|x u]; simpl in E.
        -- right. now subst v.
        -- injection E as -> ->. left. exists u, v. now repeat split.
    + rewrite Hcat. split.
      * intros (u & v & -> & Hu & Hv). exists (String c u), v. now repeat split.
      * intros (u & v & E & Hu & Hv). destruct u as [|x u]; simpl in E.
        -- apply nullable_lang in Hu. congruence.
        -- injection E as -> ->. exists u, v. now repeat split.
  - rewrite !lang_alt, IH1, IH2. tauto.
  - rewrite lang_cat. split.
    + intros (u & v & -> & Hu & Hv). apply IH1 in Hu.
      change (String c (u ++ v)) with (String c u ++ v). now constructor.
    + intros H. apply star_cons_inv in H as (u & v & -> & Hu & Hv).
      exists u, v. repeat split; [now apply IH1 | exact Hv].
Qed.

Theorem matchPrefix_lang r s :
  matchPrefix r s = true <-> exists u v, s = u ++ v /\ lang r u.
Proof.
  revert r. induction s as [|c s IH]; intros r; simpl.
  - rewrite orb_false_r, nullable_lang. split.
    + intros H. now exists EmptyString, EmptyString.
    + intros (u & v & Huv & H). symmetry in Huv.
      apply append_eq_nil in Huv as [-> _]. exact H.
  - rewrite orb_true_iff, nullable_lang, IH. split.
    + intros [H | (u & v & -> & H)].
      * now exists EmptyString, (String c s).
      * exists (String c u), v. split; [reflexivity | now apply deriv_lang].
    + intros (u & v & Huv & H). destruct u as [|x u]; simpl in Huv.
      * now left.
      * inversion Huv; subst. right. exists u, v. split; [reflexivity | now apply deriv_lang].
Qed.

(** A run of bytes of a class. *)
Lemma lang_star_class p w : lang (Star (Class p)) w <-> forallb_str p w = true.
Proof.
  split.
  - intros H. remember (Star (Class p)) as sr eqn:Hr.
    induction H; try discriminate; [reflexivity|].
    inversion Hr; subst r. apply lang_class in H as (c & -> & Hc). simpl.
    rewrite Hc. simpl. now apply IHlang2.
  - induction w as [|c w IH]; simpl; intros H.
    + constructor.
    + apply andb_true_iff in H as [Hc Hw].
      change (String c w) with (String c EmptyString ++ w).
      constructor; [now constructor | auto].
Qed.

Lemma lang_plus_class p w :
  lang (Plus (Class p)) w <-> w <> EmptyString /\ forallb_str p w = true.
Proof.
  unfold Plus. rewrite lang_cat. split.
  - intros (u & v & -> & Hu & Hv). apply lang_class in Hu as (c & -> & Hc).
    apply lang_star_class in Hv. simpl. rewrite Hc, Hv. split; [discriminate | reflexivity].
  - intros [Hne H]. destruct w as [|c w]; [congruence|]. simpl in H.
    apply andb_true_iff in H as [Hc Hw].
    exists (String c EmptyString), w. repeat split.
    + apply lang_class; eauto.
    + now apply lang_star_class.
Qed.

End RegexpFacts.

(** The compiled trigger pattern accepts exactly the texts that start
    with a command. *)
Lemma trigger_matches_iff (text : string) :
  Regexp.Match triggerMessageRegex text = true <-> startsWithCommand text.
Proof.
  unfold Regexp.Match, triggerMessageRegex; simpl Regexp.beginText; simpl Regexp.expr.
  rewrite RegexpFacts.matchPrefix_lang. unfold startsWithCommand, isWord. split.
  - intros (u & rest & -> & H).
    apply RegexpFacts.lang_cat in H as (a1 & t1 & -> & Ha1 & H).
    apply RegexpFacts.lang_cat in H as (a2 & t2 & -> & Ha2 & H).
    apply RegexpFacts.lang_cat in H as (a3 & t3 & -> & Ha3 & H).
    apply RegexpFacts.lang_cat in H as (b1 & t4 & -> & Hb1 & H).
    apply RegexpFacts.lang_cat in H as (w1 & t5 & -> & Hw1 & H).
    apply RegexpFacts.lang_cat in H as (b2 & w2 & -> & Hb2 & Hw2).
    apply RegexpFacts.lang_lit in Ha1, Ha2, Ha3. subst a1 a2 a3.
    apply RegexpFacts.lang_class in Hb1 as (s1 & -> & Hs1).
    apply RegexpFacts.lang_class in Hb2 as (s2 & -> & Hs2).
    apply RegexpFacts.lang_plus_class in Hw1, Hw2.
    exists s1, w1, s2, w2, rest. simpl. rewrite !append_assoc. simpl.
    repeat split; tauto.
  - intros (s1 & w1 & s2 & w2 & rest & -> & Hs1 & Hw1 & Hs2 & Hw2).
    exists ("@ha" ++ String s1 w1 ++ String s2 w2), rest. split.
    + simpl. now rewrite !append_assoc.
    + change ("@ha" ++ String s1 w1 ++ String s2 w2)
        with ("@" ++ "h" ++ "a" ++ String s1 EmptyString ++ w1 ++ String s2 EmptyString ++ w2).
      repeat (constructor; try (apply RegexpFacts.lang_class; eauto)).
      * now apply RegexpFacts.lang_plus_class.
      * now apply RegexpFacts.lang_plus_class.
Qed.

(* ------------------------------------------------------------------ *)
(** ** strings.Fields on a command *)

Lemma ascii_space_agree c :
  Utf8.isASCII c = true -> Utf8.IsSpace (byte_of c) = Strings.asciiSpace c.
Proof.
  destruct c as [[] [] [] [] [] [] [] []]; intros H; vm_compute in H; try discriminate H; reflexivity.
Qed.

Lemma decode_ascii c r :
  Utf8.isASCII c = true -> Utf8.DecodeRuneInString (String c r) = (byte_of c, 1).
Proof.
  intros H. unfold Utf8.DecodeRuneInString, Utf8.nthByte. simpl.
  unfold Utf8.isASCII in H. now rewrite H.
Qed.

Lemma fieldsRunes_start f s b b' cur :
  Strings.fieldsRunes f s 0 b cur = Strings.fieldsRunes f s 0 b' cur.
Proof. destruct s; reflexivity. Qed.

Lemma fieldsASCII_runes s : forall cur b,
  forallb_str Utf8.isASCII s = true ->
  Strings.fieldsASCII s cur = Strings.fieldsRunes Utf8.IsSpace s 0 b cur.
Proof.
  induction s as [|c r IH]; intros cur b H; [reflexivity|].
  simpl in H. apply andb_true_iff in H as [Hc Hr].
  cbn [Strings.fieldsASCII Strings.fieldsRunes].
  rewrite decode_ascii by exact Hc. cbn [Nat.pred].
  rewrite ascii_space_agree by exact Hc.
  destruct (Strings.asciiSpace c).
  - now rewrite <- IH.
  - now rewrite <- IH.
Qed.

Theorem Fields_FieldsFunc s : Strings.Fields s = Strings.FieldsFunc s Utf8.IsSpace.
Proof.
  unfold Strings.Fields, Strings.FieldsFunc.
  destruct (forallb_str Utf8.isASCII s) eqn:H; [|reflexivity].
  now apply fieldsASCII_runes.
Qed.

Lemma word_is_ascii c : Regexp.perlWord c = true -> Utf8.isASCII c = true /\ Strings.asciiSpace c = false.
Proof.
  destruct c as [[] [] [] [] [] [] [] []]; intros H; vm_compute in H; try discriminate H; split; reflexivity.
Qed.

Lemma space_is_ascii c : Regexp.perlSpace c = true -> Utf8.isASCII c = true /\ Strings.asciiSpace c = true.
Proof.
  destruct c as [[] [] [] [] [] [] [] []]; intros H; vm_compute in H; try discriminate H; split; reflexivity.
Qed.

Lemma runes_ascii c r b cur :
  Utf8.isASCII c = true ->
  Strings.fieldsRunes Utf8.IsSpace (String c r) 0 b cur
  = if Strings.asciiSpace c
    then Strings.flush cur (Strings.fieldsRunes Utf8.IsSpace r 0 true None)
    else Strings.fieldsRunes Utf8.IsSpace r 0 false (Strings.extend cur c).
Proof.
  intros Hc. cbn [Strings.fieldsRunes].
  rewrite decode_ascii by exact Hc. cbn [Nat.pred].
  rewrite ascii_space_agree by exact Hc.
  destruct (Strings.asciiSpace c); reflexivity.
Qed.

Lemma runes_word w : forall t b cur,
  forallb_str Regexp.perlWord w = true ->
  Strings.fieldsRunes Utf8.IsSpace (w ++ t) 0 b (Some cur)
  = Strings.fieldsRunes Utf8.IsSpace t 0 b (Some (cur ++ w)).
Proof.
  induction w as [|c w IH]; intros t b cur H.
  - simpl. now rewrite append_nil_r.
  - simpl in H. apply andb_true_iff in H as [Hc Hw].
    apply word_is_ascii in Hc as [Ha Hs].
    simpl append at 1. rewrite runes_ascii by exact Ha. rewrite Hs. simpl Strings.extend.
    rewrite IH by exact Hw. rewrite append_assoc. simpl.
    apply fieldsRunes_start.
Qed.

Lemma runes_first f t : forall p b cur,
  exists x l, Strings.fieldsRunes f t p b (Some cur) = (cur ++ x) :: l.
Proof.
  induction t as [|c t IH]; intros p b cur.
  - exists EmptyString, []. simpl. now rewrite append_nil_r.
  - cbn [Strings.fieldsRunes].
    destruct (match p with
              | 0 => let '(rune, size) := Utf8.DecodeRuneInString (String c t) in (f rune, Nat.pred size)
              | S k => (b, k) end) as [sp' p'].
    destruct sp'.
    + exists EmptyString. simpl. rewrite append_nil_r. eauto.
    + simpl Strings.extend.
      destruct (IH p' false (cur ++ String c EmptyString)) as (x & l & E).
      exists (String c x), l. rewrite E. now rewrite append_assoc.
Qed.

Lemma runes_nonspace c r b cur :
  Utf8.isASCII c = true -> Strings.asciiSpace c = false ->
  Strings.fieldsRunes Utf8.IsSpace (String c r) 0 b cur
  = Strings.fieldsRunes Utf8.IsSpace r 0 false (Strings.extend cur c).
Proof. intros Ha Hs. rewrite runes_ascii by exact Ha. now rewrite Hs. Qed.

Lemma runes_space c r b cur :
  Utf8.isASCII c = true -> Strings.asciiSpace c = true ->
  Strings.fieldsRunes Utf8.IsSpace (String c r) 0 b cur
  = Strings.flush cur (Strings.fieldsRunes Utf8.IsSpace r 0 true None).
Proof. intros Ha Hs. rewrite runes_ascii by exact Ha. now rewrite Hs. Qed.

Theorem Fields_command s1 w1 s2 w2 rest :
  Regexp.perlSpace s1 = true -> isWord w1 ->
  Regexp.perlSpace s2 = true -> isWord w2 ->
  exists x l,
    Strings.Fields ("@ha" ++ String s1 w1 ++ String s2 w2 ++ rest)
    = "@ha" :: w1 :: (w2 ++ x) :: l.
Proof.
  intros Hs1 [Hn1 Hw1] Hs2 [Hn2 Hw2].
  rewrite Fields_FieldsFunc. unfold Strings.FieldsFunc.
  apply space_is_ascii in Hs1 as [Ha1 Hsp1], Hs2 as [Ha2 Hsp2].
  destruct w1 as [|c1 w1]; [congruence|]. destruct w2 as [|c2 w2]; [congruence|].
  simpl in Hw1, Hw2.
  apply andb_true_iff in Hw1 as [Hc1 Hw1]. apply andb_true_iff in Hw2 as [Hc2 Hw2].
  apply word_is_ascii in Hc1 as [Hca1 Hcs1], Hc2 as [Hca2 Hcs2].
  cbn [append].
  do 3 (rewrite runes_nonspace by reflexivity; cbn [Strings.extend append]).
  rewrite runes_space by assumption. cbn [Strings.flush].
  rewrite runes_nonspace by assumption. cbn [Strings.extend].
  rewrite runes_word by exact Hw1.
  rewrite runes_space by assumption. cbn [Strings.flush].
  rewrite runes_nonspace by assumption. cbn [Strings.extend].
  rewrite runes_word by exact Hw2.
  destruct (runes_first Utf8.IsSpace rest 0 false (String c2 EmptyString ++ w2)) as (x & l & E).
  exists x, l. rewrite E. reflexivity.
Qed.

(* ------------------------------------------------------------------ *)
(** ** Runs of the program's functions *)

Section Runs.

Variable env : Env.
Variable config : Config.

Lemma generateRandomBytes_run n : forall w,
  generateRandomBytes env n w
  = (Returned (nonceFrom env (draws w) n), {| draws := draws w + n; trace := trace w |}).
Proof.
  induction n as [|n IH]; intros w.
  - simpl. unfold ret. rewrite Nat.add_0_r. now destruct w.
  - cbn [generateRandomBytes nonceFrom]. unfold bind at 1. unfold randIntn at 1.
    unfold bind at 1. rewrite IH. cbn [draws trace]. unfold ret.
    now rewrite Nat.add_succ_r.
Qed.

Lemma getRandomResponse_run w :
  getRandomResponse env w
  = (Returned "Done!", {| draws := S (draws w); trace := trace w |}).
Proof.
  unfold getRandomResponse, bind, randIntn, ret. cbn [List.length possibleResponses].
  now rewrite Nat.mod_1_r.
Qed.

Lemma reply_header random signature :
  Http.Set_ (Http.Set_ (Http.Set_ (Http.Set_ [] "Content-Type" "application/json")
                                  "OCS-APIRequest" "true")
                       "X-Nextcloud-Talk-Bot-Random" random)
            "X-Nextcloud-Talk-Bot-Signature" signature
  = [("X-Nextcloud-Talk-Bot-Signature", signature);
     ("X-Nextcloud-Talk-Bot-Random", random);
     ("Ocs-Apirequest", "true");
     ("Content-Type", "application/json")].
Proof. reflexivity. Qed.

Lemma sendReply_run server message text w :
  sendReply env config server message text w
  = let random := nonceFrom env (draws w) 64 in
    match newRequestError env "POST" (replyURL server message) with
    | Some err =>
        (Exited 1,
         {| draws := draws w + 64;
            trace := trace w ++ [Log ("[Response]      Error creating request " ++ err)] |})
    | None =>
        (Returned tt,
         {| draws := draws w + 64;
            trace := trace w
                     ++ replyEvents env (replyRequest env config server message text random) |})
    end.
Proof.
  unfold sendReply. unfold bind at 1. rewrite generateRandomBytes_run.
  fold (replyURL server message). cbv zeta.
  destruct (newRequestError env "POST" (replyURL server message)) as [err|].
  - reflexivity.
  - rewrite reply_header. fold (replyRequest env config server message text (nonceFrom env (draws w) 64)).
    unfold replyEvents, bind, emit, logPrint, emit, ret. cbn [draws trace].
    destruct (clientDo env replyClient _) as [err|]; cbn [draws trace].
    + now rewrite <- app_assoc.
    + reflexivity.
Qed.

Lemma callWebhook_run jsonData w :
  callWebhook env config jsonData w
  = (Returned (dispatchOk env config jsonData),
     {| draws := draws w;
        trace := trace w ++ [WebhookPost (webhookURL config) "application/json" jsonData;
                             Log (dispatchLog env config jsonData)] |}).
Proof.
  unfold callWebhook, dispatchOk, dispatchLog, hubAnswer. fold (webhookURL config).
  cbv zeta. unfold bind, emit, logPrint, emit, ret. cbn [draws trace].
  destruct (httpPost env _ _ _) as [err|code]; cbn [draws trace].
  - now rewrite <- app_assoc.
  - destruct (Nat.eqb code Http.StatusOK); cbn [draws trace]; now rewrite <- app_assoc.
Qed.

Lemma commandToJson_run command w :
  commandToJson command w
  = let words := Strings.Fields command in
    if Nat.leb 3 (List.length words)
    then (Returned (Some (commandFormat (nth 1 words EmptyString) (nth 2 words EmptyString))), w)
    else (Returned None,
          {| draws := draws w;
             trace := trace w ++ [Log "[Talk]          Command doesn't contain at least two words."] |}).
Proof.
  unfold commandToJson. cbv zeta.
  destruct (Nat.leb 3 (List.length (Strings.Fields command))); reflexivity.
Qed.

End Runs.

(* ------------------------------------------------------------------ *)
(** ** The paths of [messageHandling] *)

Lemma bind_returned {A B} (m : M A) (k : A -> M B) w a w' :
  m w = (Returned a, w') -> bind m k w = k a w'.
Proof. intros H. unfold bind. now rewrite H. Qed.

Lemma bind_exited {A B} (m : M A) (k : A -> M B) w c w' :
  m w = (Exited c, w') -> bind m k w = (Exited c, w').
Proof. intros H. unfold bind. now rewrite H. Qed.

Lemma emit_run e w :
  emit e w = (Returned tt, {| draws := draws w; trace := trace w ++ [e] |}).
Proof. reflexivity. Qed.

Section Paths.

Variable env : Env.
Variable config : Config.
Variable r : Http.Request.
Variable d : nat.

Let run := messageHandling env config r (fresh d).

Lemma path_not_post :
  Http.Method r <> Http.MethodPost -> run = (Returned tt, fresh d).
Proof.
  intros H. unfold run, messageHandling.
  apply String.eqb_neq in H. now rewrite H.
Qed.

(** From here on the request is a POST; the handler reads the body. *)
Hypothesis isPost : Http.Method r = Http.MethodPost.

Let afterRead := {| draws := d; trace := [ReadBody] |}.

Lemma path_unreadable e :
  Http.readErr (Http.Body r) = Some e ->
  run = (Returned tt,
         {| draws := d;
            trace := [ReadBody; Log ("[Request]       Error reading body: " ++ e);
                      HttpError "can't read body" Http.StatusBadRequest] |}).
Proof.
  intros He. unfold run, messageHandling. rewrite isPost, String.eqb_refl. cbn [negb].
  unfold readAll.
  erewrite bind_returned by (erewrite bind_returned by apply emit_run; reflexivity).
  rewrite He. reflexivity.
Qed.

Hypothesis readable : Http.readErr (Http.Body r) = None.

Lemma path_bad_signature :
  verify (bodyOf r) (randomOf r) (signatureOf r) (bot_secret config) = false ->
  run = (Returned tt,
         {| draws := d;
            trace := [ReadBody;
                      Log ("[Request]       Error validating signature: "
                           ++ generateHmacForString (bodyOf r) (randomOf r) (bot_secret config)
                           ++ " / " ++ signatureOf r);
                      HttpError "Invalid signature" Http.StatusBadRequest] |}).
Proof.
  intros Hv. unfold run, messageHandling. rewrite isPost, String.eqb_refl. cbn [negb].
  unfold readAll.
  erewrite bind_returned by (erewrite bind_returned by apply emit_run; reflexivity).
  rewrite readable. cbv zeta. unfold verify, bodyOf, randomOf, signatureOf in Hv.
  rewrite Hv. reflexivity.
Qed.

Hypothesis verified :
  verify (bodyOf r) (randomOf r) (signatureOf r) (bot_secret config) = true.

Lemma path_bad_envelope message e :
  createMessage env (bodyOf r) = (message, Some e) ->
  run = (Returned tt,
         {| draws := d;
            trace := [ReadBody; Log ("[Request]       Error invalid body: " ++ e);
                      HttpError "Invalid signature" Http.StatusBadRequest] |}).
Proof.
  intros Hc. unfold run, messageHandling. rewrite isPost, String.eqb_refl. cbn [negb].
  unfold readAll.
  erewrite bind_returned by (erewrite bind_returned by apply emit_run; reflexivity).
  rewrite readable. cbv zeta.
  pose proof verified as Hv. unfold verify, bodyOf, randomOf, signatureOf in Hv.
  rewrite Hv. cbn [negb]. unfold bodyOf in Hc. rewrite Hc. reflexivity.
Qed.

Variable message : Message.
Hypothesis decoded : createMessage env (bodyOf r) = (message, None).

(** The handler has come to line 225; [inner] is what the [if] around
    the rich message does. *)
Lemma path_decoded :
  run = bind (if String.eqb (ObjectName (Object message)) "message" then
                let '(richMessage, err) :=
                  createRichMessageWithoutParameters env (ObjectContent (Object message)) in
                match err with
                | None =>
                    if Regexp.Match triggerMessageRegex (RichMessage richMessage) then
                      logPrint ("[Talk]          Command found: " ++ RichMessage richMessage) ;;;
                      json <- commandToJson (RichMessage richMessage) ;;
                      ok <- callWebhook env config json ;;
                      if ok then
                        text <- getRandomResponse env ;;
                        sendReply env config (backendOf r) message text
                      else
                        sendReply env config (backendOf r) message "Error calling Home Assistant"
                    else
                      logPrint ("[Talk]          Message is not command: "
                                ++ RichMessage richMessage)
                | Some _ => ret tt
                end
              else ret tt)
             (fun _ => httpError "Received" Http.StatusOK) afterRead.
Proof.
  unfold run, messageHandling. rewrite isPost, String.eqb_refl. cbn [negb].
  unfold readAll.
  erewrite bind_returned by (erewrite bind_returned by apply emit_run; reflexivity).
  rewrite readable. cbv zeta.
  pose proof verified as Hv. unfold verify, bodyOf, randomOf, signatureOf in Hv.
  rewrite Hv. cbn [negb]. pose proof decoded as Hc. unfold bodyOf in Hc. rewrite Hc.
  reflexivity.
Qed.

Lemma path_other_object :
  ObjectName (Object message) <> "message" ->
  run = (Returned tt, {| draws := d; trace := [ReadBody; HttpError "Received" Http.StatusOK] |}).
Proof.
  intros Hn. rewrite path_decoded. apply String.eqb_neq in Hn. rewrite Hn. reflexivity.
Qed.

Hypothesis isMessage : ObjectName (Object message) = "message".

Lemma path_bad_rich rich e :
  createRichMessageWithoutParameters env (ObjectContent (Object message)) = (rich, Some e) ->
  run = (Returned tt, {| draws := d; trace := [ReadBody; HttpError "Received" Http.StatusOK] |}).
Proof.
  intros Hr. rewrite path_decoded, isMessage, String.eqb_refl, Hr. reflexivity.
Qed.

Variable rich : RichObjectMessage.
Hypothesis richDecoded :
  createRichMessageWithoutParameters env (ObjectContent (Object message)) = (rich, None).

Lemma path_not_command :
  Regexp.Match triggerMessageRegex (RichMessage rich) = false ->
  run = (Returned tt,
         {| draws := d;
            trace := [ReadBody;
                      Log ("[Talk]          Message is not command: " ++ RichMessage rich);
                      HttpError "Received" Http.StatusOK] |}).
Proof.
  intros Hm. rewrite path_decoded, isMessage, String.eqb_refl, richDecoded, Hm. reflexivity.
Qed.

(** The command path: what is dispatched, what is answered, and how the
    run ends. *)
Let json := Some (commandBody (RichMessage rich)).
Let ok := dispatchOk env config json.
Let text := replyText ok.
Let d' := if ok then S d else d.
Let request := replyRequest env config (backendOf r) message text (nonceFrom env d' 64).
Let dispatched :=
  [ReadBody;
   Log ("[Talk]          Command found: " ++ RichMessage rich);
   WebhookPost (webhookURL config) "application/json" json;
   Log (dispatchLog env config json)].

Lemma path_command :
  Regexp.Match triggerMessageRegex (RichMessage rich) = true ->
  run = match newRequestError env "POST" (replyURL (backendOf r) message) with
        | Some err =>
            (Exited 1,
             {| draws := d' + 64;
                trace := dispatched
                         ++ [Log ("[Response]      Error creating request " ++ err)] |})
        | None =>
            (Returned tt,
             {| draws := d' + 64;
                trace := dispatched ++ replyEvents env request
                         ++ [HttpError "Received" Http.StatusOK] |})
        end.
Proof.
  intros Hm. rewrite path_decoded, isMessage, String.eqb_refl, richDecoded, Hm.
  assert (H3 : Nat.leb 3 (List.length (Strings.Fields (RichMessage rich))) = true).
  { apply trigger_matches_iff in Hm as (s1 & w1 & s2 & w2 & rest & E & Hs1 & Hw1 & Hs2 & Hw2).
    destruct (@Fields_command s1 w1 s2 w2 rest Hs1 Hw1 Hs2 Hw2) as (x & l & F).
    rewrite E, F. reflexivity. }
  unfold logPrint, httpError, bind, emit. unfold afterRead. cbn [draws trace app].
  rewrite commandToJson_run. cbv zeta. rewrite H3.
  fold (commandBody (RichMessage rich)). fold json.
  rewrite callWebhook_run. fold ok. cbn [draws trace app].
  unfold request, text, d', dispatched, replyText.
  destruct ok.
  - rewrite getRandomResponse_run, sendReply_run. cbn [draws trace app]. cbv zeta.
    destruct (newRequestError env "POST" (replyURL (backendOf r) message)); cbn [draws trace app].
    + reflexivity.
    + reflexivity.
  - rewrite sendReply_run. cbn [draws trace app]. cbv zeta.
    destruct (newRequestError env "POST" (replyURL (backendOf r) message)); cbn [draws trace app].
    + reflexivity.
    + reflexivity.
Qed.

End Paths.

(* ------------------------------------------------------------------ *)
(** ** strings.TrimRight *)

Lemma TrimRight_split s cutset :
  exists t, s = Strings.TrimRight s cutset ++ t
            /\ forallb_str (fun c => inb c cutset) t = true.
Proof.
  induction s as [|c r (t & E & Ht)].
  - now exists EmptyString.
  - cbn [Strings.TrimRight]. destruct (Strings.TrimRight r cutset) as [|x y] eqn:T.
    + simpl in E. subst t. destruct (inb c cutset) eqn:Hc.
      * exists (String c r). simpl. now rewrite Hc, Ht.
      * exists r. now split.
    + exists t. split; [|exact Ht]. cbn [append]. f_equal. exact E.
Qed.

Lemma TrimRight_last s cutset : forall u c,
  Strings.TrimRight s cutset = u ++ String c EmptyString -> inb c cutset = false.
Proof.
  induction s as [|x r IH]; intros u c E.
  - destruct u; discriminate E.
  - cbn [Strings.TrimRight] in E. destruct (Strings.TrimRight r cutset) as [|y z] eqn:T.
    + destruct (inb x cutset) eqn:Hx.
      * destruct u; discriminate E.
      * destruct u as [|a u]; simpl in E.
        -- now injection E as ->.
        -- injection E as _ E. destruct u; discriminate E.
    + destruct u as [|a u]; simpl in E.
      * discriminate E.
      * injection E as _ E. now apply (IH u c).
Qed.

Lemma all_slashes t :
  forallb_str (fun c => inb c "/") t = true -> t = replicate (String.length t) "/".
Proof.
  induction t as [|c t IH]; simpl; intros H; [reflexivity|].
  apply andb_true_iff in H as [Hc Ht]. unfold inb in Hc. simpl in Hc.
  rewrite orb_false_r in Hc. apply Ascii.eqb_eq in Hc. subst c. f_equal. now apply IH.
Qed.

(* ------------------------------------------------------------------ *)
(** ** The handler acts only on a command *)

(** Every event of a rejected request is harmless. *)
Lemma outbound_needs_command (env : Env) (config : Config) (r : Http.Request) (d : nat) :
  filter isOutbound (eventsOf (messageHandling env config r (fresh d))) <> [] ->
  exists message rich,
    carriesText env config r message rich
    /\ Regexp.Match triggerMessageRegex (RichMessage rich) = true.
Proof.
  intros H.
  destruct (string_dec (Http.Method r) Http.MethodPost) as [Hm|Hm];
    [|exfalso; apply H; now rewrite (path_not_post env config r d Hm)].
  destruct (Http.readErr (Http.Body r)) as [e|] eqn:He;
    [exfalso; apply H; now rewrite (path_unreadable env config r d Hm e He)|].
  destruct (verify (bodyOf r) (randomOf r) (signatureOf r) (bot_secret config)) eqn:Hv;
    [|exfalso; apply H; now rewrite (path_bad_signature env config r d Hm He Hv)].
  destruct (createMessage env (bodyOf r)) as [message [e|]] eqn:Hc;
    [exfalso; apply H; now rewrite (path_bad_envelope env config r d Hm He Hv message e Hc)|].
  destruct (string_dec (ObjectName (Object message)) "message") as [Hn|Hn];
    [|exfalso; apply H; now rewrite (path_other_object env config r d Hm He Hv message Hc Hn)].
  destruct (createRichMessageWithoutParameters env (ObjectContent (Object message)))
    as [rich [e|]] eqn:Hr;
    [exfalso; apply H; now rewrite (path_bad_rich env config r d Hm He Hv message Hc Hn rich e Hr)|].
  destruct (Regexp.Match triggerMessageRegex (RichMessage rich)) eqn:Ht;
    [|exfalso; apply H; now rewrite (path_not_command env config r d Hm He Hv message Hc Hn rich Hr Ht)].
  exists message, rich. unfold carriesText. auto 10.
Qed.

Lemma status_is_200 (code : nat) :
  Nat.eqb code Http.StatusOK = match code with 200 => true | _ => false end.
Proof.
  unfold Http.StatusOK. do 201 (destruct code as [|code]; [reflexivity|]). reflexivity.
Qed.

Lemma dispatchLog_no_complaint (env : Env) (config : Config) (jsonData : option string) :
  isSignatureComplaint (Log (dispatchLog env config jsonData)) = false.
Proof.
  unfold dispatchLog. destruct (hubAnswer env config jsonData) as [err|code]; [reflexivity|].
  destruct (Nat.eqb code Http.StatusOK); reflexivity.
Qed.

(** A POST with a readable body and the signature the backend computes
    gets past the check: the complaint is never logged. *)
Lemma signed_request_passes_check (env : Env) (config : Config) (r : Http.Request) (d : nat) :
  Http.Method r = Http.MethodPost ->
  Http.readErr (Http.Body r) = None ->
  verify (bodyOf r) (randomOf r) (signatureOf r) (bot_secret config) = true ->
  existsb isSignatureComplaint (eventsOf (messageHandling env config r (fresh d))) = false.
Proof.
  intros Hm He Hv.
  destruct (createMessage env (bodyOf r)) as [message [e|]] eqn:Hc;
    [now rewrite (path_bad_envelope env config r d Hm He Hv message e Hc)|].
  destruct (string_dec (ObjectName (Object message)) "message") as [Hn|Hn];
    [|now rewrite (path_other_object env config r d Hm He Hv message Hc Hn)].
  destruct (createRichMessageWithoutParameters env (ObjectContent (Object message)))
    as [rich [e|]] eqn:Hr;
    [now rewrite (path_bad_rich env config r d Hm He Hv message Hc Hn rich e Hr)|].
  destruct (Regexp.Match triggerMessageRegex (RichMessage rich)) eqn:Ht;
    [|now rewrite (path_not_command env config r d Hm He Hv message Hc Hn rich Hr Ht)].
  rewrite (path_command env config r d Hm He Hv message Hc Hn rich Hr Ht).
  destruct (newRequestError env "POST" _) as [err|]; unfold eventsOf; cbn [snd trace].
  - cbn [app existsb]. rewrite dispatchLog_no_complaint. reflexivity.
  - unfold replyEvents. cbn [app existsb]. rewrite dispatchLog_no_complaint.
    destruct (clientDo env replyClient _); reflexivity.
Qed.

(* ------------------------------------------------------------------ *)
(** ** Nonces and digests *)

Lemma length_nonceFrom (env : Env) (n : nat) : forall d,
  String.length (nonceFrom env d n) = n.
Proof. induction n as [|n IH]; intros d; simpl; [reflexivity | now rewrite IH]. Qed.

Lemma letterBytes_at (i : nat) :
  i < String.length letterBytes -> inb (byteAt letterBytes i) letterBytes = true.
Proof.
  intros H. do 62 (destruct i as [|i]; [reflexivity|]).
  simpl in H. lia.
Qed.

Lemma nonceFrom_alphabet (env : Env) (n : nat) : forall d,
  forallb_str (fun c => inb c letterBytes) (nonceFrom env d n) = true.
Proof.
  induction n as [|n IH]; intros d; [reflexivity|].
  cbn [nonceFrom forallb_str]. rewrite IH, andb_true_r.
  apply letterBytes_at. apply Nat.mod_upper_bound. discriminate.
Qed.

Lemma hexdigit_lower (n : N) : (n < 16)%N -> isLowerHex (Crypto.hexdigit n) = true.
Proof.
  intros H. assert (E : n = N.of_nat (N.to_nat n)) by now rewrite N2Nat.id.
  assert (Hn : N.to_nat n < 16) by lia.
  rewrite E. generalize dependent (N.to_nat n). intros k _ Hk.
  do 16 (destruct k as [|k]; [reflexivity|]). lia.
Qed.

Lemma hexEncode_shape (l : list N) :
  Forall (fun b => (b < 256)%N) l ->
  String.length (Crypto.hexEncode l) = 2 * List.length l
  /\ forallb_str isLowerHex (Crypto.hexEncode l) = true.
Proof.
  induction 1 as [|b l Hb _ [IHl IHh]]; [now split|].
  cbn [Crypto.hexEncode String.length List.length forallb_str]. split.
  - rewrite IHl. lia.
  - rewrite IHh, !hexdigit_lower; [reflexivity | |].
    + apply N.mod_lt. discriminate.
    + apply N.Div0.div_lt_upper_bound. exact Hb.
Qed.

Lemma be_bytes_shape (width : nat) (v : N) :
  List.length (Crypto.be_bytes width v) = width
  /\ Forall (fun b => (b < 256)%N) (Crypto.be_bytes width v).
Proof.
  unfold Crypto.be_bytes. split.
  - now rewrite length_map, length_rev, length_seq.
  - apply Forall_map. apply Forall_forall. intros i _. apply N.mod_lt. discriminate.
Qed.

Lemma sha256_shape (msg : list N) :
  List.length (Crypto.sha256 msg) = 32
  /\ Forall (fun b => (b < 256)%N) (Crypto.sha256 msg).
Proof.
  unfold Crypto.sha256, Crypto.digest_bytes.
  generalize (Crypto.blocks (List.length (Crypto.pad msg)) Crypto.initState (Crypto.pad msg)).
  intros s. split.
  - rewrite !length_app. now rewrite !(proj1 (be_bytes_shape 4 _)).
  - repeat (apply Forall_app; split); apply be_bytes_shape.
Qed.

Lemma hmac_sha256_shape (key msg : list N) :
  List.length (Crypto.hmac_sha256 key msg) = 32
  /\ Forall (fun b => (b < 256)%N) (Crypto.hmac_sha256 key msg).
Proof. unfold Crypto.hmac_sha256. cbv zeta. apply sha256_shape. Qed.

(** The digest is 64 lower-case hexadecimal digits. *)
Lemma generateHmacForString_shape (message random secret : string) :
  String.length (generateHmacForString message random secret) = 64
  /\ forallb_str isLowerHex (generateHmacForString message random secret) = true.
Proof.
  unfold generateHmacForString. cbv zeta.
  set (sum := Crypto.hmac_sha256 _ _).
  destruct (hexEncode_shape sum (proj2 (hmac_sha256_shape _ _))) as [Hl Hh].
  split; [|exact Hh]. rewrite Hl. unfold sum. now rewrite (proj1 (hmac_sha256_shape _ _)).
Qed.

Lemma Get_reply_header (signature random : string) :
  let h := [("X-Nextcloud-Talk-Bot-Signature", signature);
            ("X-Nextcloud-Talk-Bot-Random", random);
            ("Ocs-Apirequest", "true");
            ("Content-Type", "application/json")] in
  Http.Get h "X-Nextcloud-Talk-Bot-Signature" = signature
  /\ Http.Get h "X-Nextcloud-Talk-Bot-Random" = random
  /\ Http.Get h "OCS-APIRequest" = "true"
  /\ Http.Get h "Content-Type" = "application/json".
Proof. repeat split. Qed.

(* ------------------------------------------------------------------ *)
(** ** The body of the dispatch as a JSON text *)

Lemma readString_plain (a : string) : forall acc rest,
  forallb_str plain a = true ->
  Json.readString (a ++ String "034" rest) acc None = Some (acc ++ a, rest).
Proof.
  induction a as [|c a IH]; intros acc rest H.
  - simpl. now rewrite append_nil_r.
  - cbn [forallb_str] in H. apply andb_true_iff in H as [Hc Ha].
    unfold plain in Hc. apply andb_true_iff in Hc as [Hc H3].
    apply andb_true_iff in Hc as [H1 H2].
    apply negb_true_iff in H2, H3. apply N.leb_le in H1.
    cbn [append Json.readString]. rewrite H2, H3.
    replace (byte_of c <? 32)%N with false by (symmetry; apply N.ltb_ge; exact H1).
    cbn [Json.settle]. rewrite (IH _ _ Ha). now rewrite append_assoc.
Qed.

(** When action and target hold only such bytes, the body reads as the
    object with these two members. *)
Lemma commandFormat_is_json (action target : string) :
  forallb_str plain action = true -> forallb_str plain target = true ->
  isJsonOfCommand (commandFormat action target) action target.
Proof.
  intros Ha Ht. unfold isJsonOfCommand, Json.parse, Json.enough, commandFormat.
  unfold LF, TAB, DQ. cbn [append String.length].
  rewrite !length_append. cbn [String.length Nat.add].
  match goal with
  | |- context [Json.readValue (S (S (S (S ?n)))) _] => generalize n
  end.
  intros f4.
  remember (S f4) as f3 eqn:H3. remember (S f3) as f2 eqn:H2. remember (S f2) as f1 eqn:H1.
  cbn. rewrite H1. cbn. rewrite H2. cbn.
  rewrite (readString_plain action EmptyString _ Ha). cbn.
  rewrite H3. cbn.
  rewrite (readString_plain target EmptyString _ Ht). cbn.
  reflexivity.
Qed.

Lemma word_is_plain (w : string) :
  forallb_str Regexp.perlWord w = true -> forallb_str plain w = true.
Proof.
  induction w as [|c w IH]; [reflexivity|]. cbn [forallb_str].
  intros H. apply andb_true_iff in H as [Hc Hw]. rewrite (IH Hw), andb_true_r.
  revert Hc. destruct c as [[] [] [] [] [] [] [] []]; intros H; vm_compute in H;
    try discriminate H; reflexivity.
Qed.

(** On a text that starts with a command the action is the first word,
    and the body is the JSON form of the command whenever the third
    field holds no quote, no backslash and no control byte. *)
Lemma commandBody_is_json (text : string) :
  startsWithCommand text ->
  forallb_str plain (nth 2 (Strings.Fields text) EmptyString) = true ->
  isJsonOfCommand (commandBody text)
                  (nth 1 (Strings.Fields text) EmptyString)
                  (nth 2 (Strings.Fields text) EmptyString).
Proof.
  intros (s1 & w1 & s2 & w2 & rest & E & Hs1 & Hw1 & Hs2 & Hw2) Hp.
  unfold commandBody. cbv zeta.
  destruct (Fields_command s1 w1 s2 w2 rest Hs1 Hw1 Hs2 Hw2) as (x & l & F).
  rewrite E, F in *. cbn [nth] in *.
  apply commandFormat_is_json; [|exact Hp].
  apply word_is_plain. apply Hw1.
Qed.

(* ------------------------------------------------------------------ *)
(** ** The properties *)

(** Closed goals are settled by evaluation. *)
Ltac conjuncts := repeat match goal with |- _ /\ _ => split end.
Ltac evaluate := vm_compute; reflexivity.

(** C1.  A request whose signature header differs from the HMAC-SHA256
    digest of nonce and body under the configured secret causes no
    dispatch to the webhook and no reply; when it is a POST with a
    readable body the handler logs the mismatch, answers 400 "Invalid
    signature" and does nothing else. *)
Theorem unverified_request_is_rejected (env : Env) (config : Config) (r : Http.Request) (d : nat) :
  signatureOf r <> generateHmacForString (bodyOf r) (randomOf r) (bot_secret config) ->
  filter isOutbound (eventsOf (messageHandling env config r (fresh d))) = []
  /\ (Http.Method r = Http.MethodPost -> Http.readErr (Http.Body r) = None ->
      outcomeOf (messageHandling env config r (fresh d)) = Returned tt
      /\ served (messageHandling env config r (fresh d))
         = Some (Http.StatusBadRequest, "Invalid signature" ++ LF)
      /\ exists line,
          eventsOf (messageHandling env config r (fresh d))
          = [ReadBody; Log line; HttpError "Invalid signature" Http.StatusBadRequest]).
Proof.
  intros Hs.
  assert (Hv : verify (bodyOf r) (randomOf r) (signatureOf r) (bot_secret config) = false).
  { unfold verify. apply String.eqb_neq. congruence. }
  split.
  - destruct (filter isOutbound _) eqn:F; [reflexivity|].
    destruct (outbound_needs_command env config r d) as (m & rich & C & _).
    + rewrite F. discriminate.
    + destruct C as (_ & _ & Hv' & _). congruence.
  - intros Hm He. rewrite (path_bad_signature env config r d Hm He Hv).
    repeat split. eexists. reflexivity.
Qed.

Lemma unverified_request_is_rejected_witness :
  let r := Ref.request "POST" (Ref.envelope "@ha turn_on light1" "room1")
             "0000000000000000000000000000000000000000000000000000000000000000" in
  let env := Ref.env (Http.PostResponse 200) None in
  signatureOf r <> generateHmacForString (bodyOf r) (randomOf r) (bot_secret Ref.config)
  /\ filter isOutbound (eventsOf (messageHandling env Ref.config r (fresh 0))) = []
  /\ served (messageHandling env Ref.config r (fresh 0))
     = Some (400, "Invalid signature" ++ LF).
Proof.
  intros r env.
  assert (H : signatureOf r
              <> generateHmacForString (bodyOf r) (randomOf r) (bot_secret Ref.config)).
  { intros E. vm_compute in E. discriminate E. }
  split; [exact H|].
  destruct (unverified_request_is_rejected env Ref.config r 0 H) as (H1 & H2).
  split; [exact H1|].
  destruct (H2 eq_refl eq_refl) as (_ & H3 & _). exact H3.
Defined.

(** C2.  Verifying a signature produced by signing succeeds: for every
    payload, nonce and secret the digest recomputed by the check equals
    [generateHmacForString] of the same arguments, and the check accepts
    no other signature; a POST that carries the payload, the nonce and
    that signature is never met with the handler's complaint about the
    signature. *)
Theorem hmac_round_trip (payload nonce secret : string) :
  verify payload nonce (generateHmacForString payload nonce secret) secret = true
  /\ (forall signature,
        verify payload nonce signature secret = true
        <-> signature = generateHmacForString payload nonce secret)
  /\ (forall env config r d,
        bot_secret config = secret ->
        Http.Method r = Http.MethodPost ->
        Http.Body r = {| Http.data := payload; Http.readErr := None |} ->
        randomOf r = nonce ->
        signatureOf r = generateHmacForString payload nonce secret ->
        existsb isSignatureComplaint (eventsOf (messageHandling env config r (fresh d)))
        = false).
Proof.
  unfold verify. split; [|split].
  - apply String.eqb_refl.
  - intros signature. rewrite String.eqb_eq. split; congruence.
  - intros env config r d Hc Hm Hb Hr Hs.
    apply signed_request_passes_check; [exact Hm | now rewrite Hb |].
    unfold verify, bodyOf. rewrite Hb, Hr, Hs, Hc. apply String.eqb_refl.
Qed.

Lemma hmac_round_trip_witness :
  let payload := Ref.envelope "@ha turn_on light1" "room1" in
  let env := Ref.env (Http.PostResponse 200) None in
  verify payload Ref.nonce
         (generateHmacForString payload Ref.nonce (bot_secret Ref.config))
         (bot_secret Ref.config) = true
  /\ existsb isSignatureComplaint
             (eventsOf (messageHandling env Ref.config (Ref.signed payload) (fresh 0)))
     = false.
Proof.
  intros payload env.
  destruct (hmac_round_trip payload Ref.nonce (bot_secret Ref.config)) as (H1 & _ & H3).
  split; [exact H1|].
  apply (H3 env Ref.config (Ref.signed payload) 0); reflexivity.
Defined.

(** C4.  For a signed chat message whose rich text has been decoded,
    the command is handled (the webhook is called) exactly when the text
    starts with [@ha], a white-space byte, a word, a white-space byte
    and a word; for any other text, also one with the marker further
    on, the handler only logs that the message is no command and
    answers 200 "Received": no call to the webhook, no reply. *)
Theorem command_handled_iff_trigger (env : Env) (config : Config) (r : Http.Request)
        (d : nat) (message : Message) (rich : RichObjectMessage) :
  carriesText env config r message rich ->
  (existsb isDispatch (eventsOf (messageHandling env config r (fresh d))) = true
   <-> startsWithCommand (RichMessage rich))
  /\ (~ startsWithCommand (RichMessage rich) ->
      messageHandling env config r (fresh d)
      = (Returned tt,
         {| draws := d;
            trace := [ReadBody;
                      Log ("[Talk]          Message is not command: " ++ RichMessage rich);
                      HttpError "Received" Http.StatusOK] |})
      /\ filter isOutbound (eventsOf (messageHandling env config r (fresh d))) = []
      /\ served (messageHandling env config r (fresh d))
         = Some (Http.StatusOK, "Received" ++ LF)).
Proof.
  intros (Hm & He & Hv & Hc & Hn & Hr).
  destruct (Regexp.Match triggerMessageRegex (RichMessage rich)) eqn:Ht.
  - assert (Hs : startsWithCommand (RichMessage rich)) by now apply trigger_matches_iff.
    split; [|tauto]. split; [intros _; exact Hs | intros _].
    rewrite (path_command env config r d Hm He Hv message Hc Hn rich Hr Ht).
    destruct (newRequestError env "POST" _); reflexivity.
  - assert (Hs : ~ startsWithCommand (RichMessage rich)).
    { intros Hs. apply trigger_matches_iff in Hs. congruence. }
    rewrite (path_not_command env config r d Hm He Hv message Hc Hn rich Hr Ht).
    split; [split; [discriminate | tauto]|].
    intros _. repeat split.
Qed.

Lemma command_handled_iff_trigger_witness :
  let env := Ref.env (Http.PostResponse 200) None in
  let r := Ref.signed (Ref.envelope "hello @ha turn_on light1" "room1") in
  let message := fst (Ref.decodeMessage (bodyOf r)) in
  let rich := {| RichMessage := "hello @ha turn_on light1" |} in
  carriesText env Ref.config r message rich
  /\ existsb isDispatch (eventsOf (messageHandling env Ref.config r (fresh 0))) = false
  /\ served (messageHandling env Ref.config r (fresh 0)) = Some (200, "Received" ++ LF).
Proof.
  intros env r message rich.
  assert (C : carriesText env Ref.config r message rich).
  { unfold carriesText. conjuncts; evaluate. }
  split; [exact C|].
  destruct (command_handled_iff_trigger env Ref.config r 0 message rich C) as (H1 & H2).
  assert (N : ~ startsWithCommand (RichMessage rich)).
  { intros S. apply trigger_matches_iff in S. vm_compute in S. discriminate S. }
  split.
  - destruct (existsb isDispatch _) eqn:E; [|reflexivity].
    exfalso. apply N. now apply H1.
  - destruct (H2 N) as (_ & _ & H3). exact H3.
Defined.

(** C5 on the input where the code departs from it.  The text made of
    [@ha turn_on light], a double quote and [1] is accepted by the
    trigger pattern; its third field holds the quote, [commandToJson]
    copies it into the body as it is, and the body posted to the webhook
    is not a JSON text at all.  When the third field is [x] followed by
    a quote, a comma and a quoted member, the body is a JSON text: of an
    object with a third member, and with the target cut short. *)
Theorem command_body_is_not_escaped :
  let text := "@ha turn_on light" ++ DQ ++ "1" in
  let injected := "@ha turn_on x" ++ q "','x':'y" in
  let env := Ref.env (Http.PostResponse 200) None in
  let r := Ref.signed (Ref.envelope text "room1") in
  Regexp.Match triggerMessageRegex text = true
  /\ Strings.Fields text = ["@ha"; "turn_on"; "light" ++ DQ ++ "1"]
  /\ filter isDispatch (eventsOf (messageHandling env Ref.config r (fresh 0)))
     = [WebhookPost "http://ha.local:8123/api/webhook/talk-bot" "application/json"
                    (Some (commandFormat "turn_on" ("light" ++ DQ ++ "1")))]
  /\ Json.parse (commandFormat "turn_on" ("light" ++ DQ ++ "1")) = None
  /\ ~ isJsonOfCommand (commandBody text) "turn_on" ("light" ++ DQ ++ "1")
  /\ Regexp.Match triggerMessageRegex injected = true
  /\ Strings.Fields injected = ["@ha"; "turn_on"; "x" ++ q "','x':'y"]
  /\ Json.parse (commandBody injected)
     = Some (Json.Object [("action", Json.Str "turn_on"); ("target", Json.Str "x");
                          ("x", Json.Str "y")])
  /\ ~ isJsonOfCommand (commandBody injected) "turn_on" ("x" ++ q "','x':'y").
Proof.
  intros text injected env r. unfold isJsonOfCommand.
  conjuncts; try evaluate; intros E; vm_compute in E; discriminate E.
Qed.

(** C6.  [callWebhook] posts once, to the base URL with its trailing
    slashes removed followed by [/api/webhook/] and the webhook id, and
    returns true exactly when the answer is a response with status 200;
    a transport error and any other status give false. *)
Theorem callWebhook_true_iff_200 (env : Env) (config : Config)
        (jsonData : option string) (w : World) :
  let base := Strings.TrimRight (bot_ha_url config) "/" in
  let url := base ++ "/api/webhook/" ++ bot_ha_webhook_id config in
  let answer := httpPost env url "application/json"
                         (match jsonData with Some b => b | None => EmptyString end) in
  (exists k, bot_ha_url config = base ++ replicate k "/")
  /\ (forall u, base <> u ++ "/")
  /\ (exists line w',
        callWebhook env config jsonData w
        = (Returned (match answer with
                     | Http.PostResponse 200 => true
                     | _ => false
                     end), w')
        /\ draws w' = draws w
        /\ trace w' = (trace w ++ [WebhookPost url "application/json" jsonData; Log line])%list)
  /\ (outcomeOf (callWebhook env config jsonData w) = Returned true
      <-> answer = Http.PostResponse 200).
Proof.
  intros base url answer.
  assert (Hret : callWebhook env config jsonData w
                 = (Returned (match answer with
                              | Http.PostResponse 200 => true
                              | _ => false
                              end),
                    {| draws := draws w;
                       trace := trace w ++ [WebhookPost url "application/json" jsonData;
                                            Log (dispatchLog env config jsonData)] |})).
  { rewrite callWebhook_run. unfold answer, url, base, dispatchOk, hubAnswer, webhookURL.
    destruct (httpPost env _ _ _) as [err|code]; [reflexivity|].
    now rewrite <- status_is_200. }
  repeat split.
  - destruct (TrimRight_split (bot_ha_url config) "/") as (t & E & Ht).
    exists (String.length t). rewrite <- (all_slashes t Ht). exact E.
  - intros u E. apply TrimRight_last in E. discriminate E.
  - eexists _, _. split; [exact Hret|]. split; reflexivity.
  - rewrite Hret. cbn [outcomeOf fst]. intros H. destruct answer as [err|code]; [discriminate H|].
    rewrite <- status_is_200 in H. injection H as H. apply Nat.eqb_eq in H. now subst code.
  - intros E. rewrite Hret, E. reflexivity.
Qed.

(** C7, as the code has it.  When the trigger matches, the webhook is
    called; if the reply request can be built ([http.NewRequest] accepts
    the reply URL) one reply is handed to [client.Do], whose message is
    "Done!" if the dispatch succeeded and "Error calling Home Assistant"
    if it failed, and in both cases the handler returns after
    [http.Error(w, "Received", 200)].  If the reply request cannot be
    built the process exits with status 1: no reply is sent and nothing
    is written to the inbound response. *)
Theorem command_reply_and_response (env : Env) (config : Config) (r : Http.Request)
        (d : nat) (message : Message) (rich : RichObjectMessage) :
  carriesText env config r message rich ->
  startsWithCommand (RichMessage rich) ->
  let res := messageHandling env config r (fresh d) in
  let ok := dispatchOk env config (Some (commandBody (RichMessage rich))) in
  let text := if ok then "Done!" else "Error calling Home Assistant" in
  filter isDispatch (eventsOf res)
  = [WebhookPost (webhookURL config) "application/json"
                 (Some (commandBody (RichMessage rich)))]
  /\ match newRequestError env "POST" (replyURL (backendOf r) message) with
     | None =>
         outcomeOf res = Returned tt
         /\ (exists request,
               filter isReply (eventsOf res) = [ClientDo replyClient request]
               /\ Http.OutURL request = replyURL (backendOf r) message
               /\ Http.OutBody request
                  = jsonMarshalResponse env {| ResponseMessage := text;
                                               ReplyTo := ObjectId (Object message) |})
         /\ filter isWrite (eventsOf res) = [HttpError "Received" Http.StatusOK]
         /\ served res = Some (Http.StatusOK, "Received" ++ LF)
     | Some _ =>
         outcomeOf res = Exited 1
         /\ filter isReply (eventsOf res) = []
         /\ filter isWrite (eventsOf res) = []
         /\ served res = None
     end.
Proof.
  intros (Hm & He & Hv & Hc & Hn & Hr) Hs res ok text.
  apply trigger_matches_iff in Hs. unfold res.
  rewrite (path_command env config r d Hm He Hv message Hc Hn rich Hr Hs).
  fold ok. unfold replyText. fold text.
  destruct (newRequestError env "POST" (replyURL (backendOf r) message)) as [err|].
  - repeat split.
  - unfold replyEvents, eventsOf. cbn [snd trace].
    set (request := replyRequest env config (backendOf r) message text _).
    destruct (clientDo env replyClient request) as [err|].
    + repeat split. exists request. repeat split.
    + repeat split. exists request. repeat split.
Qed.

Lemma command_reply_and_response_witness :
  let env := Ref.env (Http.PostResponse 500) None in
  let r := Ref.signed (Ref.envelope "@ha turn_on light1" "room1") in
  let message := fst (Ref.decodeMessage (bodyOf r)) in
  let rich := {| RichMessage := "@ha turn_on light1" |} in
  carriesText env Ref.config r message rich
  /\ startsWithCommand (RichMessage rich)
  /\ outcomeOf (messageHandling env Ref.config r (fresh 0)) = Returned tt
  /\ (exists request,
        filter isReply (eventsOf (messageHandling env Ref.config r (fresh 0)))
        = [ClientDo replyClient request]
        /\ Http.OutBody request
           = q "{'message':'Error calling Home Assistant','replyTo':'1567'}")
  /\ served (messageHandling env Ref.config r (fresh 0)) = Some (200, "Received" ++ LF).
Proof.
  intros env r message rich.
  assert (C : carriesText env Ref.config r message rich).
  { unfold carriesText. conjuncts; evaluate. }
  assert (S : startsWithCommand (RichMessage rich)).
  { apply trigger_matches_iff. vm_compute. reflexivity. }
  split; [exact C|]. split; [exact S|].
  pose proof (command_reply_and_response env Ref.config r 0 message rich C S) as H.
  cbv zeta in H. destruct H as (_ & H).
  change (newRequestError env "POST" (replyURL (backendOf r) message)) with (@None string) in H.
  destruct H as (H1 & (request & H2 & _ & H3) & _ & H4).
  split; [exact H1|]. split; [|exact H4].
  exists request. split; [exact H2|]. rewrite H3. vm_compute. reflexivity.
Defined.

(** C7, as stated, fails: a signed command whose room id holds a line
    feed is dispatched with success, yet [http.NewRequest] refuses the
    reply URL and the process exits: no "Done!" reply, no 200. *)
Lemma command_without_response :
  let env := Ref.env (Http.PostResponse 200) None in
  let r := Ref.signed (Ref.envelope "@ha turn_on light1" ("room" ++ LF)) in
  let message := fst (Ref.decodeMessage (bodyOf r)) in
  let rich := {| RichMessage := "@ha turn_on light1" |} in
  let res := messageHandling env Ref.config r (fresh 0) in
  carriesText env Ref.config r message rich
  /\ Regexp.Match triggerMessageRegex (RichMessage rich) = true
  /\ dispatchOk env Ref.config (Some (commandBody (RichMessage rich))) = true
  /\ outcomeOf res = Exited 1
  /\ filter isReply (eventsOf res) = []
  /\ filter isWrite (eventsOf res) = []
  /\ served res = None.
Proof.
  intros env r message rich res.
  split; [unfold carriesText; conjuncts; evaluate|].
  conjuncts; evaluate.
Qed.

(** C8, as the code has it.  [sendReply] draws a nonce of 64 bytes of
    [letterBytes] from the next 64 values of the generator, builds
    [Response{message, replyTo}], encodes it with [json.Marshal] as the
    body of a POST to the bot endpoint of the backend, and sets the
    signature header to the lower-case hexadecimal HMAC-SHA256, under
    the shared secret, of the nonce followed by the reply text: the
    text itself, not the encoded body that is posted. *)
Theorem reply_is_signed_over_text (env : Env) (config : Config) (server : string)
        (message : Message) (responseText : string) (w : World) :
  newRequestError env "POST" (replyURL server message) = None ->
  let random := nonceFrom env (draws w) 64 in
  let signature :=
    Crypto.hexEncode (Crypto.hmac_sha256 (to_bytes (bot_secret config))
                                         (to_bytes (random ++ responseText))) in
  exists request rest w',
    sendReply env config server message responseText w = (Returned tt, w')
    /\ draws w' = draws w + 64
    /\ trace w' = (trace w ++ ClientDo replyClient request :: rest)%list
    /\ forallb isLog rest = true
    /\ Http.OutMethod request = "POST"
    /\ Http.OutURL request
       = server ++ "ocs/v2.php/apps/spreed/api/v1/bot/" ++ TargetId (Target message)
                ++ "/message"
    /\ Http.OutBody request
       = jsonMarshalResponse env {| ResponseMessage := responseText;
                                    ReplyTo := ObjectId (Object message) |}
    /\ Http.Get (Http.OutHeader request) "X-Nextcloud-Talk-Bot-Random" = random
    /\ Http.Get (Http.OutHeader request) "X-Nextcloud-Talk-Bot-Signature" = signature
    /\ Http.Get (Http.OutHeader request) "OCS-APIRequest" = "true"
    /\ String.length random = 64
    /\ forallb_str (fun c => inb c letterBytes) random = true
    /\ String.length signature = 64
    /\ forallb_str isLowerHex signature = true.
Proof.
  intros Hreq random signature.
  exists (replyRequest env config server message responseText random).
  rewrite sendReply_run. cbv zeta. rewrite Hreq. fold random.
  unfold replyEvents.
  set (request := replyRequest env config server message responseText random).
  destruct (Get_reply_header (generateHmacForString responseText random (bot_secret config))
                             random) as (G1 & G2 & G3 & _).
  destruct (generateHmacForString_shape responseText random (bot_secret config)) as (S1 & S2).
  assert (L := length_nonceFrom env 64 (draws w)).
  assert (A := nonceFrom_alphabet env 64 (draws w)).
  destruct (clientDo env replyClient request) as [err|].
  - exists [Log ("[Response]      Error posting request " ++ err)].
    eexists. split; [reflexivity|]. cbn [draws trace].
    split; [reflexivity|]. split; [reflexivity|]. split; [reflexivity|].
    split; [reflexivity|]. split; [reflexivity|]. split; [reflexivity|].
    split; [exact G2|]. split; [exact G1|]. split; [exact G3|].
    split; [exact L|]. split; [exact A|]. split; [exact S1 | exact S2].
  - exists []. eexists. split; [reflexivity|]. cbn [draws trace].
    split; [reflexivity|]. split; [reflexivity|]. split; [reflexivity|].
    split; [reflexivity|]. split; [reflexivity|]. split; [reflexivity|].
    split; [exact G2|]. split; [exact G1|]. split; [exact G3|].
    split; [exact L|]. split; [exact A|]. split; [exact S1 | exact S2].
Qed.

Lemma reply_is_signed_over_text_witness :
  let env := Ref.env (Http.PostResponse 200) None in
  let message := fst (Ref.decodeMessage (Ref.envelope "@ha turn_on light1" "room1")) in
  let server := "https://cloud.example.org/" in
  newRequestError env "POST" (replyURL server message) = None
  /\ exists request,
       eventsOf (sendReply env Ref.config server message "Done!" (fresh 0))
       = [ClientDo replyClient request]
       /\ Http.OutBody request = q "{'message':'Done!','replyTo':'1567'}"
       /\ Http.Get (Http.OutHeader request) "X-Nextcloud-Talk-Bot-Signature"
          = generateHmacForString "Done!"
              (Http.Get (Http.OutHeader request) "X-Nextcloud-Talk-Bot-Random")
              (bot_secret Ref.config).
Proof.
  intros env message server.
  assert (H : newRequestError env "POST" (replyURL server message) = None) by evaluate.
  split; [exact H|].
  destruct (reply_is_signed_over_text env Ref.config server message "Done!" (fresh 0) H)
    as (request & rest & w' & E & _ & T & _ & _ & _ & B & R & S & _).
  exists request. rewrite E. unfold eventsOf. cbn [snd]. rewrite T.
  replace rest with (@nil Event).
  - split; [reflexivity|]. split.
    + rewrite B. evaluate.
    + rewrite S, R. reflexivity.
  - pose proof E as E'. rewrite sendReply_run in E'. cbv zeta in E'. rewrite H in E'.
    injection E' as E'. rewrite <- E' in T. cbn [trace fresh app replyEvents] in T.
    unfold replyEvents in T. cbn [clientDo env Ref.env] in T.
    injection T as _ T. exact T.
Defined.

(** C8, as stated, fails: the signature header of a reply is not the
    HMAC of the nonce and the encoded body that is posted. *)
Lemma reply_signature_is_not_over_body :
  let env := Ref.env (Http.PostResponse 200) None in
  let message := fst (Ref.decodeMessage (Ref.envelope "@ha turn_on light1" "room1")) in
  exists request,
    eventsOf (sendReply env Ref.config "https://cloud.example.org/" message "Done!" (fresh 0))
    = [ClientDo replyClient request]
    /\ Http.OutBody request = q "{'message':'Done!','replyTo':'1567'}"
    /\ Http.Get (Http.OutHeader request) "X-Nextcloud-Talk-Bot-Signature"
       <> generateHmacForString (Http.OutBody request)
            (Http.Get (Http.OutHeader request) "X-Nextcloud-Talk-Bot-Random")
            (bot_secret Ref.config).
Proof.
  intros env message.
  exists (replyRequest env Ref.config "https://cloud.example.org/" message "Done!"
                       (nonceFrom env 0 64)).
  split; [evaluate|]. split; [evaluate|].
  intros E. vm_compute in E. discriminate E.
Qed.

(** C9.  A text accepted by the trigger pattern splits into three fields
    or more, so [commandToJson] returns the formatted body and never
    nil on that path; and whenever the handler calls the webhook, it
    does so with a body that is not nil. *)
Theorem trigger_yields_three_fields (text : string) :
  Regexp.Match triggerMessageRegex text = true ->
  3 <= List.length (Strings.Fields text)
  /\ (forall w, commandToJson text w = (Returned (Some (commandBody text)), w))
  /\ (forall env config r d url contentType jsonData,
        In (WebhookPost url contentType jsonData)
           (eventsOf (messageHandling env config r (fresh d))) ->
        jsonData <> None).
Proof.
  intros Ht.
  assert (H3 : 3 <= List.length (Strings.Fields text)).
  { apply trigger_matches_iff in Ht as (s1 & w1 & s2 & w2 & rest & E & Hs1 & Hw1 & Hs2 & Hw2).
    destruct (Fields_command s1 w1 s2 w2 rest Hs1 Hw1 Hs2 Hw2) as (x & l & F).
    rewrite E, F. simpl. lia. }
  split; [exact H3|]. split.
  - intros w. rewrite commandToJson_run. cbv zeta.
    apply Nat.leb_le in H3. now rewrite H3.
  - intros env config r d url contentType jsonData Hin.
    destruct (outbound_needs_command env config r d)
      as (message & rich & (Hm & He & Hv & Hc & Hn & Hr) & Hmatch).
    + intros F. assert (Hf : In (WebhookPost url contentType jsonData)
                                (filter isOutbound (eventsOf (messageHandling env config r (fresh d))))).
      { apply filter_In. split; [exact Hin | reflexivity]. }
      rewrite F in Hf. exact Hf.
    + rewrite (path_command env config r d Hm He Hv message Hc Hn rich Hr Hmatch) in Hin.
      destruct (newRequestError env "POST" _) as [err|]; unfold eventsOf in Hin;
        cbn [snd trace] in Hin; unfold replyEvents in Hin.
      * cbn [app In] in Hin.
        destruct Hin as [H|[H|[H|[H|[H|[]]]]]]; try discriminate H.
        injection H as _ _ <-. discriminate.
      * destruct (clientDo env replyClient _); cbn [app In] in Hin.
        -- destruct Hin as [H|[H|[H|[H|[H|[H|[H|[]]]]]]]]; try discriminate H.
           injection H as _ _ <-. discriminate.
        -- destruct Hin as [H|[H|[H|[H|[H|[H|[]]]]]]]; try discriminate H.
           injection H as _ _ <-. discriminate.
Qed.

Lemma trigger_yields_three_fields_witness :
  Regexp.Match triggerMessageRegex "@ha turn_on light1" = true
  /\ Strings.Fields "@ha turn_on light1" = ["@ha"; "turn_on"; "light1"]
  /\ 3 <= List.length (Strings.Fields "@ha turn_on light1")
  /\ commandToJson "@ha turn_on light1" (fresh 0)
     = (Returned (Some (commandBody "@ha turn_on light1")), fresh 0).
Proof.
  assert (H : Regexp.Match triggerMessageRegex "@ha turn_on light1" = true) by reflexivity.
  split; [exact H|]. split; [reflexivity|].
  destruct (trigger_yields_three_fields "@ha turn_on light1" H) as (H1 & H2 & _).
  split; [exact H1 | exact (H2 (fresh 0))].
Defined.

(** C10.  A request to the message endpoint whose method is not POST
    makes the handler return at once: nothing is read, nothing is
    written, no value is drawn and no call leaves the process, whatever
    the body, the headers and the environment are; net/http then answers
    with an empty 200. *)
Theorem non_post_request_is_ignored (env : Env) (config : Config) (r : Http.Request) (d : nat) :
  Http.Method r <> Http.MethodPost ->
  messageHandling env config r (fresh d) = (Returned tt, fresh d)
  /\ eventsOf (messageHandling env config r (fresh d)) = []
  /\ served (messageHandling env config r (fresh d)) = Some (Http.StatusOK, EmptyString).
Proof.
  intros H. rewrite (path_not_post env config r d H). repeat split.
Qed.

Lemma non_post_request_is_ignored_witness :
  let r := Ref.request "GET" (Ref.envelope "@ha turn_on light1" "room1") "00" in
  let env := Ref.env (Http.PostResponse 200) None in
  Http.Method r <> Http.MethodPost
  /\ messageHandling env Ref.config r (fresh 0) = (Returned tt, fresh 0)
  /\ served (messageHandling env Ref.config r (fresh 0)) = Some (200, EmptyString).
Proof.
  intros r env.
  assert (H : Http.Method r <> Http.MethodPost) by (intros E; discriminate E).
  split; [exact H|].
  destruct (non_post_request_is_ignored env Ref.config r 0 H) as (H1 & _ & H3).
  split; [exact H1 | exact H3].
Defined.

(* ------------------------------------------------------------------ *)
(** ** Every run of the handler follows one of its paths *)

(** To show that every run has a property it is enough to show it of
    the result of each path. *)
Lemma handler_paths (env : Env) (config : Config) (r : Http.Request) (d : nat)
      (P : Outcome unit * World -> Prop) :
  (Http.Method r <> Http.MethodPost -> P (Returned tt, fresh d)) ->
  (forall e,
      Http.Method r = Http.MethodPost -> Http.readErr (Http.Body r) = Some e ->
      P (Returned tt,
         {| draws := d;
            trace := [ReadBody; Log ("[Request]       Error reading body: " ++ e);
                      HttpError "can't read body" Http.StatusBadRequest] |})) ->
  (Http.Method r = Http.MethodPost -> Http.readErr (Http.Body r) = None ->
   verify (bodyOf r) (randomOf r) (signatureOf r) (bot_secret config) = false ->
   P (Returned tt,
      {| draws := d;
         trace := [ReadBody;
                   Log ("[Request]       Error validating signature: "
                        ++ generateHmacForString (bodyOf r) (randomOf r) (bot_secret config)
                        ++ " / " ++ signatureOf r);
                   HttpError "Invalid signature" Http.StatusBadRequest] |})) ->
  (forall message e,
      Http.Method r = Http.MethodPost -> Http.readErr (Http.Body r) = None ->
      verify (bodyOf r) (randomOf r) (signatureOf r) (bot_secret config) = true ->
      createMessage env (bodyOf r) = (message, Some e) ->
      P (Returned tt,
         {| draws := d;
            trace := [ReadBody; Log ("[Request]       Error invalid body: " ++ e);
                      HttpError "Invalid signature" Http.StatusBadRequest] |})) ->
  (forall message,
      Http.Method r = Http.MethodPost -> Http.readErr (Http.Body r) = None ->
      verify (bodyOf r) (randomOf r) (signatureOf r) (bot_secret config) = true ->
      createMessage env (bodyOf r) = (message, None) ->
      (ObjectName (Object message) <> "message"
       \/ exists rich e,
            createRichMessageWithoutParameters env (ObjectContent (Object message))
            = (rich, Some e)) ->
      P (Returned tt,
         {| draws := d; trace := [ReadBody; HttpError "Received" Http.StatusOK] |})) ->
  (forall message rich,
      carriesText env config r message rich ->
      Regexp.Match triggerMessageRegex (RichMessage rich) = false ->
      P (Returned tt,
         {| draws := d;
            trace := [ReadBody;
                      Log ("[Talk]          Message is not command: " ++ RichMessage rich);
                      HttpError "Received" Http.StatusOK] |})) ->
  (forall message rich,
      carriesText env config r message rich ->
      Regexp.Match triggerMessageRegex (RichMessage rich) = true ->
      let json := Some (commandBody (RichMessage rich)) in
      let ok := dispatchOk env config json in
      let d' := (if ok then S d else d) + 64 in
      let dispatched :=
        [ReadBody;
         Log ("[Talk]          Command found: " ++ RichMessage rich);
         WebhookPost (webhookURL config) "application/json" json;
         Log (dispatchLog env config json)] in
      match newRequestError env "POST" (replyURL (backendOf r) message) with
      | Some err =>
          P (Exited 1,
             {| draws := d';
                trace := dispatched
                         ++ [Log ("[Response]      Error creating request " ++ err)] |})
      | None =>
          P (Returned tt,
             {| draws := d';
                trace := dispatched
                         ++ replyEvents env
                              (replyRequest env config (backendOf r) message (replyText ok)
                                            (nonceFrom env (if ok then S d else d) 64))
                         ++ [HttpError "Received" Http.StatusOK] |})
      end) ->
  P (messageHandling env config r (fresh d)).
Proof.
  intros P1 P2 P3 P4 P5 P6 P7.
  destruct (string_dec (Http.Method r) Http.MethodPost) as [Hm|Hm];
    [|rewrite (path_not_post env config r d Hm); auto].
  destruct (Http.readErr (Http.Body r)) as [e|] eqn:He;
    [rewrite (path_unreadable env config r d Hm e He); auto|].
  destruct (verify (bodyOf r) (randomOf r) (signatureOf r) (bot_secret config)) eqn:Hv;
    [|rewrite (path_bad_signature env config r d Hm He Hv); auto].
  destruct (createMessage env (bodyOf r)) as [message [e|]] eqn:Hc;
    [rewrite (path_bad_envelope env config r d Hm He Hv message e Hc); eauto|].
  destruct (string_dec (ObjectName (Object message)) "message") as [Hn|Hn];
    [|rewrite (path_other_object env config r d Hm He Hv message Hc Hn); eauto].
  destruct (createRichMessageWithoutParameters env (ObjectContent (Object message)))
    as [rich [e|]] eqn:Hr;
    [rewrite (path_bad_rich env config r d Hm He Hv message Hc Hn rich e Hr); eauto 6|].
  assert (C : carriesText env config r message rich) by (unfold carriesText; auto 10).
  destruct (Regexp.Match triggerMessageRegex (RichMessage rich)) eqn:Ht;
    [|rewrite (path_not_command env config r d Hm He Hv message Hc Hn rich Hr Ht); eauto].
  rewrite (path_command env config r d Hm He Hv message Hc Hn rich Hr Ht).
  specialize (P7 message rich C Ht). cbv zeta in P7.
  destruct (newRequestError env "POST" (replyURL (backendOf r) message)); exact P7.
Qed.

(* ------------------------------------------------------------------ *)
(** ** The program only adds to the trace *)

Lemma framed_ret {A} (a : A) : framed (ret a).
Proof. intros [dw tw]. unfold ret, onto. cbn. now rewrite app_nil_r. Qed.

Lemma framed_emit (e : Event) : framed (emit e).
Proof. intros [dw tw]. reflexivity. Qed.

Lemma framed_osExit {A} (c : nat) : framed (@osExit A c).
Proof. intros [dw tw]. unfold osExit, onto. cbn. now rewrite app_nil_r. Qed.

Lemma framed_randIntn (env : Env) (n : nat) : framed (randIntn env n).
Proof. intros [dw tw]. unfold randIntn, onto. cbn. now rewrite app_nil_r. Qed.

Lemma framed_bind {A B} (m : M A) (k : A -> M B) :
  framed m -> (forall a, framed (k a)) -> framed (bind m k).
Proof.
  intros Hm Hk w. unfold bind. rewrite (Hm w).
  destruct (m (fresh (draws w))) as [[a|c] w0]; unfold onto; cbn [fst snd].
  - rewrite (Hk a _). cbn [draws]. rewrite (Hk a w0). unfold onto. cbn [fst snd draws trace].
    now rewrite app_assoc.
  - reflexivity.
Qed.

Ltac framing :=
  repeat first
    [ apply framed_ret | apply framed_emit | apply framed_osExit | apply framed_randIntn
    | apply framed_bind; [|intros ?]
    | match goal with
      | |- framed (if ?b then _ else _) => destruct b
      | |- framed (match ?x with _ => _ end) => destruct x
      | |- framed (let '(_, _) := ?x in _) => destruct x
      end ].

Lemma framed_generateRandomBytes (env : Env) (n : nat) : framed (generateRandomBytes env n).
Proof. induction n as [|n IH]; cbn [generateRandomBytes]; framing. exact IH. Qed.

Lemma framed_sendReply (env : Env) (config : Config) (server : string) (message : Message)
      (text : string) : framed (sendReply env config server message text).
Proof.
  unfold sendReply, logPrint. apply framed_bind; [apply framed_generateRandomBytes|].
  intros random. cbv zeta. framing.
Qed.

Lemma framed_callWebhook (env : Env) (config : Config) (jsonData : option string) :
  framed (callWebhook env config jsonData).
Proof. unfold callWebhook, logPrint. cbv zeta. framing. Qed.

Lemma framed_commandToJson (command : string) : framed (commandToJson command).
Proof. unfold commandToJson, logPrint. cbv zeta. framing. Qed.

Lemma framed_messageHandling (env : Env) (config : Config) (r : Http.Request) :
  framed (messageHandling env config r).
Proof.
  unfold messageHandling, readAll, httpError, logPrint, getRandomResponse.
  destruct (negb _); [apply framed_ret|].
  apply framed_bind; [framing|]. intros [body [e|]]; [framing|]. cbv zeta.
  destruct (negb _); [framing|].
  destruct (createMessage env body) as [message [e|]]; [framing|].
  apply framed_bind; [|intros ?; apply framed_emit].
  destruct (String.eqb _ _); [|apply framed_ret].
  destruct (createRichMessageWithoutParameters env _) as [rich [e|]]; [apply framed_ret|].
  destruct (Regexp.Match _ _); [|apply framed_emit].
  apply framed_bind; [apply framed_emit|]. intros _.
  apply framed_bind; [apply framed_commandToJson|]. intros json.
  apply framed_bind; [apply framed_callWebhook|]. intros [|].
  - apply framed_bind; [framing|]. intros text. apply framed_sendReply.
  - apply framed_sendReply.
Qed.

(* ------------------------------------------------------------------ *)
(** ** Further properties of the handler *)

(** X1.  A POST whose body cannot be read is answered 400 "can't read
    body" after one log line, whatever its headers are: the signature is
    not looked at, nothing is decoded and no call leaves the process. *)
Theorem unreadable_body_is_rejected (env : Env) (config : Config) (r : Http.Request)
        (d : nat) (e : string) :
  Http.Method r = Http.MethodPost ->
  Http.readErr (Http.Body r) = Some e ->
  messageHandling env config r (fresh d)
  = (Returned tt,
     {| draws := d;
        trace := [ReadBody; Log ("[Request]       Error reading body: " ++ e);
                  HttpError "can't read body" Http.StatusBadRequest] |})
  /\ served (messageHandling env config r (fresh d))
     = Some (Http.StatusBadRequest, "can't read body" ++ LF).
Proof.
  intros Hm He. rewrite (path_unreadable env config r d Hm e He). split; reflexivity.
Qed.

Lemma unreadable_body_is_rejected_witness :
  let env := Ref.env (Http.PostResponse 200) None in
  let body := Ref.envelope "@ha turn_on light1" "room1" in
  let r := {| Http.Method := "POST";
              Http.ReqHeader := Http.ReqHeader (Ref.signed body);
              Http.Body := {| Http.data := "{"; Http.readErr := Some "unexpected EOF" |} |} in
  served (messageHandling env Ref.config r (fresh 0))
  = Some (400, "can't read body" ++ LF).
Proof.
  intros env body r.
  exact (proj2 (unreadable_body_is_rejected env Ref.config r 0 "unexpected EOF"
                                            eq_refl eq_refl)).
Defined.

(** X2.  A correctly signed POST whose body the JSON decoder refuses is
    answered 400, with the text "Invalid signature" although the
    signature verified; whatever the decoder's error was, the line
    logged carries the text of [errInvalidBody]; nothing else is done. *)
Theorem undecodable_envelope_is_rejected (env : Env) (config : Config) (r : Http.Request)
        (d : nat) (message : Message) (e : string) :
  Http.Method r = Http.MethodPost ->
  Http.readErr (Http.Body r) = None ->
  verify (bodyOf r) (randomOf r) (signatureOf r) (bot_secret config) = true ->
  jsonDecodeMessage env (bodyOf r) = (message, Some e) ->
  messageHandling env config r (fresh d)
  = (Returned tt,
     {| draws := d;
        trace := [ReadBody;
                  Log "[Request]       Error invalid body: Invalid body supplied";
                  HttpError "Invalid signature" Http.StatusBadRequest] |})
  /\ served (messageHandling env config r (fresh d))
     = Some (Http.StatusBadRequest, "Invalid signature" ++ LF).
Proof.
  intros Hm He Hv Hd.
  assert (Hc : createMessage env (bodyOf r) = (message, Some "Invalid body supplied")).
  { unfold createMessage. now rewrite Hd. }
  rewrite (path_bad_envelope env config r d Hm He Hv message _ Hc). split; reflexivity.
Qed.

Lemma undecodable_envelope_is_rejected_witness :
  let env := Ref.env (Http.PostResponse 200) None in
  let r := Ref.signed "{ this is not JSON" in
  verify (bodyOf r) (randomOf r) (signatureOf r) (bot_secret Ref.config) = true
  /\ served (messageHandling env Ref.config r (fresh 0))
     = Some (400, "Invalid signature" ++ LF).
Proof.
  intros env r.
  assert (Hv : verify (bodyOf r) (randomOf r) (signatureOf r) (bot_secret Ref.config) = true)
    by evaluate.
  split; [exact Hv|].
  exact (proj2 (undecodable_envelope_is_rejected env Ref.config r 0 Ref.zeroMessage
                  "invalid character in JSON text" eq_refl eq_refl Hv eq_refl)).
Defined.

(** X3.  A correctly signed envelope whose object is not named
    "message" is answered 200 "Received" and nothing else happens: its
    content is not decoded, nothing is logged, no call leaves the
    process. *)
Theorem other_object_is_acknowledged (env : Env) (config : Config) (r : Http.Request)
        (d : nat) (message : Message) :
  Http.Method r = Http.MethodPost ->
  Http.readErr (Http.Body r) = None ->
  verify (bodyOf r) (randomOf r) (signatureOf r) (bot_secret config) = true ->
  jsonDecodeMessage env (bodyOf r) = (message, None) ->
  ObjectName (Object message) <> "message" ->
  messageHandling env config r (fresh d)
  = (Returned tt, {| draws := d; trace := [ReadBody; HttpError "Received" Http.StatusOK] |})
  /\ served (messageHandling env config r (fresh d))
     = Some (Http.StatusOK, "Received" ++ LF).
Proof.
  intros Hm He Hv Hd Hn.
  assert (Hc : createMessage env (bodyOf r) = (message, None)).
  { unfold createMessage. now rewrite Hd. }
  rewrite (path_other_object env config r d Hm He Hv message Hc Hn). split; reflexivity.
Qed.

Lemma other_object_is_acknowledged_witness :
  let env := Ref.env (Http.PostResponse 200) None in
  let r := Ref.signed (q "{'type':'Like','object':{'name':'reaction','content':'@ha turn_on light1'}}") in
  let message := fst (Ref.decodeMessage (bodyOf r)) in
  ObjectName (Object message) = "reaction"
  /\ messageHandling env Ref.config r (fresh 0)
     = (Returned tt, {| draws := 0; trace := [ReadBody; HttpError "Received" 200] |}).
Proof.
  intros env r message.
  split; [evaluate|].
  refine (proj1 (other_object_is_acknowledged env Ref.config r 0 message
                   eq_refl eq_refl _ _ _)).
  - evaluate.
  - evaluate.
  - intros E. vm_compute in E. discriminate E.
Defined.

(** X4.  When the content of a chat message is not a rich text the
    decoder accepts, the message is dropped without a trace: the answer
    is 200 "Received", and not even a log line is written. *)
Theorem undecodable_content_is_dropped (env : Env) (config : Config) (r : Http.Request)
        (d : nat) (message : Message) (rich : RichObjectMessage) (e : string) :
  Http.Method r = Http.MethodPost ->
  Http.readErr (Http.Body r) = None ->
  verify (bodyOf r) (randomOf r) (signatureOf r) (bot_secret config) = true ->
  jsonDecodeMessage env (bodyOf r) = (message, None) ->
  ObjectName (Object message) = "message" ->
  jsonDecodeRichObjectMessage env (ObjectContent (Object message)) = (rich, Some e) ->
  messageHandling env config r (fresh d)
  = (Returned tt, {| draws := d; trace := [ReadBody; HttpError "Received" Http.StatusOK] |})
  /\ filter isLog (eventsOf (messageHandling env config r (fresh d))) = []
  /\ served (messageHandling env config r (fresh d))
     = Some (Http.StatusOK, "Received" ++ LF).
Proof.
  intros Hm He Hv Hd Hn Hr.
  assert (Hc : createMessage env (bodyOf r) = (message, None)).
  { unfold createMessage. now rewrite Hd. }
  assert (Hc' : createRichMessageWithoutParameters env (ObjectContent (Object message))
                = (rich, Some "Invalid body supplied")).
  { unfold createRichMessageWithoutParameters. now rewrite Hr. }
  rewrite (path_bad_rich env config r d Hm He Hv message Hc Hn rich _ Hc').
  repeat split.
Qed.

Lemma undecodable_content_is_dropped_witness :
  let env := Ref.env (Http.PostResponse 200) None in
  let r := Ref.signed (q "{'object':{'name':'message','content':'@ha turn_on light1'}}") in
  let message := fst (Ref.decodeMessage (bodyOf r)) in
  ObjectContent (Object message) = "@ha turn_on light1"
  /\ messageHandling env Ref.config r (fresh 0)
     = (Returned tt, {| draws := 0; trace := [ReadBody; HttpError "Received" 200] |}).
Proof.
  intros env r message.
  split; [evaluate|].
  refine (proj1 (undecodable_content_is_dropped env Ref.config r 0 message
                   {| RichMessage := EmptyString |} "invalid character in JSON text"
                   eq_refl eq_refl _ _ _ _)); evaluate.
Defined.

(** X5.  The handler answers 400 exactly to a POST whose body cannot be
    read, whose signature does not verify, or whose envelope the decoder
    refuses; every other request on which it returns is answered 200;
    no other status is ever written. *)
Theorem bad_request_iff (env : Env) (config : Config) (r : Http.Request) (d : nat) :
  ((exists text, served (messageHandling env config r (fresh d))
                 = Some (Http.StatusBadRequest, text))
   <-> Http.Method r = Http.MethodPost
       /\ (Http.readErr (Http.Body r) <> None
           \/ verify (bodyOf r) (randomOf r) (signatureOf r) (bot_secret config) = false
           \/ snd (createMessage env (bodyOf r)) <> None))
  /\ (forall text code,
        In (HttpError text code) (eventsOf (messageHandling env config r (fresh d))) ->
        code = Http.StatusOK \/ code = Http.StatusBadRequest)
  /\ (forall code text,
        served (messageHandling env config r (fresh d)) = Some (code, text) ->
        code = Http.StatusOK \/ code = Http.StatusBadRequest).
Proof.
  apply handler_paths.
  - intros Hm. split; [split|split].
    + intros (t & E). discriminate E.
    + intros (Hm' & _). contradiction.
    + intros t c [].
    + intros c t [= <- _]. now left.
  - intros e Hm He. split; [split|split].
    + intros _. split; [exact Hm|]. left. congruence.
    + intros _. eexists. reflexivity.
    + intros t c [E|[E|[E|[]]]]; try discriminate E. injection E as _ <-. now right.
    + intros c t [= <- _]. now right.
  - intros Hm He Hv. split; [split|split].
    + intros _. split; [exact Hm|]. right. now left.
    + intros _. eexists. reflexivity.
    + intros t c [E|[E|[E|[]]]]; try discriminate E. injection E as _ <-. now right.
    + intros c t [= <- _]. now right.
  - intros message e Hm He Hv Hc. split; [split|split].
    + intros _. split; [exact Hm|]. right. right. rewrite Hc. discriminate.
    + intros _. eexists. reflexivity.
    + intros t c [E|[E|[E|[]]]]; try discriminate E. injection E as _ <-. now right.
    + intros c t [= <- _]. now right.
  - intros message Hm He Hv Hc _. split; [split|split].
    + intros (t & E). discriminate E.
    + intros (_ & [H|[H|H]]); [congruence | congruence | rewrite Hc in H; now elim H].
    + intros t c [E|[E|[]]]; try discriminate E. injection E as _ <-. now left.
    + intros c t [= <- _]. now left.
  - intros message rich (Hm & He & Hv & Hc & _) _. split; [split|split].
    + intros (t & E). discriminate E.
    + intros (_ & [H|[H|H]]); [congruence | congruence | rewrite Hc in H; now elim H].
    + intros t c [E|[E|[E|[]]]]; try discriminate E. injection E as _ <-. now left.
    + intros c t [= <- _]. now left.
  - intros message rich (Hm & He & Hv & Hc & _) _ json ok d' dispatched.
    assert (No : ~ (Http.Method r = Http.MethodPost
                    /\ (Http.readErr (Http.Body r) <> None
                        \/ verify (bodyOf r) (randomOf r) (signatureOf r) (bot_secret config)
                           = false
                        \/ snd (createMessage env (bodyOf r)) <> None))).
    { intros (_ & [H|[H|H]]); [congruence | congruence | rewrite Hc in H; now elim H]. }
    destruct (newRequestError env "POST" _) as [err|].
    + split; [split|split].
      * intros (t & E). discriminate E.
      * intros H. now elim No.
      * unfold eventsOf, dispatched. cbn [snd trace app].
        intros t c [E|[E|[E|[E|[E|[]]]]]]; discriminate E.
      * intros c t E. discriminate E.
    + unfold served, outcomeOf, eventsOf, dispatched, replyEvents. cbn [fst snd trace app written].
      destruct (clientDo env replyClient _) as [err|]; cbn [app written].
      * split; [split|split].
        -- intros (t & E). discriminate E.
        -- intros H. now elim No.
        -- intros t c [E|[E|[E|[E|[E|[E|[E|[]]]]]]]]; try discriminate E.
           injection E as _ <-. now left.
        -- intros c t [= <- _]. now left.
      * split; [split|split].
        -- intros (t & E). discriminate E.
        -- intros H. now elim No.
        -- intros t c [E|[E|[E|[E|[E|[E|[]]]]]]]; try discriminate E.
           injection E as _ <-. now left.
        -- intros c t [= <- _]. now left.
Qed.

Lemma repliesFollow_split (t : list Event) : forall seen before e after,
  repliesFollow seen t = true ->
  t = (before ++ e :: after)%list ->
  isReply e = true ->
  seen || existsb isDispatch before = true.
Proof.
  induction t as [|x t IH]; intros seen before e after H E He.
  - destruct before; discriminate E.
  - cbn [repliesFollow] in H. apply andb_true_iff in H as [H1 H2].
    destruct before as [|y before]; cbn [app] in E; injection E as -> ->.
    + rewrite He in H1. rewrite H1. reflexivity.
    + cbn [existsb]. rewrite orb_assoc. exact (IH _ before e after H2 eq_refl He).
Qed.

(** X6.  Whatever the request, the handler reads the body at most once,
    calls the webhook at most once, hands at most one reply to
    [client.Do] and writes at most one response; a reply is only sent
    once the webhook has been called, and nothing is retried. *)
Theorem at_most_once (env : Env) (config : Config) (r : Http.Request) (d : nat) :
  let events := eventsOf (messageHandling env config r (fresh d)) in
  List.length (filter isRead events) <= 1
  /\ List.length (filter isDispatch events) <= 1
  /\ List.length (filter isReply events) <= 1
  /\ List.length (filter isWrite events) <= 1
  /\ (forall before client request after,
        events = (before ++ ClientDo client request :: after)%list ->
        existsb isDispatch before = true).
Proof.
  cbv zeta.
  assert (H : let events := eventsOf (messageHandling env config r (fresh d)) in
              List.length (filter isRead events) <= 1
              /\ List.length (filter isDispatch events) <= 1
              /\ List.length (filter isReply events) <= 1
              /\ List.length (filter isWrite events) <= 1
              /\ repliesFollow false events = true).
  { cbv zeta. apply handler_paths; unfold eventsOf; cbn [snd trace fresh].
    - intros _. cbn. repeat split; lia.
    - intros e _ _. cbn [filter isRead isDispatch isReply isWrite List.length
                         repliesFollow orb andb].
      repeat split; lia.
    - intros _ _ _. cbn [filter isRead isDispatch isReply isWrite List.length
                         repliesFollow orb andb].
      repeat split; lia.
    - intros message e _ _ _ _.
      cbn [filter isRead isDispatch isReply isWrite List.length repliesFollow orb andb].
      repeat split; lia.
    - intros message _ _ _ _ _.
      cbn [filter isRead isDispatch isReply isWrite List.length repliesFollow orb andb].
      repeat split; lia.
    - intros message rich _ _.
      cbn [filter isRead isDispatch isReply isWrite List.length repliesFollow orb andb].
      repeat split; lia.
    - intros message rich _ _. cbv zeta.
      destruct (newRequestError env "POST" _) as [err|]; unfold replyEvents;
        cbn [snd trace app].
      + cbn [filter isRead isDispatch isReply isWrite List.length repliesFollow orb andb].
        repeat split; lia.
      + destruct (clientDo env replyClient _) as [err|];
          cbn [app filter isRead isDispatch isReply isWrite List.length
               repliesFollow orb andb];
          repeat split; lia. }
  cbv zeta in H. destruct H as (H1 & H2 & H3 & H4 & H5).
  repeat split; try assumption.
  intros before client request after E.
  exact (repliesFollow_split _ false before _ after H5 E eq_refl).
Qed.

(** X7.  The handler ends the process in one situation only: a command
    has been dispatched and [http.NewRequest] refuses the URL of the
    reply.  The exit status is then 1, the webhook has already been
    called, and nothing has been written to the response.  On every
    other request the handler returns. *)
Theorem exit_iff (env : Env) (config : Config) (r : Http.Request) (d : nat) :
  let res := messageHandling env config r (fresh d) in
  (outcomeOf res = Returned tt \/ outcomeOf res = Exited 1)
  /\ (outcomeOf res = Exited 1
      <-> exists message rich,
            carriesText env config r message rich
            /\ Regexp.Match triggerMessageRegex (RichMessage rich) = true
            /\ newRequestError env "POST" (replyURL (backendOf r) message) <> None)
  /\ (outcomeOf res = Exited 1 ->
      existsb isDispatch (eventsOf res) = true /\ filter isWrite (eventsOf res) = []).
Proof.
  cbv zeta.
  assert (H : let res := messageHandling env config r (fresh d) in
              (outcomeOf res = Returned tt \/ outcomeOf res = Exited 1)
              /\ (outcomeOf res = Exited 1 ->
                  (exists message rich,
                      carriesText env config r message rich
                      /\ Regexp.Match triggerMessageRegex (RichMessage rich) = true
                      /\ newRequestError env "POST" (replyURL (backendOf r) message) <> None)
                  /\ existsb isDispatch (eventsOf res) = true
                  /\ filter isWrite (eventsOf res) = [])).
  { cbv zeta. apply handler_paths; unfold outcomeOf, eventsOf; cbn [fst snd trace].
    - intros _. split; [now left | discriminate].
    - intros e _ _. split; [now left | discriminate].
    - intros _ _ _. split; [now left | discriminate].
    - intros message e _ _ _ _. split; [now left | discriminate].
    - intros message _ _ _ _ _. split; [now left | discriminate].
    - intros message rich _ _. split; [now left | discriminate].
    - intros message rich C Ht. cbv zeta.
      destruct (newRequestError env "POST" (replyURL (backendOf r) message)) as [err|] eqn:Hn;
        cbn [fst snd trace].
      + split; [now right|]. intros _. split; [|split; reflexivity].
        exists message, rich. split; [exact C|]. split; [exact Ht|]. rewrite Hn. discriminate.
      + split; [now left | discriminate]. }
  cbv zeta in H. destruct H as (H1 & H2).
  split; [exact H1|]. split; [split|].
  - intros E. exact (proj1 (H2 E)).
  - intros (message & rich & (Hm & He & Hv & Hc & Hn & Hr) & Ht & Hq).
    rewrite (path_command env config r d Hm He Hv message Hc Hn rich Hr Ht).
    destruct (newRequestError env "POST" (replyURL (backendOf r) message));
      [reflexivity | now elim Hq].
  - intros E. exact (proj2 (H2 E)).
Qed.

Lemma exit_iff_witness :
  let env := Ref.env (Http.PostResponse 200) None in
  let r := Ref.signed (Ref.envelope "@ha turn_on light1" ("room" ++ LF)) in
  outcomeOf (messageHandling env Ref.config r (fresh 0)) = Exited 1
  /\ existsb isDispatch (eventsOf (messageHandling env Ref.config r (fresh 0))) = true
  /\ filter isWrite (eventsOf (messageHandling env Ref.config r (fresh 0))) = [].
Proof.
  intros env r.
  destruct (exit_iff env Ref.config r 0) as (_ & H2 & H3).
  assert (E : outcomeOf (messageHandling env Ref.config r (fresh 0)) = Exited 1).
  { apply H2.
    exists (fst (Ref.decodeMessage (bodyOf r))), {| RichMessage := "@ha turn_on light1" |}.
    split; [unfold carriesText; conjuncts; evaluate|].
    split; [evaluate|]. intros N. vm_compute in N. discriminate N. }
  split; [exact E | exact (H3 E)].
Defined.

(** X8.  The handler keeps no record of the nonces it has seen: when a
    signed command is delivered a second time, unchanged, it verifies
    again, the webhook is called again with the same body, a second
    reply is sent and the answer is 200 "Received" again. *)
Theorem replayed_command_is_dispatched_again (env : Env) (config : Config)
        (r : Http.Request) (d : nat) (message : Message) (rich : RichObjectMessage) :
  carriesText env config r message rich ->
  startsWithCommand (RichMessage rich) ->
  newRequestError env "POST" (replyURL (backendOf r) message) = None ->
  let first := messageHandling env config r (fresh d) in
  let second := messageHandling env config r (snd first) in
  let post := WebhookPost (webhookURL config) "application/json"
                          (Some (commandBody (RichMessage rich))) in
  outcomeOf first = Returned tt
  /\ outcomeOf second = Returned tt
  /\ filter isDispatch (eventsOf second) = [post; post]
  /\ List.length (filter isReply (eventsOf second)) = 2
  /\ filter isWrite (eventsOf second)
     = [HttpError "Received" Http.StatusOK; HttpError "Received" Http.StatusOK].
Proof.
  intros (Hm & He & Hv & Hc & Hn & Hr) Hs Hq first second post.
  apply trigger_matches_iff in Hs.
  assert (P : forall k,
             exists replies,
               messageHandling env config r (fresh k)
               = (Returned tt,
                  {| draws := (if dispatchOk env config (Some (commandBody (RichMessage rich)))
                               then S k else k) + 64;
                     trace := [ReadBody;
                               Log ("[Talk]          Command found: " ++ RichMessage rich);
                               post;
                               Log (dispatchLog env config
                                      (Some (commandBody (RichMessage rich))))]
                              ++ replies ++ [HttpError "Received" Http.StatusOK] |})
               /\ filter isDispatch replies = []
               /\ List.length (filter isReply replies) = 1
               /\ filter isWrite replies = []).
  { intros k. rewrite (path_command env config r k Hm He Hv message Hc Hn rich Hr Hs), Hq.
    eexists. split; [reflexivity|]. unfold replyEvents.
    destruct (clientDo env replyClient _); repeat split. }
  destruct (P d) as (r1 & E1 & D1 & R1 & W1).
  unfold second. rewrite (framed_messageHandling env config r (snd first)).
  unfold first. rewrite E1. cbn [snd draws].
  destruct (P ((if dispatchOk env config (Some (commandBody (RichMessage rich)))
                then S d else d) + 64)) as (r2 & E2 & D2 & R2 & W2).
  rewrite E2. unfold onto, outcomeOf, eventsOf. cbn [fst snd trace].
  split; [reflexivity|]. split; [reflexivity|].
  rewrite !filter_app. cbn [filter isDispatch isReply isWrite app].
  rewrite D1, D2, W1, W2. rewrite !length_app, R1, R2.
  repeat split.
Qed.

Lemma replayed_command_is_dispatched_again_witness :
  let env := Ref.env (Http.PostResponse 200) None in
  let r := Ref.signed (Ref.envelope "@ha turn_on light1" "room1") in
  let first := messageHandling env Ref.config r (fresh 0) in
  let second := messageHandling env Ref.config r (snd first) in
  carriesText env Ref.config r (fst (Ref.decodeMessage (bodyOf r)))
              {| RichMessage := "@ha turn_on light1" |}
  /\ filter isDispatch (eventsOf second)
     = [WebhookPost "http://ha.local:8123/api/webhook/talk-bot" "application/json"
                    (Some (commandFormat "turn_on" "light1"));
        WebhookPost "http://ha.local:8123/api/webhook/talk-bot" "application/json"
                    (Some (commandFormat "turn_on" "light1"))].
Proof.
  intros env r first second.
  assert (C : carriesText env Ref.config r (fst (Ref.decodeMessage (bodyOf r)))
                          {| RichMessage := "@ha turn_on light1" |}).
  { unfold carriesText. conjuncts; evaluate. }
  split; [exact C|].
  assert (S : startsWithCommand "@ha turn_on light1").
  { apply trigger_matches_iff. reflexivity. }
  destruct (replayed_command_is_dispatched_again env Ref.config r 0 _ _ C S eq_refl)
    as (_ & _ & H & _).
  exact H.
Defined.

(* ------------------------------------------------------------------ *)
(** ** Nonces, signatures and replies *)

Lemma nonceFrom_add (env : Env) (m n : nat) : forall d,
  nonceFrom env d (m + n) = nonceFrom env d m ++ nonceFrom env (d + m) n.
Proof.
  induction m as [|m IH]; intros d.
  - cbn. now rewrite Nat.add_0_r.
  - cbn [Nat.add nonceFrom append]. rewrite IH. now rewrite Nat.add_succ_r.
Qed.

Lemma get_nonceFrom (env : Env) (n : nat) : forall d i,
  i < n ->
  String.get i (nonceFrom env d n)
  = Some (byteAt letterBytes (randSource env (d + i) mod String.length letterBytes)).
Proof.
  induction n as [|n IH]; intros d i H; [lia|].
  cbn [nonceFrom]. destruct i as [|i].
  - cbn [String.get]. now rewrite Nat.add_0_r.
  - cbn [String.get]. rewrite IH by lia. now rewrite Nat.add_succ_r.
Qed.

(** X9.  [generateRandomBytes n] returns [n] bytes, each of them a
    letter or digit of [letterBytes], the [i]-th chosen by the [i]-th
    next value of the generator; it takes exactly [n] values and does
    nothing else.  Drawing [m + n] bytes at once gives what drawing [m]
    and then [n] gives. *)
Theorem generateRandomBytes_spec (env : Env) (n : nat) (w : World) :
  exists s,
    generateRandomBytes env n w
    = (Returned s, {| draws := draws w + n; trace := trace w |})
    /\ String.length s = n
    /\ forallb_str (fun c => inb c letterBytes) s = true
    /\ (forall i, i < n ->
          String.get i s
          = Some (byteAt letterBytes (randSource env (draws w + i) mod 62)))
    /\ (forall m k, n = m + k ->
          (a <- generateRandomBytes env m ;;
           b <- generateRandomBytes env k ;;
           ret (a ++ b)) w
          = generateRandomBytes env n w).
Proof.
  exists (nonceFrom env (draws w) n).
  split; [apply generateRandomBytes_run|].
  split; [apply length_nonceFrom|].
  split; [apply nonceFrom_alphabet|].
  split; [intros i Hi; now apply get_nonceFrom|].
  intros m k ->. unfold bind. rewrite (generateRandomBytes_run env m w).
  rewrite (generateRandomBytes_run env k). cbn [draws trace]. unfold ret.
  rewrite (generateRandomBytes_run env (m + k) w).
  now rewrite nonceFrom_add, Nat.add_assoc.
Qed.

(** X10.  A signature the check accepts is made of exactly 64 lower-case
    hexadecimal digits: a POST whose signature header has another
    length, or holds any other byte (an upper-case digit, say), is
    answered 400 "Invalid signature" whatever its body is. *)
Theorem signature_must_be_lower_hex (env : Env) (config : Config) (r : Http.Request)
        (d : nat) :
  Http.Method r = Http.MethodPost ->
  Http.readErr (Http.Body r) = None ->
  String.length (signatureOf r) <> 64
  \/ forallb_str isLowerHex (signatureOf r) = false ->
  verify (bodyOf r) (randomOf r) (signatureOf r) (bot_secret config) = false
  /\ served (messageHandling env config r (fresh d))
     = Some (Http.StatusBadRequest, "Invalid signature" ++ LF)
  /\ filter isOutbound (eventsOf (messageHandling env config r (fresh d))) = [].
Proof.
  intros Hm He Hs.
  assert (Hv : verify (bodyOf r) (randomOf r) (signatureOf r) (bot_secret config) = false).
  { destruct (verify _ _ _ _) eqn:V; [|reflexivity]. exfalso.
    unfold verify in V. apply String.eqb_eq in V.
    destruct (generateHmacForString_shape (bodyOf r) (randomOf r) (bot_secret config))
      as (L & H).
    rewrite V in L, H. destruct Hs as [Hs|Hs]; congruence. }
  split; [exact Hv|].
  rewrite (path_bad_signature env config r d Hm He Hv). split; reflexivity.
Qed.

Lemma signature_must_be_lower_hex_witness :
  let env := Ref.env (Http.PostResponse 200) None in
  let body := Ref.envelope "@ha turn_on light1" "room1" in
  let r := Ref.request "POST" body
             (upperCase (generateHmacForString body Ref.nonce (bot_secret Ref.config))) in
  String.length (signatureOf r) = 64
  /\ forallb_str isLowerHex (signatureOf r) = false
  /\ served (messageHandling env Ref.config r (fresh 0))
     = Some (400, "Invalid signature" ++ LF).
Proof.
  intros env body r.
  assert (H : forallb_str isLowerHex (signatureOf r) = false) by evaluate.
  split; [evaluate|]. split; [exact H|].
  exact (proj1 (proj2 (signature_must_be_lower_hex env Ref.config r 0
                         eq_refl eq_refl (or_intror H)))).
Defined.

(** X11.  The digest is taken over the nonce and the payload put end to
    end, with nothing between them: bytes moved from the front of the
    payload to the back of the nonce leave the signature, and so the
    verdict of the check, unchanged. *)
Theorem nonce_payload_boundary (payload nonce moved signature secret : string) :
  generateHmacForString (moved ++ payload) nonce secret
  = generateHmacForString payload (nonce ++ moved) secret
  /\ verify (moved ++ payload) nonce signature secret
     = verify payload (nonce ++ moved) signature secret.
Proof.
  assert (E : generateHmacForString (moved ++ payload) nonce secret
              = generateHmacForString payload (nonce ++ moved) secret).
  { unfold generateHmacForString. cbv zeta. now rewrite append_assoc. }
  split; [exact E|]. unfold verify. now rewrite E.
Qed.

(** X12.  [sendReply] always takes 64 values for its nonce.  When
    [http.NewRequest] refuses the URL it logs that and ends the process
    with status 1 without calling [client.Do]; otherwise it calls
    [client.Do] once and returns, and an error of [client.Do] is only
    logged. *)
Theorem sendReply_outcome (env : Env) (config : Config) (server : string)
        (message : Message) (responseText : string) (d : nat) :
  let res := sendReply env config server message responseText (fresh d) in
  let request := replyRequest env config server message responseText (nonceFrom env d 64) in
  draws (snd res) = d + 64
  /\ match newRequestError env "POST" (replyURL server message) with
     | Some err =>
         outcomeOf res = Exited 1
         /\ eventsOf res = [Log ("[Response]      Error creating request " ++ err)]
     | None =>
         outcomeOf res = Returned tt
         /\ match clientDo env replyClient request with
            | Some err =>
                eventsOf res
                = [ClientDo replyClient request;
                   Log ("[Response]      Error posting request " ++ err)]
            | None => eventsOf res = [ClientDo replyClient request]
            end
     end.
Proof.
  cbv zeta. rewrite sendReply_run. cbv zeta. cbn [fresh draws trace app].
  destruct (newRequestError env "POST" (replyURL server message)) as [err|].
  - repeat split.
  - unfold eventsOf, replyEvents. cbn [snd fst trace outcomeOf].
    destruct (clientDo env replyClient _); repeat split.
Qed.

(* ------------------------------------------------------------------ *)
(** ** strings.Fields on tokens and blanks *)

Lemma asciiSpace_is_ascii (c : ascii) : Strings.asciiSpace c = true -> Utf8.isASCII c = true.
Proof.
  destruct c as [[] [] [] [] [] [] [] []]; intros H; vm_compute in H;
    try discriminate H; reflexivity.
Qed.

Lemma runes_token (t : string) : forall tail b cur,
  forallb_str tokenByte t = true ->
  Strings.fieldsRunes Utf8.IsSpace (t ++ tail) 0 b (Some cur)
  = Strings.fieldsRunes Utf8.IsSpace tail 0 b (Some (cur ++ t)).
Proof.
  induction t as [|c t IH]; intros tail b cur H.
  - cbn [append]. now rewrite append_nil_r.
  - cbn [forallb_str] in H. apply andb_true_iff in H as [Hc Ht].
    unfold tokenByte in Hc. apply andb_true_iff in Hc as [Ha Hs].
    apply negb_true_iff in Hs.
    cbn [append]. rewrite runes_nonspace by assumption. cbn [Strings.extend].
    rewrite IH by exact Ht. rewrite append_assoc. cbn [append].
    apply fieldsRunes_start.
Qed.

Lemma runes_blank (s : string) : forall tail b,
  allBlank s ->
  Strings.fieldsRunes Utf8.IsSpace (s ++ tail) 0 b None
  = Strings.fieldsRunes Utf8.IsSpace tail 0 b None.
Proof.
  induction s as [|c s IH]; intros tail b H; [reflexivity|].
  unfold allBlank in H. cbn [forallb_str] in H. apply andb_true_iff in H as [Hc Hs].
  cbn [append]. rewrite runes_space by (try apply asciiSpace_is_ascii; assumption).
  cbn [Strings.flush]. rewrite (IH tail true Hs). apply fieldsRunes_start.
Qed.

(** Blanks in front are skipped, and a token that ends a field is the
    next field. *)
Lemma Fields_token (lead t tail : string) :
  allBlank lead -> isToken t -> endsField tail ->
  Strings.Fields (lead ++ t ++ tail) = t :: Strings.Fields tail.
Proof.
  intros Hl [Hn Ht] He. rewrite !Fields_FieldsFunc. unfold Strings.FieldsFunc.
  rewrite runes_blank by exact Hl.
  destruct t as [|c t]; [congruence|].
  cbn [forallb_str] in Ht. apply andb_true_iff in Ht as [Hc Ht].
  unfold tokenByte in Hc. apply andb_true_iff in Hc as [Ha Hs]. apply negb_true_iff in Hs.
  cbn [append]. rewrite runes_nonspace by assumption. cbn [Strings.extend].
  rewrite runes_token by exact Ht. cbn [append].
  destruct He as [->|(s & rest & -> & Hsp)].
  - reflexivity.
  - rewrite !runes_space by (try apply asciiSpace_is_ascii; assumption).
    reflexivity.
Qed.

Lemma Fields_blank (s : string) : allBlank s -> Strings.Fields s = [].
Proof.
  intros H. rewrite Fields_FieldsFunc. unfold Strings.FieldsFunc.
  rewrite <- (append_nil_r s). now rewrite runes_blank.
Qed.

Lemma blank_ends_field (s tail : string) : isBlank s -> endsField (s ++ tail).
Proof.
  intros [Hn H]. destruct s as [|c s]; [congruence|]. right.
  unfold allBlank in H. cbn [forallb_str] in H. apply andb_true_iff in H as [Hc _].
  exists c, (s ++ tail). now split.
Qed.

(** X13.  [commandToJson] takes the second and the third token of its
    text, whatever the first token is, however much white space stands
    before and between the tokens and whatever follows the third one;
    of a text with two tokens only it makes nothing: it logs and
    returns nil. *)
Theorem commandToJson_takes_second_and_third (lead t0 s1 t1 s2 t2 tail : string) (w : World) :
  allBlank lead -> isToken t0 -> isBlank s1 -> isToken t1 -> isBlank s2 -> isToken t2 ->
  endsField tail ->
  Strings.Fields (lead ++ t0 ++ s1 ++ t1 ++ s2 ++ t2 ++ tail)
  = t0 :: t1 :: t2 :: Strings.Fields tail
  /\ commandToJson (lead ++ t0 ++ s1 ++ t1 ++ s2 ++ t2 ++ tail) w
     = (Returned (Some (commandFormat t1 t2)), w)
  /\ (allBlank tail ->
      commandToJson (lead ++ t0 ++ s1 ++ t1 ++ tail) w
      = (Returned None,
         {| draws := draws w;
            trace := trace w
                     ++ [Log "[Talk]          Command doesn't contain at least two words."] |})).
Proof.
  intros Hl H0 Hs1 H1 Hs2 H2 He.
  assert (F : Strings.Fields (lead ++ t0 ++ s1 ++ t1 ++ s2 ++ t2 ++ tail)
              = t0 :: t1 :: t2 :: Strings.Fields tail).
  { rewrite (Fields_token lead t0 _ Hl H0 (blank_ends_field s1 _ Hs1)).
    rewrite (Fields_token s1 t1 _ (proj2 Hs1) H1 (blank_ends_field s2 _ Hs2)).
    now rewrite (Fields_token s2 t2 tail (proj2 Hs2) H2 He). }
  split; [exact F|]. split.
  - rewrite commandToJson_run. cbv zeta. rewrite F. reflexivity.
  - intros Ht. rewrite commandToJson_run. cbv zeta.
    rewrite (Fields_token lead t0 _ Hl H0 (blank_ends_field s1 _ Hs1)).
    assert (E : endsField tail).
    { destruct tail as [|c rest]; [now left|]. right. exists c, rest. split; [reflexivity|].
      unfold allBlank in Ht. cbn [forallb_str] in Ht. now apply andb_true_iff in Ht as [Hc _]. }
    rewrite (Fields_token s1 t1 tail (proj2 Hs1) H1 E), (Fields_blank tail Ht).
    reflexivity.
Qed.

Lemma commandToJson_takes_second_and_third_witness :
  let text := "  run" ++ TAB ++ "lock   door-1 now" in
  isToken "run" /\ isBlank (TAB ++ EmptyString) /\ isToken "door-1"
  /\ Strings.Fields text = ["run"; "lock"; "door-1"; "now"]
  /\ commandToJson text (fresh 0) = (Returned (Some (commandFormat "lock" "door-1")), fresh 0).
Proof.
  intros text.
  assert (T : forall t, t <> EmptyString -> forallb_str tokenByte t = true -> isToken t)
    by (intros t A B; split; assumption).
  assert (B : forall s, s <> EmptyString -> forallb_str Strings.asciiSpace s = true -> isBlank s)
    by (intros s A C; split; assumption).
  assert (H0 : isToken "run") by (apply T; [discriminate | reflexivity]).
  assert (H1 : isToken "lock") by (apply T; [discriminate | reflexivity]).
  assert (H2 : isToken "door-1") by (apply T; [discriminate | reflexivity]).
  assert (S1 : isBlank (TAB ++ EmptyString)) by (apply B; [discriminate | reflexivity]).
  assert (S2 : isBlank "   ") by (apply B; [discriminate | reflexivity]).
  assert (E : endsField " now") by (right; exists " "%char, "now"; split; reflexivity).
  destruct (commandToJson_takes_second_and_third "  " "run" (TAB ++ EmptyString) "lock" "   "
              "door-1" " now" (fresh 0) eq_refl H0 S1 H1 S2 H2 E) as (F & C & _).
  split; [exact H0|]. split; [exact S1|]. split; [exact H2|].
  split; [exact F | exact C].
Defined.

(* ------------------------------------------------------------------ *)
(** ** Headers and URLs *)

Lemma lookup_filter_other (k k' : string) (h : Http.Header) :
  k <> k' ->
  Http.lookup k' (filter (fun kv => negb (String.eqb k (fst kv))) h) = Http.lookup k' h.
Proof.
  intros Hne. induction h as [|[a v] h IH]; [reflexivity|].
  cbn [filter fst]. destruct (String.eqb_spec k a) as [<-|Hka]; cbn [negb Http.lookup].
  - rewrite IH. apply String.eqb_neq in Hne. rewrite String.eqb_sym in Hne. now rewrite Hne.
  - now rewrite IH.
Qed.

Lemma Get_Set_same (h : Http.Header) (key value : string) :
  Http.Get (Http.Set_ h key value) key = value.
Proof. unfold Http.Get, Http.Set_. cbn [Http.lookup]. now rewrite String.eqb_refl. Qed.

Lemma Get_Set_other (h : Http.Header) (key key' value : string) :
  Http.CanonicalMIMEHeaderKey key <> Http.CanonicalMIMEHeaderKey key' ->
  Http.Get (Http.Set_ h key value) key' = Http.Get h key'.
Proof.
  intros Hne. unfold Http.Get, Http.Set_. cbn [Http.lookup].
  destruct (String.eqb_spec (Http.CanonicalMIMEHeaderKey key')
                            (Http.CanonicalMIMEHeaderKey key)) as [E|_]; [congruence|].
  now rewrite lookup_filter_other.
Qed.

Lemma TrimRight_slashes (k : nat) : Strings.TrimRight (replicate k "/") "/" = EmptyString.
Proof. induction k as [|k IH]; [reflexivity|]. cbn [replicate Strings.TrimRight]. now rewrite IH. Qed.

Lemma TrimRight_append_slashes (s : string) (k : nat) :
  Strings.TrimRight (s ++ replicate k "/") "/" = Strings.TrimRight s "/".
Proof.
  induction s as [|c s IH].
  - cbn [append]. apply TrimRight_slashes.
  - cbn [append Strings.TrimRight]. now rewrite IH.
Qed.

(** X14.  On a text that starts with a command the fields begin with
    the marker, the action is the first word after it and consists of
    letters, digits and underscores only, and the target begins with the
    second word and runs on to the next white space; these two are what
    the body carries. *)
Theorem command_fields (text : string) :
  startsWithCommand text ->
  exists action word more others,
    Strings.Fields text = "@ha" :: action :: (word ++ more) :: others
    /\ isWord action /\ isWord word
    /\ commandBody text = commandFormat action (word ++ more).
Proof.
  intros (s1 & w1 & s2 & w2 & rest & E & Hs1 & Hw1 & Hs2 & Hw2).
  destruct (Fields_command s1 w1 s2 w2 rest Hs1 Hw1 Hs2 Hw2) as (x & l & F).
  exists w1, w2, x, l. rewrite <- E in F. split; [exact F|]. split; [exact Hw1|].
  split; [exact Hw2|]. unfold commandBody. cbv zeta. rewrite F. reflexivity.
Qed.

Lemma command_fields_witness :
  startsWithCommand "@ha turn_on light1!? maybe"
  /\ Strings.Fields "@ha turn_on light1!? maybe" = ["@ha"; "turn_on"; "light1!?"; "maybe"]
  /\ commandBody "@ha turn_on light1!? maybe" = commandFormat "turn_on" "light1!?".
Proof.
  assert (S : startsWithCommand "@ha turn_on light1!? maybe").
  { apply trigger_matches_iff. reflexivity. }
  split; [exact S|].
  destruct (command_fields _ S) as (a & w & m & o & F & _ & _ & B).
  split; [reflexivity|]. rewrite B.
  assert (E : "@ha" :: a :: (w ++ m) :: o = ["@ha"; "turn_on"; "light1!?"; "maybe"])
    by (rewrite <- F; reflexivity).
  injection E as -> -> _. reflexivity.
Defined.

(** X15.  Trailing slashes of the configured base URL make no
    difference: with any number of them added, [callWebhook] posts to
    the same URL and does the same. *)
Theorem trailing_slashes_are_ignored (env : Env) (config : Config) (k : nat)
        (jsonData : option string) (w : World) :
  let config' := withBaseURL config (bot_ha_url config ++ replicate k "/") in
  webhookURL config' = webhookURL config
  /\ callWebhook env config' jsonData w = callWebhook env config jsonData w.
Proof.
  cbv zeta.
  assert (U : webhookURL (withBaseURL config (bot_ha_url config ++ replicate k "/"))
              = webhookURL config).
  { unfold webhookURL, withBaseURL. cbn [bot_ha_url bot_ha_webhook_id].
    now rewrite TrimRight_append_slashes. }
  split; [exact U|].
  rewrite !callWebhook_run. unfold dispatchOk, dispatchLog, hubAnswer. now rewrite U.
Qed.

(** X16.  The backend header is not covered by the signature: with any
    other value in it a signed command still verifies and is handled as
    before, and the reply, signed with the shared secret, is posted to
    the URL that starts with the new value. *)
Theorem reply_goes_where_the_header_says (env : Env) (config : Config) (r : Http.Request)
        (d : nat) (message : Message) (rich : RichObjectMessage) (server : string) :
  carriesText env config r message rich ->
  startsWithCommand (RichMessage rich) ->
  newRequestError env "POST" (replyURL server message) = None ->
  let r' := withBackend r server in
  let ok := dispatchOk env config (Some (commandBody (RichMessage rich))) in
  carriesText env config r' message rich
  /\ exists request,
       filter isReply (eventsOf (messageHandling env config r' (fresh d)))
       = [ClientDo replyClient request]
       /\ Http.OutURL request
          = server ++ "ocs/v2.php/apps/spreed/api/v1/bot/" ++ TargetId (Target message)
                   ++ "/message"
       /\ Http.Get (Http.OutHeader request) "X-Nextcloud-Talk-Bot-Signature"
          = generateHmacForString (replyText ok)
              (Http.Get (Http.OutHeader request) "X-Nextcloud-Talk-Bot-Random")
              (bot_secret config).
Proof.
  intros (Hm & He & Hv & Hc & Hn & Hr) Hs Hq r' ok.
  assert (B : backendOf r' = server) by apply Get_Set_same.
  assert (R : randomOf r' = randomOf r).
  { apply Get_Set_other. intros E. vm_compute in E. discriminate E. }
  assert (S : signatureOf r' = signatureOf r).
  { apply Get_Set_other. intros E. vm_compute in E. discriminate E. }
  assert (C : carriesText env config r' message rich).
  { unfold carriesText, bodyOf in *. rewrite R, S. cbn [r' withBackend Http.Method Http.Body].
    auto 10. }
  split; [exact C|].
  destruct C as (Hm' & He' & Hv' & Hc' & _).
  apply trigger_matches_iff in Hs.
  rewrite (path_command env config r' d Hm' He' Hv' message Hc' Hn rich Hr Hs).
  rewrite B, Hq. fold ok.
  eexists. unfold eventsOf, replyEvents. cbn [snd trace].
  split; [|split].
  - destruct (clientDo env replyClient _); reflexivity.
  - reflexivity.
  - reflexivity.
Qed.

Lemma reply_goes_where_the_header_says_witness :
  let env := Ref.env (Http.PostResponse 200) None in
  let r := Ref.signed (Ref.envelope "@ha turn_on light1" "room1") in
  let r' := withBackend r "https://elsewhere.example/" in
  carriesText env Ref.config r (fst (Ref.decodeMessage (bodyOf r)))
              {| RichMessage := "@ha turn_on light1" |}
  /\ exists request,
       filter isReply (eventsOf (messageHandling env Ref.config r' (fresh 0)))
       = [ClientDo replyClient request]
       /\ Http.OutURL request
          = "https://elsewhere.example/ocs/v2.php/apps/spreed/api/v1/bot/room1/message".
Proof.
  intros env r r'.
  assert (C : carriesText env Ref.config r (fst (Ref.decodeMessage (bodyOf r)))
                          {| RichMessage := "@ha turn_on light1" |}).
  { unfold carriesText. conjuncts; evaluate. }
  split; [exact C|].
  assert (S : startsWithCommand "@ha turn_on light1").
  { apply trigger_matches_iff. reflexivity. }
  destruct (reply_goes_where_the_header_says env Ref.config r 0 _ _
              "https://elsewhere.example/" C S eq_refl) as (_ & request & H1 & H2 & _).
  exists request. split; [exact H1|]. rewrite H2. evaluate.
Defined.

(* ------------------------------------------------------------------ *)
(** ** What the handler does not look at *)

Lemma bind_ext {A B} (m : M A) (k k' : A -> M B) (w : World) :
  (forall a w', k a w' = k' a w') -> bind m k w = bind m k' w.
Proof. intros H. unfold bind. destruct (m w) as [[a|c] w']; [apply H | reflexivity]. Qed.

Lemma bind_ext_l {A B} (m m' : M A) (k : A -> M B) (w : World) :
  m w = m' w -> bind m k w = bind m' k w.
Proof. intros H. unfold bind. now rewrite H. Qed.

Lemma sendReply_fields (env : Env) (config : Config) (server : string)
      (m m' : Message) (text : string) (f : string -> Message * error) (w : World) :
  sameForHandler m m' ->
  sendReply (withEnvelopeDecoder env f) config server m text w
  = sendReply env config server m' text w.
Proof.
  intros (_ & _ & Hi & Ht). rewrite !sendReply_run.
  unfold replyURL, replyRequest, replyURL, replyEvents. cbv zeta.
  cbn [withEnvelopeDecoder newRequestError clientDo jsonMarshalResponse].
  replace (nonceFrom (withEnvelopeDecoder env f) (draws w) 64)
    with (nonceFrom env (draws w) 64).
  - now rewrite Hi, Ht.
  - generalize (draws w). generalize 64. intros n. induction n as [|n IH]; intros k;
      [reflexivity|]. cbn [nonceFrom withEnvelopeDecoder randSource]. now rewrite IH.
Qed.

(** X17.  A request that is refused (another method, an unreadable body
    or a signature that does not verify) is refused without the help of
    the environment: no decoder is asked, no value is drawn, no network
    call is made, so that the run is the same in every environment. *)
Theorem refusal_needs_no_environment (env env' : Env) (config : Config)
        (r : Http.Request) (d : nat) :
  Http.Method r <> Http.MethodPost
  \/ Http.readErr (Http.Body r) <> None
  \/ verify (bodyOf r) (randomOf r) (signatureOf r) (bot_secret config) = false ->
  messageHandling env config r (fresh d) = messageHandling env' config r (fresh d)
  /\ draws (snd (messageHandling env config r (fresh d))) = d
  /\ filter isOutbound (eventsOf (messageHandling env config r (fresh d))) = [].
Proof.
  intros H.
  destruct (string_dec (Http.Method r) Http.MethodPost) as [Hm|Hm].
  - destruct (Http.readErr (Http.Body r)) as [e|] eqn:He.
    + rewrite (path_unreadable env config r d Hm e He),
              (path_unreadable env' config r d Hm e He).
      split; [reflexivity|]. split; reflexivity.
    + destruct H as [H|[H|H]]; [contradiction | now elim H |].
      rewrite (path_bad_signature env config r d Hm He H),
              (path_bad_signature env' config r d Hm He H).
      split; [reflexivity|]. split; reflexivity.
  - rewrite (path_not_post env config r d Hm), (path_not_post env' config r d Hm).
    split; [reflexivity|]. split; reflexivity.
Qed.

Lemma refusal_needs_no_environment_witness :
  let r := Ref.request "POST" (Ref.envelope "@ha turn_on light1" "room1") "f00d" in
  verify (bodyOf r) (randomOf r) (signatureOf r) (bot_secret Ref.config) = false
  /\ messageHandling (Ref.env (Http.PostResponse 200) None) Ref.config r (fresh 0)
     = messageHandling (Ref.env (Http.PostFailed "down") (Some "down")) Ref.config r (fresh 0).
Proof.
  intros r.
  assert (V : verify (bodyOf r) (randomOf r) (signatureOf r) (bot_secret Ref.config) = false)
    by evaluate.
  split; [exact V|].
  exact (proj1 (refusal_needs_no_environment
                  (Ref.env (Http.PostResponse 200) None)
                  (Ref.env (Http.PostFailed "down") (Some "down"))
                  Ref.config r 0 (or_intror (or_intror V)))).
Defined.

(** X18.  Of the decoded envelope the handler reads the name, the
    content and the id of the object and the id of the target, and
    nothing else: who sent the message (the actor) and the types play
    no part, so that a decoder which agrees on these four fields and on
    the error gives the same run. *)
Theorem only_four_fields_matter (env : Env) (config : Config) (r : Http.Request)
        (f : string -> Message * error) (w : World) :
  (forall input,
      snd (f input) = snd (jsonDecodeMessage env input)
      /\ sameForHandler (fst (f input)) (fst (jsonDecodeMessage env input))) ->
  messageHandling (withEnvelopeDecoder env f) config r w = messageHandling env config r w.
Proof.
  intros Hf. unfold messageHandling.
  destruct (negb _); [reflexivity|].
  apply bind_ext. intros [body [e|]] w1; [reflexivity|]. cbv zeta.
  destruct (negb _); [reflexivity|].
  unfold createMessage. cbn [withEnvelopeDecoder jsonDecodeMessage].
  destruct (Hf body) as (He & Hs).
  destruct (f body) as [m' e']. destruct (jsonDecodeMessage env body) as [m e0].
  cbn [fst snd] in He, Hs. subst e'. destruct e0 as [e0|]; [unfold errInvalidBody; cbv iota; reflexivity|].
  apply bind_ext_l.
  destruct Hs as (Hn & Hc & Hi & Ht). rewrite Hn, Hc.
  destruct (String.eqb _ _); [|reflexivity].
  change (createRichMessageWithoutParameters (withEnvelopeDecoder env f))
    with (createRichMessageWithoutParameters env).
  destruct (createRichMessageWithoutParameters env _) as [rich [e1|]]; [reflexivity|].
  destruct (Regexp.Match _ _); [|reflexivity].
  apply bind_ext. intros _ w2. apply bind_ext. intros json w3.
  change (callWebhook (withEnvelopeDecoder env f)) with (callWebhook env).
  apply bind_ext. intros [|] w4.
  - change (getRandomResponse (withEnvelopeDecoder env f)) with (getRandomResponse env).
    apply bind_ext. intros text w5. apply sendReply_fields. repeat split; assumption.
  - apply sendReply_fields. repeat split; assumption.
Qed.

Lemma only_four_fields_matter_witness :
  let env := Ref.env (Http.PostResponse 200) None in
  let f := fun input => (anonymous (fst (Ref.decodeMessage input)),
                         snd (Ref.decodeMessage input)) in
  let r := Ref.signed (Ref.envelope "@ha turn_on light1" "room1") in
  Actor (fst (f (bodyOf r))) <> Actor (fst (Ref.decodeMessage (bodyOf r)))
  /\ messageHandling (withEnvelopeDecoder env f) Ref.config r (fresh 0)
     = messageHandling env Ref.config r (fresh 0).
Proof.
  intros env f r. split.
  - intros E. vm_compute in E. discriminate E.
  - apply only_four_fields_matter. intros input. split; [reflexivity|].
    repeat split.
Defined.

(** X19.  When a signed command has a third field without quote,
    backslash and control byte, the one body posted to the webhook is a
    JSON text: the object whose members are the action and the target,
    the second and third field of the text. *)
Theorem plain_command_is_posted_as_json (env : Env) (config : Config) (r : Http.Request)
        (d : nat) (message : Message) (rich : RichObjectMessage) :
  carriesText env config r message rich ->
  startsWithCommand (RichMessage rich) ->
  forallb_str plain (nth 2 (Strings.Fields (RichMessage rich)) EmptyString) = true ->
  exists body,
    filter isDispatch (eventsOf (messageHandling env config r (fresh d)))
    = [WebhookPost (webhookURL config) "application/json" (Some body)]
    /\ Json.parse body
       = Some (Json.Object
                 [("action", Json.Str (nth 1 (Strings.Fields (RichMessage rich)) EmptyString));
                  ("target", Json.Str (nth 2 (Strings.Fields (RichMessage rich)) EmptyString))]).
Proof.
  intros (Hm & He & Hv & Hc & Hn & Hr) Hs Hp.
  exists (commandBody (RichMessage rich)). split.
  - apply trigger_matches_iff in Hs.
    rewrite (path_command env config r d Hm He Hv message Hc Hn rich Hr Hs).
    unfold eventsOf, replyEvents.
    destruct (newRequestError env "POST" _); cbn [snd trace]; [reflexivity|].
    destruct (clientDo env replyClient _); reflexivity.
  - exact (commandBody_is_json (RichMessage rich) Hs Hp).
Qed.

Lemma plain_command_is_posted_as_json_witness :
  let env := Ref.env (Http.PostResponse 200) None in
  let r := Ref.signed (Ref.envelope "@ha turn_on light1 now" "room1") in
  carriesText env Ref.config r (fst (Ref.decodeMessage (bodyOf r)))
              {| RichMessage := "@ha turn_on light1 now" |}
  /\ exists body,
       filter isDispatch (eventsOf (messageHandling env Ref.config r (fresh 0)))
       = [WebhookPost "http://ha.local:8123/api/webhook/talk-bot" "application/json"
                      (Some body)]
       /\ Json.parse body
          = Some (Json.Object [("action", Json.Str "turn_on");
                               ("target", Json.Str "light1")]).
Proof.
  intros env r.
  assert (C : carriesText env Ref.config r (fst (Ref.decodeMessage (bodyOf r)))
                          {| RichMessage := "@ha turn_on light1 now" |}).
  { unfold carriesText. conjuncts; evaluate. }
  split; [exact C|].
  assert (S : startsWithCommand "@ha turn_on light1 now").
  { apply trigger_matches_iff. reflexivity. }
  exact (plain_command_is_posted_as_json env Ref.config r 0 _ _ C S eq_refl).
Defined.
